(** * Console-log pipeline of the Framework EC debugfs driver

    A shallow embedding of [src/fwk_ec_debugfs.c]: the circular log buffer,
    the polling work item [fwk_ec_console_log_work] that fills it from the
    EC, and the reader [fwk_ec_console_log_read] that drains it; then poll,
    suspend, resume and the panic notifier; then, in [Probe], the code that
    sets the driver up.

    Integers of the C code are [Z]; the masks of <linux/circ_buf.h> are
    written with [Z.land].  Bytes are [Byte.byte].  The storage of the
    circular buffer is a list updated by index.  The EC and its transport
    are an abstract device threaded through the calls. *)

From Stdlib Require Import ZArith Lia.
From Stdlib.Strings Require Import Byte String.
From stdpp Require Import base list.

Open Scope Z_scope.

(** ** <linux/circ_buf.h> *)

Record circ_buf := { buf : list byte; head : Z; tail : Z }.

(** Modelled from the spec: the macros of <linux/circ_buf.h> are not part of
    the driver's file.  The spec gives count = (head - tail) mod capacity and
    space = capacity - 1 - count; the definitions below are the header's own
    mask forms, and [CIRC_CNT_mod], [CIRC_SPACE_CNT] relate them to the
    spec's wording. *)
Definition CIRC_CNT (head tail size : Z) : Z := Z.land (head - tail) (size - 1).

Definition CIRC_SPACE (head tail size : Z) : Z := CIRC_CNT tail (head + 1) size.

Definition CIRC_CNT_TO_END (head tail size : Z) : Z :=
  let end_ := size - tail in
  let n := Z.land (head + end_) (size - 1) in
  if n <? end_ then n else end_.

(** [#define CIRC_ADD(idx, size, value) (((idx) + (value)) & ((size) - 1))] *)
Definition CIRC_ADD (idx size value : Z) : Z := Z.land (idx + value) (size - 1).

(** ** Constants *)

Definition LOG_POLL_SEC : Z := 10.

(** <uapi/asm-generic/errno-base.h>, <linux/errno.h>, <uapi/asm-generic/fcntl.h> *)
Definition EAGAIN : Z := 11.
Definition EFAULT : Z := 14.
Definition ERESTARTSYS : Z := 512.
Definition O_NONBLOCK : Z := 2048.

Definition CONSOLE_READ_RECENT : Z := 1.

Inductive ec_command :=
  | EC_CMD_CONSOLE_SNAPSHOT
  | EC_CMD_CONSOLE_READ (subcmd : Z).

(** [ec_buffer[idx]]; the data area is read only below [ret]. *)
Definition byte_at (l : list byte) (idx : Z) : byte :=
  if idx <? 0 then x00 else nth (Z.to_nat idx) l x00.

Definition is_nul (b : byte) : bool := Byte.eqb b x00.

(** [cb->buf + cb->tail], [n] bytes *)
Definition span (l : list byte) (start n : Z) : list byte :=
  take (Z.to_nat n) (drop (Z.to_nat start) l).

Ltac splits := repeat match goal with |- _ /\ _ => split end.

Section Driver.

(** [LOG_SIZE] is [1 << LOG_SHIFT].  The driver fixes [LOG_SHIFT] to 14 (the
    definition of that name after this section); the spec's scenarios use a
    capacity of 16.  The development holds for every shift. *)
Variable LOG_SHIFT : nat.

Definition LOG_SIZE : Z := Z.shiftl 1 (Z.of_nat LOG_SHIFT).

(** The EC behind its command transport: a transfer returns the status
    ([ret]: bytes received, or negative), the data area of the message after
    the transfer, and the device afterwards. *)
Variable ec_device : Type.
Variable fwk_ec_cmd_xfer_status :
  ec_device -> ec_command -> Z * list byte * ec_device.

(** The part of the kernel the work item touches. *)
Record state := {
  ec_dev : ec_device;
  log_buffer : circ_buf;
  (** delay in ms of the pending [log_poll_work], if it is pending *)
  log_poll_work : option Z;
  (** the static flag behind [dev_info_once] at line 90, and the kernel log *)
  print_once : bool;
  dmesg : list string;
  (** observations: commands sent, bytes stored by line 108, wake-ups of
      line 114, times the test of line 89 found no space *)
  xfers : list ec_command;
  stored : list byte;
  wakeups : nat;
  saturations : nat;
}.

(** The device after a transfer, the command noted. *)
Definition after_xfer (e : ec_device) (c : ec_command) (s : state) : state :=
  {| ec_dev := e; log_buffer := log_buffer s; log_poll_work := log_poll_work s;
     print_once := print_once s; dmesg := dmesg s;
     xfers := xfers s ++ [c]; stored := stored s; wakeups := wakeups s;
     saturations := saturations s |}.

Definition set_log_buffer (cb : circ_buf) (s : state) : state :=
  {| ec_dev := ec_dev s; log_buffer := cb; log_poll_work := log_poll_work s;
     print_once := print_once s; dmesg := dmesg s;
     xfers := xfers s; stored := stored s; wakeups := wakeups s;
     saturations := saturations s |}.

Definition set_log_poll_work (w : option Z) (s : state) : state :=
  {| ec_dev := ec_dev s; log_buffer := log_buffer s; log_poll_work := w;
     print_once := print_once s; dmesg := dmesg s;
     xfers := xfers s; stored := stored s; wakeups := wakeups s;
     saturations := saturations s |}.

(** One call of the transport on behalf of the work item. *)
Definition xfer (c : ec_command) (s : state) : Z * list byte * state :=
  let '(ret, data, e) := fwk_ec_cmd_xfer_status (ec_dev s) c in
  (ret, data, after_xfer e c s).

(** Modelled from the spec: [dev_info_once] is a kernel macro, absent from
    the driver's file.  The spec asks for a one-time signal, once per process
    lifetime, a sticky flag that is checked and set. *)
Definition dev_info_once (msg : string) (s : state) : state :=
  if print_once s then s
  else
    {| ec_dev := ec_dev s; log_buffer := log_buffer s;
       log_poll_work := log_poll_work s;
       print_once := true; dmesg := dmesg s ++ [msg];
       xfers := xfers s; stored := stored s; wakeups := wakeups s;
     saturations := saturations s |}.

(** Line 89 found [buf_space] at 0. *)
Definition saturated (s : state) : state :=
  {| ec_dev := ec_dev s; log_buffer := log_buffer s;
     log_poll_work := log_poll_work s;
     print_once := print_once s; dmesg := dmesg s;
     xfers := xfers s; stored := stored s; wakeups := wakeups s;
     saturations := S (saturations s) |}.

Definition wake_up (s : state) : state :=
  {| ec_dev := ec_dev s; log_buffer := log_buffer s;
     log_poll_work := log_poll_work s;
     print_once := print_once s; dmesg := dmesg s;
     xfers := xfers s; stored := stored s; wakeups := S (wakeups s);
     saturations := saturations s |}.

(** [schedule_delayed_work] queues the item unless it is pending already. *)
Definition schedule_delayed_work (delay : Z) (s : state) : state :=
  match log_poll_work s with
  | Some _ => s
  | None => set_log_poll_work (Some delay) s
  end.

(** Delays are kept in milliseconds. *)
Definition msecs_to_jiffies (m : Z) : Z := m.

(** Lines 108-109: [cb->buf[cb->head] = c; cb->head = CIRC_ADD(cb->head, LOG_SIZE, 1)]. *)
Definition put_byte (c : byte) (cb : circ_buf) : circ_buf :=
  {| buf := <[Z.to_nat (head cb) := c]> (buf cb);
     head := CIRC_ADD (head cb) LOG_SIZE 1;
     tail := tail cb |}.

Definition store_byte (c : byte) (s : state) : state :=
  {| ec_dev := ec_dev s; log_buffer := put_byte c (log_buffer s);
     log_poll_work := log_poll_work s;
     print_once := print_once s; dmesg := dmesg s;
     xfers := xfers s; stored := stored s ++ [c]; wakeups := wakeups s;
     saturations := saturations s |}.

(** Lines 107-112, the inner loop; [None] only when the fuel runs out. *)
Fixpoint copy_loop (fuel : nat) (ec_buffer : list byte) (ret idx buf_space : Z)
    (s : state) : option (Z * state) :=
  match fuel with
  | O => None
  | S fuel' =>
      if (idx <? ret) && negb (is_nul (byte_at ec_buffer idx)) && (0 <? buf_space)
      then copy_loop fuel' ec_buffer ret (idx + 1) (buf_space - 1)
             (store_byte (byte_at ec_buffer idx) s)
      else Some (buf_space, s)
  end.

Definition dropped_msg : string := "Some logs may have been dropped...".

(** Lines 88-115, the outer loop, entered with the mutex held. *)
Fixpoint read_loop (fuel : nat) (buf_space : Z) (s : state) : option state :=
  match fuel with
  | O => None
  | S fuel' =>
      if buf_space =? 0
      then Some (dev_info_once dropped_msg (saturated s))
      else
        let '(ret, ec_buffer, s1) := xfer (EC_CMD_CONSOLE_READ CONSOLE_READ_RECENT) s in
        if ret <? 0 then Some s1
        else if (ret =? 0) || is_nul (byte_at ec_buffer 0) then Some s1
        else
          match copy_loop (S (Z.to_nat ret)) ec_buffer ret 0 buf_space s1 with
          | None => None
          | Some (buf_space', s2) => read_loop fuel' buf_space' (wake_up s2)
          end
  end.

(** [fwk_ec_console_log_work], lines 61-122. *)
Definition fwk_ec_console_log_work (s : state) : option state :=
  let '(ret, _, s1) := xfer EC_CMD_CONSOLE_SNAPSHOT s in
  if ret <? 0
  then Some (schedule_delayed_work (msecs_to_jiffies (LOG_POLL_SEC * 1000)) s1)
  else
    let cb := log_buffer s1 in
    let buf_space := CIRC_SPACE (head cb) (tail cb) LOG_SIZE in
    match read_loop (S (Z.to_nat buf_space)) buf_space s1 with
    | None => None
    | Some s2 => Some (schedule_delayed_work (msecs_to_jiffies (LOG_POLL_SEC * 1000)) s2)
    end.

(** The workqueue clears the pending state of an item before it runs it. *)
Definition run_work (s : state) : option state :=
  fwk_ec_console_log_work (set_log_poll_work None s).

(** ** The reader, [fwk_ec_console_log_read], lines 131-172 *)

(** Where a task is inside [fwk_ec_console_log_read]. *)
Inductive read_pc :=
  | AtLoopTest                     (** line 140, [log_mutex] held *)
  | AtWait                         (** line 148, [log_mutex] released *)
  | Returned (ret : Z) (ubuf : list byte).

(** Modelled from the spec: [copy_to_user] is a kernel primitive; it returns
    the number of bytes it could not copy, nothing when the user buffer is
    good. *)
Definition copy_to_user (fault : bool) (n : Z) : Z := if fault then n else 0.

(** Modelled from the spec: [wait_event_interruptible] is a kernel macro.
    It returns 0 once the condition holds, [-ERESTARTSYS] when a signal
    interrupts the sleep, and keeps the task asleep otherwise ([None]). *)
Definition wait_event_interruptible (signal_pending condition : bool) : option Z :=
  if condition then Some 0
  else if signal_pending then Some (- ERESTARTSYS)
  else None.

(** Line 167: [cb->tail = CIRC_ADD(cb->tail, LOG_SIZE, ret)]. *)
Definition advance_tail (ret : Z) (cb : circ_buf) : circ_buf :=
  {| buf := buf cb; head := head cb; tail := CIRC_ADD (tail cb) LOG_SIZE ret |}.

(** Lines 140-171 with [log_mutex] held: from the loop test to the unlock,
    that of line 146 (then the task waits) or that of line 170 (then it
    returns).  [count] is a [size_t]. *)
Definition read_locked (f_flags : Z) (count : N) (fault : bool)
    (cb : circ_buf) : read_pc * circ_buf :=
  if CIRC_CNT (head cb) (tail cb) LOG_SIZE =? 0 then
    if Z.land f_flags O_NONBLOCK =? 0
    then (AtWait, cb)
    else (Returned (- EAGAIN) [], cb)
  else
    let ret := Z.min (CIRC_CNT_TO_END (head cb) (tail cb) LOG_SIZE) (Z.of_N count) in
    if copy_to_user fault ret =? 0
    then (Returned ret (span (buf cb) (tail cb) ret), advance_tail ret cb)
    else (Returned (- EFAULT) [], cb).

(** Lines 148-153: the wait, then either the return of line 151 or the
    [mutex_lock] that leads back to the loop test. *)
Definition read_waiting (signal_pending : bool) (cb : circ_buf) : read_pc :=
  match wait_event_interruptible signal_pending
          (negb (CIRC_CNT (head cb) (tail cb) LOG_SIZE =? 0)) with
  | None => AtWait
  | Some ret => if ret <? 0 then Returned ret [] else AtLoopTest
  end.

(** One scheduling of the reading task: it sees the buffer as the other
    tasks left it. *)
Definition read_step (f_flags : Z) (count : N) (fault : bool)
    (pc : read_pc) (signal_pending : bool) (cb : circ_buf) : read_pc * circ_buf :=
  match pc with
  | AtLoopTest => read_locked f_flags count fault cb
  | AtWait => (read_waiting signal_pending cb, cb)
  | Returned _ _ => (pc, cb)
  end.

(** A call of [fwk_ec_console_log_read] against its environment: each element
    of [sched] is one scheduling of the task, with the signal state and the
    ring buffer as it then is.  The result is where the task stands and, if
    it got that far, the buffer it left at its last step. *)
Fixpoint read_run (f_flags : Z) (count : N) (fault : bool) (pc : read_pc)
    (sched : list (bool * circ_buf)) (last : circ_buf) : read_pc * circ_buf :=
  match sched with
  | [] => (pc, last)
  | (sig, cb) :: sched' =>
      match pc with
      | Returned _ _ => (pc, last)
      | _ =>
          let '(pc', cb') := read_step f_flags count fault pc sig cb in
          read_run f_flags count fault pc' sched' cb'
      end
  end.

(** [fwk_ec_console_log_read]: the call takes [log_mutex] (line 138) and
    enters the loop. *)
Definition fwk_ec_console_log_read (f_flags : Z) (count : N) (fault : bool)
    (sched : list (bool * circ_buf)) (last : circ_buf) : read_pc * circ_buf :=
  read_run f_flags count fault AtLoopTest sched last.

(** ** The driver as a whole *)

(** What the tasks do to the ring buffer, one critical section at a time:
    the work item runs a cycle, or a reader passes through lines 140-171.
    The work item holds [log_mutex] from line 85 to line 117 and the readers
    change the cursors only under it, so the sections do not overlap; the
    snapshot transfer of line 80 comes before the lock but touches the EC
    only, which no reader does. *)
Inductive op :=
  | OpWork
  | OpRead (f_flags : Z) (count : N) (fault : bool).

Definition ubuf_of (pc : read_pc) : list byte :=
  match pc with Returned _ ubuf => ubuf | _ => [] end.

(** [delivered] collects what the readers were handed. *)
Fixpoint run (ops : list op) (s : state) (delivered : list byte)
    : option (state * list byte) :=
  match ops with
  | [] => Some (s, delivered)
  | OpWork :: ops' =>
      match run_work s with
      | None => None
      | Some s' => run ops' s' delivered
      end
  | OpRead f_flags count fault :: ops' =>
      let '(pc, cb) := read_locked f_flags count fault (log_buffer s) in
      run ops' (set_log_buffer cb s) (delivered ++ ubuf_of pc)
  end.

(** [fwk_ec_create_console_log], lines 362-390: zeroed storage, both cursors
    at 0, the first cycle queued at once.  The function touches neither the
    flag of [dev_info_once] nor the kernel log; the two fields are given here
    as a module just loaded has them, and [in_kernel] below puts the kernel's
    own in their place when a console log is created later. *)
Definition fwk_ec_create_console_log (e : ec_device) : state :=
  {| ec_dev := e;
     log_buffer := {| buf := replicate (Z.to_nat LOG_SIZE) x00; head := 0; tail := 0 |};
     log_poll_work := Some 0;
     print_once := false; dmesg := [];
     xfers := []; stored := []; wakeups := 0; saturations := 0 |}.

(** ** Poll, power management and the panic notifier *)

(** <uapi/linux/eventpoll.h> *)
Definition EPOLLIN : Z := 1.
Definition EPOLLRDNORM : Z := 64.

(** [fwk_ec_console_log_poll], lines 174-190.  [poll_wait] only puts the
    task on the wait queue; the mask is read under [log_mutex]. *)
Definition fwk_ec_console_log_poll (cb : circ_buf) : Z :=
  let mask := 0 in
  if CIRC_CNT (head cb) (tail cb) LOG_SIZE =? 0
  then mask
  else Z.lor mask (Z.lor EPOLLIN EPOLLRDNORM).

(** [debug_info->log_buffer.buf]: NULL until [fwk_ec_create_console_log] has
    allocated the storage.  The NULL storage is the empty list; allocated
    storage has [LOG_SIZE] bytes, at least one. *)
Definition log_buffer_buf (s : state) : bool :=
  match buf (log_buffer s) with
  | [] => false
  | _ :: _ => true
  end.

(** Modelled from the spec: the workqueue calls are kernel code, absent from
    the driver's file.  Cancelling stops the schedule and waits for a running
    cycle; [mod_delayed_work] makes the item pending with the new delay;
    flushing runs a pending item at once and waits for it to complete. *)
Definition cancel_delayed_work_sync (s : state) : state :=
  set_log_poll_work None s.

Definition mod_delayed_work (delay : Z) (s : state) : state :=
  set_log_poll_work (Some delay) s.

Definition flush_delayed_work (s : state) : option state :=
  match log_poll_work s with
  | Some _ => run_work s
  | None => Some s
  end.

(** [fwk_ec_cleanup_console_log], lines 395-401. *)
Definition fwk_ec_cleanup_console_log (s : state) : state :=
  if log_buffer_buf s then cancel_delayed_work_sync s else s.

(** <linux/notifier.h> *)
Definition NOTIFY_DONE : Z := 0.

(** [fwk_ec_debugfs_panic_event], lines 467-481. *)
Definition fwk_ec_debugfs_panic_event (s : state) : option (Z * state) :=
  if log_buffer_buf s then
    match flush_delayed_work (mod_delayed_work 0 s) with
    | None => None
    | Some s' => Some (NOTIFY_DONE, s')
    end
  else Some (NOTIFY_DONE, s).

(** Modelled from the spec: the notifier called while a cycle is running.
    The workqueue has cleared the pending state of the item and is inside
    [fwk_ec_console_log_work], begun on [s].  [mod_delayed_work] at line 475
    queues the item again, with no delay, under the running cycle;
    [flush_delayed_work] at line 477 first waits for the running cycle,
    which ends with its own [schedule_delayed_work] at line 120, and then runs
    the queued item and waits for it. *)
Definition panic_event_during_cycle (s : state) : option (Z * state) :=
  if log_buffer_buf s then
    match fwk_ec_console_log_work (mod_delayed_work 0 (set_log_poll_work None s)) with
    | None => None
    | Some s1 =>
        match flush_delayed_work s1 with
        | None => None
        | Some s2 => Some (NOTIFY_DONE, s2)
        end
    end
  else Some (NOTIFY_DONE, s).

(** [fwk_ec_debugfs_suspend], lines 544-552. *)
Definition fwk_ec_debugfs_suspend (s : state) : Z * state :=
  if log_buffer_buf s then (0, cancel_delayed_work_sync s) else (0, s).

(** [fwk_ec_debugfs_resume], lines 554-562. *)
Definition fwk_ec_debugfs_resume (s : state) : Z * state :=
  if log_buffer_buf s then (0, schedule_delayed_work 0 s) else (0, s).

(** What happens to the driver, one event at a time: the workqueue comes to
    the poll item and runs it if it is pending; a reader passes through
    lines 140-171; the system suspends or resumes; the EC panics. *)
Inductive event :=
  | EvTick
  | EvRead (f_flags : Z) (count : N) (fault : bool)
  | EvSuspend
  | EvResume
  | EvPanic.

Fixpoint drive (evs : list event) (s : state) (delivered : list byte)
    : option (state * list byte) :=
  match evs with
  | [] => Some (s, delivered)
  | EvTick :: evs' =>
      match log_poll_work s with
      | None => drive evs' s delivered
      | Some _ =>
          match run_work s with
          | None => None
          | Some s' => drive evs' s' delivered
          end
      end
  | EvRead f_flags count fault :: evs' =>
      let '(pc, cb) := read_locked f_flags count fault (log_buffer s) in
      drive evs' (set_log_buffer cb s) (delivered ++ ubuf_of pc)
  | EvSuspend :: evs' => drive evs' (snd (fwk_ec_debugfs_suspend s)) delivered
  | EvResume :: evs' => drive evs' (snd (fwk_ec_debugfs_resume s)) delivered
  | EvPanic :: evs' =>
      match fwk_ec_debugfs_panic_event s with
      | None => None
      | Some (_, s') => drive evs' s' delivered
      end
  end.

(** Events that neither resume nor force the poll item. *)
Definition passive (ev : event) : bool :=
  match ev with
  | EvTick | EvRead _ _ _ | EvSuspend => true
  | EvResume | EvPanic => false
  end.

(** ** The kernel and its console logs *)

(** Modelled from the spec: the flag behind [dev_info_once] is a static of
    the call site at line 90 and the kernel log is the kernel's.  Neither
    belongs to a console log: they are there before the first one is created
    and are shared by all that are created while the module is loaded, one
    per EC device and a new one each time a device is probed again. *)
Record kernel := {
  once : bool;
  klog : list string;
  (** the console logs, in the order of their creation *)
  console_logs : list state;
}.

(** The module just loaded. *)
Definition boot : kernel := {| once := false; klog := []; console_logs := [] |}.

(** A console log as its work item finds it: its own device, buffer, poll
    item and observations, the kernel's flag and log. *)
Definition in_kernel (k : kernel) (s : state) : state :=
  {| ec_dev := ec_dev s; log_buffer := log_buffer s;
     log_poll_work := log_poll_work s;
     print_once := once k; dmesg := klog k;
     xfers := xfers s; stored := stored s; wakeups := wakeups s;
     saturations := saturations s |}.

Inductive kevent :=
  | KCreate (e : ec_device)     (** [fwk_ec_create_console_log] for a device *)
  | KWork (i : nat)             (** the poll item of the i-th console log runs *)
  | KRead (i : nat) (f_flags : Z) (count : N) (fault : bool).

Fixpoint krun (evs : list kevent) (k : kernel) : option kernel :=
  match evs with
  | [] => Some k
  | KCreate e :: evs' =>
      krun evs'
        {| once := once k; klog := klog k;
           console_logs :=
             console_logs k ++ [in_kernel k (fwk_ec_create_console_log e)] |}
  | KWork i :: evs' =>
      match console_logs k !! i with
      | None => krun evs' k
      | Some s =>
          match run_work (in_kernel k s) with
          | None => None
          | Some s' =>
              krun evs'
                {| once := print_once s'; klog := dmesg s';
                   console_logs := <[i := s']> (console_logs k) |}
          end
      end
  | KRead i f_flags count fault :: evs' =>
      match console_logs k !! i with
      | None => krun evs' k
      | Some s =>
          let '(_, cb) := read_locked f_flags count fault (log_buffer s) in
          krun evs'
            {| once := once k; klog := klog k;
               console_logs := <[i := set_log_buffer cb s]> (console_logs k) |}
      end
  end.

(** ** What the ring buffer holds *)

(** [n] bytes of the storage from [start] on, wrapping at [LOG_SIZE]. *)
Fixpoint window (l : list byte) (start : Z) (n : nat) : list byte :=
  match n with
  | O => []
  | S n' => byte_at l start :: window l (CIRC_ADD start LOG_SIZE 1) n'
  end.

(** The valid bytes, oldest first. *)
Definition contents (cb : circ_buf) : list byte :=
  window (buf cb) (tail cb) (Z.to_nat (CIRC_CNT (head cb) (tail cb) LOG_SIZE)).

Definition cb_ok (cb : circ_buf) : Prop :=
  Z.of_nat (length (buf cb)) = LOG_SIZE /\
  0 <= head cb < LOG_SIZE /\ 0 <= tail cb < LOG_SIZE.

(** The bytes of a response the inner loop is after: those before [ret] and
    before the first NUL. *)
Fixpoint until_nul (l : list byte) : list byte :=
  match l with
  | [] => []
  | c :: l' => if is_nul c then [] else c :: until_nul l'
  end.

Definition payload (ec_buffer : list byte) (ret : Z) : list byte :=
  until_nul (take (Z.to_nat ret) ec_buffer).

(** ** Notions used in the statements *)

(** Everything but the ring buffer and the record of stored bytes. *)
Definition same_kernel (s s' : state) : Prop :=
  ec_dev s' = ec_dev s /\ log_poll_work s' = log_poll_work s /\
  print_once s' = print_once s /\ dmesg s' = dmesg s /\
  xfers s' = xfers s /\ wakeups s' = wakeups s /\
  saturations s' = saturations s.

Definition space_of (s : state) : Z :=
  CIRC_SPACE (head (log_buffer s)) (tail (log_buffer s)) LOG_SIZE.

(** The rest of the response from [idx] on, as the loop will see it. *)
Definition rest_from (ec_buffer : list byte) (ret idx : Z) : list byte :=
  until_nul (drop (Z.to_nat idx) (take (Z.to_nat ret) ec_buffer)).

(** What the test of line 89 does to the diagnostic between two states:
    nothing when the loop never found the space exhausted, and otherwise
    one saturation, which prints only if nothing was printed before. *)
Definition diag_step (s s' : state) : Prop :=
  (saturations s' = saturations s /\ print_once s' = print_once s /\
   dmesg s' = dmesg s) \/
  (saturations s' = S (saturations s) /\ print_once s' = true /\
   dmesg s' = dmesg s ++ (if print_once s then [] else [dropped_msg])).

Definition diag_ok (s : state) : Prop :=
  match saturations s with
  | O => print_once s = false /\ dmesg s = []
  | S _ => print_once s = true /\ dmesg s = [dropped_msg]
  end.

(** Well-formed cursors; every stored byte is either delivered or still in
    the buffer, in order; the diagnostic was printed exactly if a cycle ever
    ran out of space. *)
Definition driver_inv (s : state) (delivered : list byte) : Prop :=
  cb_ok (log_buffer s) /\
  stored s = delivered ++ contents (log_buffer s) /\
  diag_ok s.

(** The buffer stays empty and no signal arrives. *)
Definition quiet (sched : list (bool * circ_buf)) : Prop :=
  Forall (fun o => fst o = false /\
                   CIRC_CNT (head (snd o)) (tail (snd o)) LOG_SIZE = 0) sched.

Definition last_seen (sched : list (bool * circ_buf)) (d : circ_buf) : circ_buf :=
  List.last (map snd sched) d.

(** ** The diagnostic over the life of the kernel *)

(** How often line 89 found the space at 0, in all console logs together. *)
Definition total_saturations (k : kernel) : nat :=
  sum_list_with saturations (console_logs k).

Definition well_formed (k : kernel) : Prop :=
  Forall (fun s => cb_ok (log_buffer s)) (console_logs k).

(** From [k] to [k']: saturations are only added; the flag is set if it was
    set or one was added; the kernel log has gained the message if the flag
    was not set and one was added, and nothing otherwise. *)
Definition once_only (k k' : kernel) : Prop :=
  (total_saturations k <= total_saturations k')%nat /\
  once k' = once k || (total_saturations k <? total_saturations k')%nat /\
  klog k' = klog k ++
            (if once k then []
             else if (total_saturations k <? total_saturations k')%nat
                  then [dropped_msg] else []).

(** ** Appends and reads in a row *)

(** N appends: the inner loop of lines 106-114 on one response of the EC
    after the other, each as a cycle runs it, from index 0 and with the free
    space of the buffer, followed by the wake-up of line 114.  A response is
    the status of the transfer and the data it left. *)
Fixpoint appends (responses : list (Z * list byte)) (s : state) : option state :=
  match responses with
  | [] => Some s
  | (ret, ec_buffer) :: responses' =>
      match copy_loop (S (Z.to_nat ret)) ec_buffer ret 0 (space_of s) s with
      | None => None
      | Some (_, s1) => appends responses' (wake_up s1)
      end
  end.

(** The bytes the appends are given: of each response those before the
    first NUL, in order. *)
Definition payloads (responses : list (Z * list byte)) : list byte :=
  flat_map (fun r => payload (snd r) (fst r)) responses.

(** M reads: passes through lines 140-171 with the given lengths, into good
    user buffers; the bytes they return, in order, and the buffer they leave. *)
Fixpoint reads (f_flags : Z) (counts : list N) (cb : circ_buf)
    : list byte * circ_buf :=
  match counts with
  | [] => ([], cb)
  | count :: counts' =>
      let '(pc, cb1) := read_locked f_flags count false cb in
      let '(out, cb2) := reads f_flags counts' cb1 in
      (ubuf_of pc ++ out, cb2)
  end.

(** The lengths asked for, added up. *)
Definition total (counts : list N) : Z :=
  fold_right (fun count acc => Z.of_N count + acc) 0 counts.

Definition read_ops (f_flags : Z) (counts : list N) : list op :=
  map (fun count => OpRead f_flags count false) counts.

(** What a cycle is to take from the EC, in the spec's words and on the EC
    alone: with no free space it stops; it asks for the next chunk and stops
    on an error, on an empty answer and on one that begins with NUL; else it
    takes the bytes of the chunk before the first NUL, as many as there is
    space for, and goes on with the space that is left. *)
Fixpoint ec_stream (fuel : nat) (space : Z) (e : ec_device) : list byte :=
  match fuel with
  | O => []
  | S fuel' =>
      if space =? 0 then []
      else
        let r := fwk_ec_cmd_xfer_status e (EC_CMD_CONSOLE_READ CONSOLE_READ_RECENT) in
        let ret := fst (fst r) in
        let ec_buffer := snd (fst r) in
        if ret <? 0 then []
        else if (ret =? 0) || is_nul (byte_at ec_buffer 0) then []
        else
          let acc := take (Z.to_nat space) (payload ec_buffer ret) in
          acc ++ ec_stream fuel' (space - Z.of_nat (length acc)) (snd r)
  end.

(** The same with the snapshot first: nothing if the snapshot fails. *)
Definition cycle_stream (space : Z) (e : ec_device) : list byte :=
  let r := fwk_ec_cmd_xfer_status e EC_CMD_CONSOLE_SNAPSHOT in
  if fst (fst r) <? 0 then []
  else ec_stream (S (Z.to_nat space)) space (snd r).

(** ** Cursor arithmetic *)

Lemma LOG_SIZE_pow : LOG_SIZE = 2 ^ Z.of_nat LOG_SHIFT.
Proof. unfold LOG_SIZE. now rewrite Z.shiftl_1_l. Qed.

Lemma LOG_SIZE_pos : 0 < LOG_SIZE.
Proof. rewrite LOG_SIZE_pow. apply Z.pow_pos_nonneg; lia. Qed.

Lemma land_mask (x : Z) : Z.land x (LOG_SIZE - 1) = x mod LOG_SIZE.
Proof.
  rewrite LOG_SIZE_pow, <- Z.land_ones by lia.
  f_equal. rewrite Z.ones_equiv. lia.
Qed.

Lemma CIRC_CNT_mod (h t : Z) : CIRC_CNT h t LOG_SIZE = (h - t) mod LOG_SIZE.
Proof. apply land_mask. Qed.

Lemma CIRC_ADD_mod (i v : Z) : CIRC_ADD i LOG_SIZE v = (i + v) mod LOG_SIZE.
Proof. apply land_mask. Qed.

Lemma mod_wrap (x : Z) :
  - LOG_SIZE <= x < LOG_SIZE ->
  x mod LOG_SIZE = if 0 <=? x then x else x + LOG_SIZE.
Proof.
  intros Hx. destruct (Z.leb_spec 0 x).
  - apply Z.mod_small. lia.
  - symmetry. apply (Z.mod_unique _ _ (-1)); lia.
Qed.

Lemma CIRC_CNT_cases (h t : Z) :
  0 <= h < LOG_SIZE -> 0 <= t < LOG_SIZE ->
  CIRC_CNT h t LOG_SIZE = if t <=? h then h - t else h - t + LOG_SIZE.
Proof.
  intros Hh Ht. rewrite CIRC_CNT_mod, mod_wrap by lia.
  destruct (Z.leb_spec 0 (h - t)), (Z.leb_spec t h); lia.
Qed.

Lemma CIRC_CNT_range (h t : Z) : 0 <= CIRC_CNT h t LOG_SIZE <= LOG_SIZE - 1.
Proof.
  rewrite CIRC_CNT_mod.
  pose proof (Z.mod_pos_bound (h - t) LOG_SIZE LOG_SIZE_pos). lia.
Qed.

Lemma CIRC_ADD_range (i v : Z) : 0 <= CIRC_ADD i LOG_SIZE v < LOG_SIZE.
Proof. rewrite CIRC_ADD_mod. apply Z.mod_pos_bound, LOG_SIZE_pos. Qed.

(** The spec's [space() = capacity - 1 - count]. *)
Lemma CIRC_SPACE_CNT (h t : Z) :
  0 <= h < LOG_SIZE -> 0 <= t < LOG_SIZE ->
  CIRC_SPACE h t LOG_SIZE = LOG_SIZE - 1 - CIRC_CNT h t LOG_SIZE.
Proof.
  intros Hh Ht. unfold CIRC_SPACE.
  rewrite (CIRC_CNT_cases h t) by lia.
  rewrite CIRC_CNT_mod, mod_wrap by lia.
  destruct (Z.leb_spec 0 (t - (h + 1))), (Z.leb_spec t h); lia.
Qed.

(** The contiguous run from [tail]: up to [head] or up to the end of the
    storage, whichever comes first. *)
Lemma CIRC_CNT_TO_END_min (h t : Z) :
  0 <= h < LOG_SIZE -> 0 <= t < LOG_SIZE ->
  CIRC_CNT_TO_END h t LOG_SIZE = Z.min (CIRC_CNT h t LOG_SIZE) (LOG_SIZE - t).
Proof.
  intros Hh Ht. pose proof LOG_SIZE_pos. unfold CIRC_CNT_TO_END.
  rewrite land_mask, CIRC_CNT_cases by lia.
  replace (h + (LOG_SIZE - t)) with ((h - t) + 1 * LOG_SIZE) by lia.
  rewrite Z.mod_add by lia. rewrite mod_wrap by lia.
  destruct (Z.leb_spec 0 (h - t)), (Z.leb_spec t h); try lia.
  - destruct (Z.ltb_spec (h - t) (LOG_SIZE - t)); lia.
  - destruct (Z.ltb_spec (h - t + LOG_SIZE) (LOG_SIZE - t)); lia.
Qed.

Lemma CIRC_CNT_zero_iff (h t : Z) :
  0 <= h < LOG_SIZE -> 0 <= t < LOG_SIZE ->
  CIRC_CNT h t LOG_SIZE = 0 <-> h = t.
Proof.
  intros Hh Ht. rewrite CIRC_CNT_cases by lia.
  destruct (Z.leb_spec t h); lia.
Qed.

Lemma mod_fold (x : Z) :
  0 <= x < 2 * LOG_SIZE ->
  x mod LOG_SIZE = if x <? LOG_SIZE then x else x - LOG_SIZE.
Proof.
  intros Hx. destruct (Z.ltb_spec x LOG_SIZE).
  - apply Z.mod_small. lia.
  - symmetry. apply (Z.mod_unique _ _ 1); lia.
Qed.

(** ** Storage lemmas *)

Lemma byte_at_lookup (l : list byte) (i : Z) :
  0 <= i -> byte_at l i = default x00 (l !! Z.to_nat i).
Proof.
  intros Hi. unfold byte_at.
  destruct (Z.ltb_spec i 0); [lia|]. apply nth_lookup.
Qed.

Lemma byte_at_insert_eq (l : list byte) (p : Z) (c : byte) :
  0 <= p < Z.of_nat (length l) ->
  byte_at (<[Z.to_nat p := c]> l) p = c.
Proof.
  intros Hp. rewrite byte_at_lookup by lia.
  rewrite list_lookup_insert_eq by lia. reflexivity.
Qed.

Lemma byte_at_insert_ne (l : list byte) (p i : Z) (c : byte) :
  0 <= p -> 0 <= i -> i <> p ->
  byte_at (<[Z.to_nat p := c]> l) i = byte_at l i.
Proof.
  intros Hp Hi Hne. rewrite !byte_at_lookup by lia.
  rewrite list_lookup_insert_ne by lia. reflexivity.
Qed.

Lemma window_length (l : list byte) (start : Z) (n : nat) :
  length (window l start n) = n.
Proof. revert start. induction n as [|n IH]; intros start; simpl; auto. Qed.

Lemma window_app (l : list byte) (start : Z) (a b : nat) :
  0 <= start < LOG_SIZE ->
  window l start (a + b) =
  window l start a ++ window l ((start + Z.of_nat a) mod LOG_SIZE) b.
Proof.
  revert start. induction a as [|a IH]; intros start Hs.
  - simpl. rewrite Z.add_0_r, Z.mod_small by lia. reflexivity.
  - cbn [Nat.add window app]. f_equal.
    rewrite IH by apply CIRC_ADD_range.
    rewrite CIRC_ADD_mod, Z.add_mod_idemp_l by lia.
    do 3 f_equal. lia.
Qed.

Lemma window_insert_ne (l : list byte) (p : Z) (c : byte) (start : Z) (n : nat) :
  0 <= p -> 0 <= start < LOG_SIZE ->
  (forall i : nat, (i < n)%nat -> (start + Z.of_nat i) mod LOG_SIZE <> p) ->
  window (<[Z.to_nat p := c]> l) start n = window l start n.
Proof.
  intros Hp. revert start. induction n as [|n IH]; intros start Hs Hne.
  - reflexivity.
  - cbn [window]. f_equal.
    + apply byte_at_insert_ne; try lia.
      specialize (Hne O ltac:(lia)).
      rewrite Z.add_0_r, Z.mod_small in Hne by lia. exact Hne.
    + apply IH; [apply CIRC_ADD_range|].
      intros i Hi. specialize (Hne (S i) ltac:(lia)).
      rewrite CIRC_ADD_mod, Z.add_mod_idemp_l by lia.
      replace (start + 1 + Z.of_nat i) with (start + Z.of_nat (S i)) by lia.
      exact Hne.
Qed.

(** A window that stops at the end of the storage is a plain slice. *)
Lemma window_span (l : list byte) (start : Z) (n : nat) :
  Z.of_nat (length l) = LOG_SIZE ->
  0 <= start -> start + Z.of_nat n <= LOG_SIZE ->
  window l start n = span l start (Z.of_nat n).
Proof.
  intros Hl. unfold span. rewrite Nat2Z.id.
  revert start. induction n as [|n IH]; intros start Hs Hn.
  - reflexivity.
  - cbn [window].
    destruct (lookup_lt_is_Some_2 l (Z.to_nat start) ltac:(lia)) as [x Hx].
    rewrite (drop_S _ _ _ Hx). cbn [take]. f_equal.
    + rewrite byte_at_lookup, Hx by lia. reflexivity.
    + destruct n as [|n].
      * reflexivity.
      * rewrite CIRC_ADD_mod, Z.mod_small by lia.
        rewrite IH by lia. do 2 f_equal. lia.
Qed.

(** ** One byte in, a slice out *)

Lemma CIRC_ADD_one (h : Z) :
  0 <= h < LOG_SIZE ->
  CIRC_ADD h LOG_SIZE 1 = if h + 1 <? LOG_SIZE then h + 1 else 0.
Proof.
  intros Hh. rewrite CIRC_ADD_mod, mod_fold by lia.
  destruct (Z.ltb_spec (h + 1) LOG_SIZE); lia.
Qed.

Lemma put_byte_cnt (c : byte) (cb : circ_buf) :
  cb_ok cb -> 0 < CIRC_SPACE (head cb) (tail cb) LOG_SIZE ->
  CIRC_CNT (head (put_byte c cb)) (tail (put_byte c cb)) LOG_SIZE =
  CIRC_CNT (head cb) (tail cb) LOG_SIZE + 1.
Proof.
  intros (Hl & Hh & Ht) Hsp. rewrite CIRC_SPACE_CNT in Hsp by lia.
  cbn [put_byte head tail].
  pose proof (CIRC_ADD_range (head cb) 1) as Hr.
  rewrite CIRC_CNT_cases in Hsp by lia.
  rewrite !CIRC_CNT_cases by lia.
  rewrite CIRC_ADD_one in * by lia.
  destruct (Z.ltb_spec (head cb + 1) LOG_SIZE);
    destruct (Z.leb_spec (tail cb) (head cb));
    destruct (Z.leb_spec (tail cb) (head cb + 1));
    destruct (Z.leb_spec (tail cb) 0); lia.
Qed.

Lemma put_byte_ok (c : byte) (cb : circ_buf) :
  cb_ok cb -> cb_ok (put_byte c cb).
Proof.
  intros (Hl & Hh & Ht). unfold cb_ok. cbn [put_byte buf head tail].
  rewrite length_insert. pose proof (CIRC_ADD_range (head cb) 1). lia.
Qed.

Lemma put_byte_space (c : byte) (cb : circ_buf) :
  cb_ok cb -> 0 < CIRC_SPACE (head cb) (tail cb) LOG_SIZE ->
  CIRC_SPACE (head (put_byte c cb)) (tail (put_byte c cb)) LOG_SIZE =
  CIRC_SPACE (head cb) (tail cb) LOG_SIZE - 1.
Proof.
  intros Hok Hsp. pose proof (put_byte_cnt c cb Hok Hsp) as Hc.
  destruct (put_byte_ok c cb Hok) as (_ & Hh' & Ht').
  destruct Hok as (Hl & Hh & Ht).
  rewrite !CIRC_SPACE_CNT by lia. lia.
Qed.

(** Storing at [head] appends to the valid bytes. *)
Lemma put_byte_contents (c : byte) (cb : circ_buf) :
  cb_ok cb -> 0 < CIRC_SPACE (head cb) (tail cb) LOG_SIZE ->
  contents (put_byte c cb) = contents cb ++ [c].
Proof.
  intros Hok Hsp. unfold contents. rewrite put_byte_cnt by assumption.
  destruct Hok as (Hl & Hh & Ht).
  pose proof (CIRC_CNT_range (head cb) (tail cb)) as Hc.
  set (n := CIRC_CNT (head cb) (tail cb) LOG_SIZE) in *.
  replace (Z.to_nat (n + 1)) with (Z.to_nat n + 1)%nat by lia.
  cbn [put_byte buf tail].
  rewrite window_app by lia. rewrite Z2Nat.id by lia.
  assert (Hhead : (tail cb + n) mod LOG_SIZE = head cb).
  { subst n. rewrite CIRC_CNT_cases by lia.
    destruct (Z.leb_spec (tail cb) (head cb)).
    - replace (tail cb + (head cb - tail cb)) with (head cb) by lia.
      apply Z.mod_small. lia.
    - replace (tail cb + (head cb - tail cb + LOG_SIZE))
        with (head cb + 1 * LOG_SIZE) by lia.
      rewrite Z.mod_add by lia. apply Z.mod_small. lia. }
  rewrite Hhead. cbn [window]. rewrite byte_at_insert_eq by lia.
  f_equal. apply window_insert_ne; try lia.
  intros i Hi.
  assert (Hi' : 0 <= Z.of_nat i < n) by lia.
  rewrite mod_fold by lia.
  subst n. rewrite CIRC_CNT_cases in Hi' by lia.
  destruct (Z.leb_spec (tail cb) (head cb));
    destruct (Z.ltb_spec (tail cb + Z.of_nat i) LOG_SIZE); lia.
Qed.

Lemma advance_tail_ok (r : Z) (cb : circ_buf) :
  cb_ok cb -> cb_ok (advance_tail r cb).
Proof.
  intros (Hl & Hh & Ht). unfold cb_ok. cbn [advance_tail buf head tail].
  pose proof (CIRC_ADD_range (tail cb) r). lia.
Qed.

Lemma advance_tail_cnt (r : Z) (cb : circ_buf) :
  cb_ok cb ->
  0 <= r <= CIRC_CNT_TO_END (head cb) (tail cb) LOG_SIZE ->
  CIRC_CNT (head (advance_tail r cb)) (tail (advance_tail r cb)) LOG_SIZE =
  CIRC_CNT (head cb) (tail cb) LOG_SIZE - r.
Proof.
  intros (Hl & Hh & Ht) Hr. rewrite CIRC_CNT_TO_END_min in Hr by lia.
  cbn [advance_tail head tail].
  pose proof (CIRC_ADD_range (tail cb) r) as Ha.
  rewrite CIRC_CNT_cases in Hr by lia. rewrite !CIRC_CNT_cases by lia.
  rewrite CIRC_ADD_mod in *. rewrite mod_fold in * by lia.
  destruct (Z.ltb_spec (tail cb + r) LOG_SIZE);
    destruct (Z.leb_spec (tail cb) (head cb));
    destruct (Z.leb_spec (tail cb + r) (head cb));
    destruct (Z.leb_spec (tail cb + r - LOG_SIZE) (head cb)); lia.
Qed.

(** What line 162 copies out is the oldest [r] valid bytes, and line 167
    drops exactly those. *)
Lemma advance_tail_contents (r : Z) (cb : circ_buf) :
  cb_ok cb ->
  0 <= r <= CIRC_CNT_TO_END (head cb) (tail cb) LOG_SIZE ->
  span (buf cb) (tail cb) r = take (Z.to_nat r) (contents cb) /\
  contents (advance_tail r cb) = drop (Z.to_nat r) (contents cb).
Proof.
  intros Hok Hr. unfold contents at 2.
  rewrite advance_tail_cnt by assumption.
  destruct Hok as (Hl & Hh & Ht).
  rewrite CIRC_CNT_TO_END_min in Hr by lia.
  unfold contents.
  set (n := CIRC_CNT (head cb) (tail cb) LOG_SIZE) in *.
  replace (Z.to_nat n) with (Z.to_nat r + Z.to_nat (n - r))%nat by lia.
  rewrite window_app by lia. rewrite Z2Nat.id by lia.
  rewrite (window_span (buf cb) (tail cb) (Z.to_nat r)) by lia.
  rewrite Z2Nat.id by lia.
  assert (Hlen : Z.to_nat r = length (span (buf cb) (tail cb) r)).
  { unfold span. rewrite length_take, length_drop. lia. }
  split.
  - symmetry. now apply take_app_length'.
  - rewrite drop_app_length' by assumption.
    cbn [advance_tail buf tail]. now rewrite CIRC_ADD_mod.
Qed.

(** ** The inner loop, lines 107-112 *)

Lemma space_of_range (s : state) : 0 <= space_of s <= LOG_SIZE - 1.
Proof. apply CIRC_CNT_range. Qed.

Lemma rest_from_0 (ec_buffer : list byte) (ret : Z) :
  rest_from ec_buffer ret 0 = payload ec_buffer ret.
Proof. reflexivity. Qed.

Lemma rest_from_cons (l : list byte) (ret idx : Z) :
  0 <= idx < ret -> is_nul (byte_at l idx) = false ->
  rest_from l ret idx = byte_at l idx :: rest_from l ret (idx + 1).
Proof.
  intros Hi Hnz. unfold rest_from.
  rewrite byte_at_lookup in * by lia.
  destruct (l !! Z.to_nat idx) as [x|] eqn:Hx; [|discriminate].
  assert (Hx' : take (Z.to_nat ret) l !! Z.to_nat idx = Some x)
    by (rewrite lookup_take_lt by lia; exact Hx).
  rewrite (drop_S _ _ _ Hx'). cbn in Hnz. cbn [until_nul]. rewrite Hnz. cbn.
  do 3 f_equal. lia.
Qed.

Lemma rest_from_stop (l : list byte) (ret idx : Z) :
  0 <= idx -> ret <= idx \/ is_nul (byte_at l idx) = true ->
  rest_from l ret idx = [].
Proof.
  intros Hi Hstop. unfold rest_from.
  destruct (take (Z.to_nat ret) l !! Z.to_nat idx) as [x|] eqn:Hx.
  - rewrite (drop_S _ _ _ Hx). cbn [until_nul].
    destruct Hstop as [Hge|Hnul].
    + rewrite lookup_take_ge in Hx by lia. discriminate.
    + apply lookup_take_Some in Hx as [Hx _].
      rewrite byte_at_lookup, Hx in Hnul by lia. cbn in Hnul. now rewrite Hnul.
  - apply lookup_ge_None_1 in Hx. now rewrite drop_ge.
Qed.

Lemma copy_loop_spec (fuel : nat) (ec_buffer : list byte) (ret idx buf_space : Z)
    (s : state) :
  cb_ok (log_buffer s) -> buf_space = space_of s -> 0 <= idx ->
  (Z.to_nat (ret - idx) < fuel)%nat ->
  let acc := take (Z.to_nat buf_space) (rest_from ec_buffer ret idx) in
  exists s',
    copy_loop fuel ec_buffer ret idx buf_space s
      = Some (buf_space - Z.of_nat (length acc), s') /\
    cb_ok (log_buffer s') /\
    space_of s' = buf_space - Z.of_nat (length acc) /\
    tail (log_buffer s') = tail (log_buffer s) /\
    contents (log_buffer s') = contents (log_buffer s) ++ acc /\
    stored s' = stored s ++ acc /\
    same_kernel s s'.
Proof.
  revert idx buf_space s.
  induction fuel as [|fuel IH]; intros idx buf_space s Hok Hsp Hidx Hfuel acc;
    [lia|].
  pose proof (space_of_range s) as Hrange.
  cbn [copy_loop].
  destruct (Z.ltb_spec idx ret) as [Hlt|Hge]; cbn [andb].
  2:{ subst acc. rewrite rest_from_stop by (auto with zarith).
      rewrite take_nil. cbn [length]. exists s.
      rewrite Z.sub_0_r, app_nil_r, app_nil_r. unfold same_kernel.
      splits; congruence. }
  destruct (is_nul (byte_at ec_buffer idx)) eqn:Hnul; cbn [negb andb].
  { subst acc. rewrite rest_from_stop by auto.
    rewrite take_nil. cbn [length]. exists s.
    rewrite Z.sub_0_r, app_nil_r, app_nil_r. unfold same_kernel.
      splits; congruence. }
  destruct (Z.ltb_spec 0 buf_space) as [Hpos|Hzero].
  2:{ subst acc. replace (Z.to_nat buf_space) with O by lia.
      rewrite take_0. cbn [length]. exists s.
      rewrite Z.sub_0_r, app_nil_r, app_nil_r. unfold same_kernel.
      splits; congruence. }
  set (c := byte_at ec_buffer idx) in *.
  assert (Hsp1 : 0 < CIRC_SPACE (head (log_buffer s)) (tail (log_buffer s)) LOG_SIZE)
    by (unfold space_of in Hsp; lia).
  destruct (IH (idx + 1) (buf_space - 1) (store_byte c s)) as (s' & Hrun & Hok' & Hsp' & Ht' & Hc' & Hst' & Hk');
    try lia.
  - cbn [store_byte log_buffer]. now apply put_byte_ok.
  - unfold space_of. cbn [store_byte log_buffer].
    rewrite put_byte_space by assumption. unfold space_of in Hsp. lia.
  - assert (Hacc : acc = c :: take (Z.to_nat (buf_space - 1))
                              (rest_from ec_buffer ret (idx + 1))).
    { subst acc. rewrite rest_from_cons by (auto with zarith).
      replace (Z.to_nat buf_space) with (S (Z.to_nat (buf_space - 1))) by lia.
      reflexivity. }
    rewrite Hacc. cbn [length].
    set (acc' := take (Z.to_nat (buf_space - 1)) (rest_from ec_buffer ret (idx + 1))) in *.
    replace (buf_space - Z.of_nat (S (length acc')))
      with (buf_space - 1 - Z.of_nat (length acc')) by lia.
    exists s'. cbn [store_byte log_buffer stored] in *.
    rewrite put_byte_contents in Hc' by assumption.
    rewrite <- !app_assoc in *. cbn [app] in *.
    splits; try assumption; apply Hk'.
Qed.

(** ** The outer loop, lines 88-115 *)

Lemma xfer_eq (c : ec_command) (s : state) :
  xfer c s =
  (fst (fst (fwk_ec_cmd_xfer_status (ec_dev s) c)),
   snd (fst (fwk_ec_cmd_xfer_status (ec_dev s) c)),
   after_xfer (snd (fwk_ec_cmd_xfer_status (ec_dev s) c)) c s).
Proof.
  unfold xfer. now destruct (fwk_ec_cmd_xfer_status (ec_dev s) c) as [[ret data] e].
Qed.

Lemma read_loop_spec (fuel : nat) (buf_space : Z) (s : state) :
  cb_ok (log_buffer s) -> buf_space = space_of s ->
  (Z.to_nat buf_space < fuel)%nat ->
  exists s' acc,
    read_loop fuel buf_space s = Some s' /\
    cb_ok (log_buffer s') /\
    tail (log_buffer s') = tail (log_buffer s) /\
    contents (log_buffer s') = contents (log_buffer s) ++ acc /\
    stored s' = stored s ++ acc /\
    Z.of_nat (length acc) <= buf_space /\
    log_poll_work s' = log_poll_work s /\
    diag_step s s'.
Proof.
  revert buf_space s.
  induction fuel as [|fuel IH]; intros buf_space s Hok Hsp Hfuel; [lia|].
  pose proof (space_of_range s) as Hrange.
  cbn [read_loop].
  destruct (Z.eqb_spec buf_space 0) as [Hz|Hnz].
  { exists (dev_info_once dropped_msg (saturated s)), [].
    unfold dev_info_once, diag_step. cbn [saturated print_once].
    destruct (print_once s) eqn:Hp; cbn; rewrite ?app_nil_r;
      splits; auto; try lia; right; splits; auto using app_nil_r. }
  rewrite xfer_eq.
  set (r := fwk_ec_cmd_xfer_status (ec_dev s) (EC_CMD_CONSOLE_READ CONSOLE_READ_RECENT)).
  set (ret := fst (fst r)). set (ec_buffer := snd (fst r)).
  set (s1 := after_xfer (snd r) (EC_CMD_CONSOLE_READ CONSOLE_READ_RECENT) s).
  destruct (Z.ltb_spec ret 0) as [Hneg|Hnn].
  { exists s1, []. unfold diag_step. cbn. rewrite !app_nil_r.
    splits; auto; lia. }
  destruct (Z.eqb_spec ret 0) as [Hr0|Hrpos]; cbn [orb].
  { exists s1, []. unfold diag_step. cbn. rewrite !app_nil_r.
    splits; auto; lia. }
  destruct (is_nul (byte_at ec_buffer 0)) eqn:Hnul.
  { exists s1, []. unfold diag_step. cbn. rewrite !app_nil_r.
    splits; auto; lia. }
  destruct (copy_loop_spec (S (Z.to_nat ret)) ec_buffer ret 0 buf_space s1)
    as (s2 & Hcopy & Hok2 & Hsp2 & Ht2 & Hc2 & Hst2 & Hk2); try assumption; try lia.
  set (acc1 := take (Z.to_nat buf_space) (rest_from ec_buffer ret 0)) in *.
  assert (Hlen1 : 1 <= Z.of_nat (length acc1) <= buf_space).
  { subst acc1. rewrite rest_from_cons by (auto with zarith).
    rewrite length_take. cbn [length]. lia. }
  rewrite Hcopy.
  destruct (IH (buf_space - Z.of_nat (length acc1)) (wake_up s2))
    as (s' & acc2 & Hrun & Hok' & Ht' & Hc' & Hst' & Hlen' & Hw' & Hd');
    try assumption; try lia.
  { unfold space_of in *. cbn [wake_up log_buffer]. congruence. }
  exists s', (acc1 ++ acc2).
  cbn [wake_up log_buffer stored log_poll_work] in *.
  destruct Hk2 as (_ & Hk2w & Hk2p & Hk2d & _ & _ & Hk2s).
  cbn [s1 after_xfer log_buffer stored log_poll_work print_once dmesg saturations] in *.
  rewrite length_app, !app_assoc.
  splits; try congruence; try lia.
  unfold diag_step in *. cbn [wake_up print_once dmesg saturations] in Hd'.
  rewrite Hk2p, Hk2d, Hk2s in Hd'. exact Hd'.
Qed.

(** ** A whole cycle *)

Lemma schedule_after_clear (d : Z) (s : state) :
  log_poll_work s = None ->
  schedule_delayed_work d s = set_log_poll_work (Some d) s.
Proof. intros H. unfold schedule_delayed_work. now rewrite H. Qed.

Lemma run_work_spec (s : state) :
  cb_ok (log_buffer s) ->
  exists s' acc,
    run_work s = Some s' /\
    cb_ok (log_buffer s') /\
    tail (log_buffer s') = tail (log_buffer s) /\
    contents (log_buffer s') = contents (log_buffer s) ++ acc /\
    stored s' = stored s ++ acc /\
    Z.of_nat (length acc) <= space_of s /\
    log_poll_work s' = Some (msecs_to_jiffies (LOG_POLL_SEC * 1000)) /\
    diag_step s s'.
Proof.
  intros Hok. unfold run_work, fwk_ec_console_log_work.
  rewrite xfer_eq.
  set (s0 := set_log_poll_work None s).
  set (r := fwk_ec_cmd_xfer_status (ec_dev s0) EC_CMD_CONSOLE_SNAPSHOT).
  set (s1 := after_xfer (snd r) EC_CMD_CONSOLE_SNAPSHOT s0).
  pose proof (space_of_range s) as Hrange.
  destruct (Z.ltb_spec (fst (fst r)) 0) as [Hneg|Hnn].
  { exists (schedule_delayed_work (msecs_to_jiffies (LOG_POLL_SEC * 1000)) s1), [].
    rewrite schedule_after_clear by reflexivity.
    unfold diag_step. cbn. rewrite !app_nil_r. splits; auto; lia. }
  destruct (read_loop_spec
              (S (Z.to_nat (CIRC_SPACE (head (log_buffer s1)) (tail (log_buffer s1)) LOG_SIZE)))
              (CIRC_SPACE (head (log_buffer s1)) (tail (log_buffer s1)) LOG_SIZE) s1)
    as (s2 & acc & Hrun & Hok2 & Ht2 & Hc2 & Hst2 & Hlen & Hw2 & Hd2);
    try assumption; try reflexivity; try lia.
  rewrite Hrun. exists (schedule_delayed_work (msecs_to_jiffies (LOG_POLL_SEC * 1000)) s2), acc.
  rewrite schedule_after_clear by (rewrite Hw2; reflexivity).
  cbn [set_log_poll_work log_buffer stored log_poll_work].
  splits; try assumption; try reflexivity.
Qed.

(** ** One pass of a reader *)

Lemma read_locked_spec (f_flags : Z) (count : N) (fault : bool) (cb : circ_buf) :
  cb_ok cb ->
  cb_ok (snd (read_locked f_flags count fault cb)) /\
  head (snd (read_locked f_flags count fault cb)) = head cb /\
  buf (snd (read_locked f_flags count fault cb)) = buf cb /\
  contents cb =
    ubuf_of (fst (read_locked f_flags count fault cb)) ++
    contents (snd (read_locked f_flags count fault cb)).
Proof.
  intros Hok. unfold read_locked.
  destruct (Z.eqb_spec (CIRC_CNT (head cb) (tail cb) LOG_SIZE) 0) as [Hz|Hnz].
  { destruct (Z.land f_flags O_NONBLOCK =? 0); cbn; auto. }
  set (ret := Z.min (CIRC_CNT_TO_END (head cb) (tail cb) LOG_SIZE) (Z.of_N count)).
  destruct (Z.eqb_spec (copy_to_user fault ret) 0) as [Hcp|Hcp]; cbn [fst snd ubuf_of];
    [|cbn; auto].
  assert (Hret : 0 <= ret <= CIRC_CNT_TO_END (head cb) (tail cb) LOG_SIZE).
  { pose proof Hok as (Hl & Hh & Ht).
    pose proof (CIRC_CNT_range (head cb) (tail cb)).
    subst ret. rewrite CIRC_CNT_TO_END_min by lia. lia. }
  destruct (advance_tail_contents ret cb Hok Hret) as [Hspan Hdrop].
  rewrite Hspan, Hdrop, take_drop.
  splits; auto using advance_tail_ok.
Qed.

(** ** Invariant of the driver *)

Lemma diag_step_ok (s s' : state) : diag_ok s -> diag_step s s' -> diag_ok s'.
Proof.
  unfold diag_ok, diag_step.
  intros H [(Hs & Hp & Hd)|(Hs & Hp & Hd)]; rewrite Hs.
  - rewrite Hp, Hd. exact H.
  - rewrite Hp, Hd. destruct (saturations s); destruct H as [Hp0 Hd0];
      rewrite Hp0, Hd0; auto.
Qed.

Lemma fwk_ec_create_console_log_inv (e : ec_device) :
  driver_inv (fwk_ec_create_console_log e) [].
Proof.
  pose proof LOG_SIZE_pos.
  unfold driver_inv, cb_ok, diag_ok, contents. cbn.
  rewrite length_replicate.
  assert (Hc : CIRC_CNT 0 0 LOG_SIZE = 0) by (rewrite CIRC_CNT_mod; reflexivity).
  rewrite Hc. cbn. splits; auto; lia.
Qed.

Lemma run_inv (ops : list op) (s : state) (delivered : list byte) :
  driver_inv s delivered ->
  exists s' delivered',
    run ops s delivered = Some (s', delivered') /\ driver_inv s' delivered'.
Proof.
  revert s delivered.
  induction ops as [|[|f_flags count fault] ops IH]; intros s d (Hok & Hst & Hd).
  - exists s, d. unfold driver_inv. auto.
  - cbn [run].
    destruct (run_work_spec s Hok)
      as (s' & acc & Hrun & Hok' & _ & Hc' & Hst' & _ & _ & Hd').
    rewrite Hrun. apply IH. unfold driver_inv. splits; auto.
    + rewrite Hst', Hc', Hst, app_assoc. reflexivity.
    + eauto using diag_step_ok.
  - cbn [run].
    destruct (read_locked_spec f_flags count fault (log_buffer s) Hok)
      as (Hok' & _ & _ & Hc').
    destruct (read_locked f_flags count fault (log_buffer s)) as [pc cb'].
    cbn [fst snd] in *. apply IH. unfold driver_inv.
    cbn [set_log_buffer log_buffer stored]. splits; auto.
    rewrite Hst, Hc', app_assoc. reflexivity.
Qed.

Lemma contents_length (cb : circ_buf) :
  Z.of_nat (length (contents cb)) = CIRC_CNT (head cb) (tail cb) LOG_SIZE.
Proof.
  unfold contents. rewrite window_length.
  pose proof (CIRC_CNT_range (head cb) (tail cb)). lia.
Qed.

(** ** The ring buffer under any sequence of cycles and reads *)

(** C1: from the freshly created console log, after any sequence of
    acquisition cycles and reader passes, head and tail lie in
    [0, LOG_SIZE), the count [(head - tail) mod LOG_SIZE] is the number
    of bytes stored minus the number of bytes handed to readers, it is at
    most [LOG_SIZE - 1], and it is 0 exactly when head = tail. *)
Theorem C1_cursors_and_count (ops : list op) (e : ec_device) :
  exists s delivered,
    run ops (fwk_ec_create_console_log e) [] = Some (s, delivered) /\
    let cb := log_buffer s in
    0 <= head cb < LOG_SIZE /\
    0 <= tail cb < LOG_SIZE /\
    CIRC_CNT (head cb) (tail cb) LOG_SIZE = (head cb - tail cb) mod LOG_SIZE /\
    CIRC_CNT (head cb) (tail cb) LOG_SIZE =
      Z.of_nat (length (stored s)) - Z.of_nat (length delivered) /\
    CIRC_CNT (head cb) (tail cb) LOG_SIZE <= LOG_SIZE - 1 /\
    (CIRC_CNT (head cb) (tail cb) LOG_SIZE = 0 <-> head cb = tail cb).
Proof.
  destruct (run_inv ops _ _ (fwk_ec_create_console_log_inv e))
    as (s & d & Hrun & (Hl & Hh & Ht) & Hst & _).
  exists s, d. split; [exact Hrun|]. cbn zeta.
  pose proof (contents_length (log_buffer s)) as Hc.
  pose proof (CIRC_CNT_range (head (log_buffer s)) (tail (log_buffer s))).
  splits; try lia.
  - apply CIRC_CNT_mod.
  - rewrite Hst, length_app. lia.
  - now apply CIRC_CNT_zero_iff.
Qed.

(** ** Reads *)

Lemma advance_tail_0 (cb : circ_buf) : cb_ok cb -> advance_tail 0 cb = cb.
Proof.
  intros (Hl & Hh & Ht). destruct cb as [b h t]. unfold advance_tail.
  cbn [buf head tail] in *.
  rewrite CIRC_ADD_mod, Z.add_0_r, Z.mod_small by lia. reflexivity.
Qed.

(** C3: a read that succeeds on a non-empty buffer returns
    min(contiguous run from tail, requested length) bytes, where the
    contiguous run is min(count, LOG_SIZE - tail); the bytes are the
    storage from tail on, they end at or before the physical end of the
    storage, they are the oldest valid bytes, tail moves forward by the
    returned amount (modulo LOG_SIZE), the count drops by it, and a positive
    request gets a positive return. *)
Theorem C3_read_contiguous_run (f_flags : Z) (count : N) (fault : bool)
    (cb cb' : circ_buf) (ret : Z) (ubuf : list byte) :
  cb_ok cb ->
  CIRC_CNT (head cb) (tail cb) LOG_SIZE <> 0 ->
  read_locked f_flags count fault cb = (Returned ret ubuf, cb') ->
  0 <= ret ->
  ret = Z.min (Z.min (CIRC_CNT (head cb) (tail cb) LOG_SIZE) (LOG_SIZE - tail cb))
              (Z.of_N count) /\
  ubuf = span (buf cb) (tail cb) ret /\
  Z.of_nat (length ubuf) = ret /\
  tail cb + ret <= LOG_SIZE /\
  ubuf = take (Z.to_nat ret) (contents cb) /\
  contents cb' = drop (Z.to_nat ret) (contents cb) /\
  tail cb' = (tail cb + ret) mod LOG_SIZE /\
  head cb' = head cb /\ buf cb' = buf cb /\
  CIRC_CNT (head cb') (tail cb') LOG_SIZE =
    CIRC_CNT (head cb) (tail cb) LOG_SIZE - ret /\
  (0 < Z.of_N count -> 0 < ret).
Proof.
  intros Hok Hne Hread Hret. pose proof Hok as (Hl & Hh & Ht).
  pose proof (CIRC_CNT_range (head cb) (tail cb)) as Hc.
  unfold read_locked in Hread.
  destruct (Z.eqb_spec (CIRC_CNT (head cb) (tail cb) LOG_SIZE) 0); [lia|].
  rewrite CIRC_CNT_TO_END_min in Hread by lia.
  set (r := Z.min (Z.min (CIRC_CNT (head cb) (tail cb) LOG_SIZE) (LOG_SIZE - tail cb))
                  (Z.of_N count)) in *.
  assert (Hr : 0 <= r <= CIRC_CNT_TO_END (head cb) (tail cb) LOG_SIZE)
    by (rewrite CIRC_CNT_TO_END_min by lia; lia).
  destruct (copy_to_user fault r =? 0).
  2:{ inversion Hread; subst. unfold EFAULT in Hret. lia. }
  inversion Hread; subst ret ubuf cb'; clear Hread.
  destruct (advance_tail_contents r cb Hok Hr) as [Hspan Hdrop].
  splits; auto.
  - unfold span. rewrite length_take, length_drop. lia.
  - lia.
  - cbn [advance_tail tail]. apply CIRC_ADD_mod.
  - now apply advance_tail_cnt.
  - lia.
Qed.

(** C8: a non-blocking read on an empty buffer returns [-EAGAIN] at its
    first step, hands out no byte and leaves the ring buffer as it was; the
    return is negative, so it is not an empty success. *)
Theorem C8_nonblocking_empty (f_flags : Z) (count : N) (fault : bool)
    (cb last : circ_buf) (sig : bool) (later : list (bool * circ_buf)) :
  Z.land f_flags O_NONBLOCK <> 0 ->
  CIRC_CNT (head cb) (tail cb) LOG_SIZE = 0 ->
  read_locked f_flags count fault cb = (Returned (- EAGAIN) [], cb) /\
  fwk_ec_console_log_read f_flags count fault ((sig, cb) :: later) last
    = (Returned (- EAGAIN) [], cb) /\
  - EAGAIN < 0.
Proof.
  intros Hnb Hempty.
  assert (Hl : read_locked f_flags count fault cb = (Returned (- EAGAIN) [], cb)).
  { unfold read_locked. rewrite Hempty. cbn [Z.eqb].
    destruct (Z.eqb_spec (Z.land f_flags O_NONBLOCK) 0); [contradiction|reflexivity]. }
  splits; auto.
  - unfold fwk_ec_console_log_read. cbn [read_run read_step]. rewrite Hl.
    now destruct later as [|[? ?] ?].
  - unfold EAGAIN. lia.
Qed.

Lemma last_seen_cons (o o' : bool * circ_buf) (sched : list (bool * circ_buf))
    (d : circ_buf) :
  last_seen (o :: o' :: sched) d = last_seen (o' :: sched) (snd o).
Proof.
  unfold last_seen. cbn [map List.last].
  generalize (snd o) as d'. generalize (snd o') as x.
  induction (map snd sched) as [|y l IH]; intros x d'; [reflexivity|].
  cbn [List.last] in *. apply IH.
Qed.

(** A blocking reader that only ever sees an empty buffer and no signal
    sleeps in the wait of line 148, whatever length it asked for. *)
Lemma read_run_quiet (f_flags : Z) (count : N) (fault : bool)
    (pc : read_pc) (sched : list (bool * circ_buf)) (d : circ_buf) :
  Z.land f_flags O_NONBLOCK = 0 -> quiet sched -> sched <> [] ->
  pc = AtLoopTest \/ pc = AtWait ->
  read_run f_flags count fault pc sched d = (AtWait, last_seen sched d).
Proof.
  intros Hb Hq. revert pc d.
  induction Hq as [|[sig cb] sched [Hsig Hempty] Hq IH]; intros pc d Hne Hpc;
    [contradiction|].
  cbn [fst snd] in *. subst sig.
  assert (Hstep : read_step f_flags count fault pc false cb = (AtWait, cb)).
  { destruct Hpc; subst pc; cbn [read_step].
    - unfold read_locked. now rewrite Hempty, Hb.
    - unfold read_waiting, wait_event_interruptible. now rewrite Hempty. }
  cbn [read_run]. rewrite Hstep.
  destruct sched as [|o sched].
  - destruct Hpc; subst pc; reflexivity.
  - assert (Hgo : read_run f_flags count fault AtWait (o :: sched) cb
                  = (AtWait, last_seen (o :: sched) cb))
      by (apply IH; [discriminate|now right]).
    rewrite last_seen_cons. destruct Hpc; subst pc; exact Hgo.
Qed.

Lemma read_run_app (f_flags : Z) (count : N) (fault : bool)
    (pc : read_pc) (sched1 sched2 : list (bool * circ_buf)) (d : circ_buf) :
  read_run f_flags count fault pc (sched1 ++ sched2) d =
  read_run f_flags count fault
    (fst (read_run f_flags count fault pc sched1 d)) sched2
    (snd (read_run f_flags count fault pc sched1 d)).
Proof.
  revert pc d. induction sched1 as [|[sig cb] sched1 IH]; intros pc d.
  - reflexivity.
  - cbn [app read_run]. destruct pc.
    + destruct (read_step f_flags count fault AtLoopTest sig cb) as [pc' cb'].
      apply IH.
    + destruct (read_step f_flags count fault AtWait sig cb) as [pc' cb'].
      apply IH.
    + cbn [fst snd]. now destruct sched2 as [|[? ?] ?].
Qed.

(** C9: a blocking read that sleeps on an empty buffer and is then
    interrupted by a signal (the buffer still empty) returns
    [-ERESTARTSYS], which differs from the [-EAGAIN] of the non-blocking
    case; it hands out no byte and the ring buffer, tail included, is as the
    other tasks left it. *)
Theorem C9_interrupted_wait (f_flags : Z) (count : N) (fault : bool)
    (pre : list (bool * circ_buf)) (cb d : circ_buf) :
  Z.land f_flags O_NONBLOCK = 0 ->
  quiet pre -> pre <> [] ->
  CIRC_CNT (head cb) (tail cb) LOG_SIZE = 0 ->
  read_step f_flags count fault AtWait true cb
    = (Returned (- ERESTARTSYS) [], cb) /\
  fwk_ec_console_log_read f_flags count fault (pre ++ [(true, cb)]) d
    = (Returned (- ERESTARTSYS) [], cb) /\
  - ERESTARTSYS <> - EAGAIN /\ - ERESTARTSYS < 0.
Proof.
  intros Hb Hq Hne Hempty.
  assert (Hstep : read_step f_flags count fault AtWait true cb
                  = (Returned (- ERESTARTSYS) [], cb)).
  { cbn [read_step]. unfold read_waiting, wait_event_interruptible.
    rewrite Hempty. reflexivity. }
  splits; auto; try (unfold ERESTARTSYS, EAGAIN; lia).
  unfold fwk_ec_console_log_read.
  rewrite read_run_app, (read_run_quiet _ _ _ AtLoopTest) by auto.
  cbn [fst snd read_run]. now rewrite Hstep.
Qed.

(** C10: a blocking read of length 0 on an empty buffer does not return:
    while the buffer stays empty and no signal comes it sleeps in the wait,
    step for step as a read of any other length does; once it has seen the
    buffer non-empty and holds the mutex again with the buffer still
    non-empty, it returns 0, hands out no byte, and leaves head, tail and
    storage as they were. *)
Theorem C10_zero_length_blocking_read (f_flags : Z) (fault : bool)
    (pre : list (bool * circ_buf)) (d : circ_buf) :
  Z.land f_flags O_NONBLOCK = 0 ->
  quiet pre -> pre <> [] ->
  fwk_ec_console_log_read f_flags 0 fault pre d = (AtWait, last_seen pre d) /\
  (forall count : N,
     fwk_ec_console_log_read f_flags count fault pre d
     = fwk_ec_console_log_read f_flags 0 fault pre d) /\
  (forall (sig sig' : bool) (cb1 cb2 : circ_buf),
     CIRC_CNT (head cb1) (tail cb1) LOG_SIZE <> 0 ->
     CIRC_CNT (head cb2) (tail cb2) LOG_SIZE <> 0 ->
     cb_ok cb2 ->
     fwk_ec_console_log_read f_flags 0 fault (pre ++ [(sig, cb1); (sig', cb2)]) d
     = (Returned 0 [], cb2)).
Proof.
  intros Hb Hq Hne. unfold fwk_ec_console_log_read.
  pose proof (read_run_quiet f_flags 0%N fault AtLoopTest pre d Hb Hq Hne
                (or_introl eq_refl)) as H0.
  splits; auto.
  - intros count. rewrite H0. now apply read_run_quiet; auto.
  - intros sig sig' cb1 cb2 Hne1 Hne2 Hok2.
    rewrite read_run_app, H0. cbn [fst snd read_run read_step].
    unfold read_waiting, wait_event_interruptible.
    destruct (Z.eqb_spec (CIRC_CNT (head cb1) (tail cb1) LOG_SIZE) 0);
      [contradiction|]. cbn [negb Z.ltb Z.compare read_run read_step].
    unfold read_locked.
    destruct (Z.eqb_spec (CIRC_CNT (head cb2) (tail cb2) LOG_SIZE) 0);
      [contradiction|].
    pose proof Hok2 as (Hl & Hh & Ht).
    pose proof (CIRC_CNT_range (head cb2) (tail cb2)).
    assert (Hmin : Z.min (CIRC_CNT_TO_END (head cb2) (tail cb2) LOG_SIZE) (Z.of_N 0) = 0)
      by (rewrite CIRC_CNT_TO_END_min by lia; lia).
    rewrite Hmin. unfold copy_to_user, span.
    rewrite advance_tail_0 by assumption.
    now destruct fault.
Qed.

(** ** Appends *)

Lemma rest_from_length (l : list byte) (ret : Z) (n : nat) (idx : Z) :
  0 <= idx -> idx + Z.of_nat n = ret ->
  (forall i, 0 <= i < ret -> is_nul (byte_at l i) = false) ->
  length (rest_from l ret idx) = n.
Proof.
  intros Hidx Hsum Hnz. revert idx Hidx Hsum.
  induction n as [|n IH]; intros idx Hidx Hsum.
  - rewrite rest_from_stop by (auto with zarith). reflexivity.
  - rewrite rest_from_cons by (try apply Hnz; lia).
    cbn [length]. f_equal. apply IH; lia.
Qed.

(** C4: the inner loop, entered with [buf_space] the free space of the
    buffer, stores the payload of the response (its bytes before [ret] and
    before the first NUL) cut to the free space: min(payload length, space)
    bytes, which is min(ret, space) when the response has no NUL; the stored
    bytes go behind the valid ones, which are kept, tail does not move, the
    free space drops by the number stored and the count stays at most
    [LOG_SIZE - 1]. *)
Theorem C4_append_truncates_at_space (ec_buffer : list byte) (ret : Z) (s : state) :
  cb_ok (log_buffer s) ->
  let sp := space_of s in
  let data := payload ec_buffer ret in
  let acc := take (Z.to_nat sp) data in
  exists s',
    copy_loop (S (Z.to_nat ret)) ec_buffer ret 0 sp s
      = Some (sp - Z.of_nat (length acc), s') /\
    stored s' = stored s ++ acc /\
    Z.of_nat (length acc) = Z.min (Z.of_nat (length data)) sp /\
    (0 <= ret ->
     (forall i, 0 <= i < ret -> is_nul (byte_at ec_buffer i) = false) ->
     Z.of_nat (length acc) = Z.min ret sp) /\
    contents (log_buffer s') = contents (log_buffer s) ++ acc /\
    tail (log_buffer s') = tail (log_buffer s) /\
    space_of s' = sp - Z.of_nat (length acc) /\
    CIRC_CNT (head (log_buffer s')) (tail (log_buffer s')) LOG_SIZE =
      CIRC_CNT (head (log_buffer s)) (tail (log_buffer s)) LOG_SIZE
      + Z.of_nat (length acc) /\
    CIRC_CNT (head (log_buffer s')) (tail (log_buffer s')) LOG_SIZE <= LOG_SIZE - 1.
Proof.
  intros Hok sp data acc.
  pose proof (space_of_range s) as Hrange.
  destruct (copy_loop_spec (S (Z.to_nat ret)) ec_buffer ret 0 sp s)
    as (s' & Hcopy & Hok' & Hsp' & Ht' & Hc' & Hst' & _); try assumption;
    try reflexivity; try lia.
  rewrite rest_from_0 in *. fold data acc in Hcopy, Hsp', Hc', Hst'.
  assert (Hlen : Z.of_nat (length acc) = Z.min (Z.of_nat (length data)) sp).
  { subst acc. rewrite length_take. fold sp in Hrange. lia. }
  exists s'. splits; try assumption.
  - intros Hret Hnz. rewrite Hlen. subst data.
    rewrite <- rest_from_0.
    rewrite (rest_from_length ec_buffer ret (Z.to_nat ret) 0) by (auto; lia).
    lia.
  - rewrite <- !contents_length, Hc', length_app. lia.
  - apply CIRC_CNT_range.
Qed.

(** ** Cycles *)

(** C6: when the snapshot transfer returns a negative status, the work
    item sends nothing else (no read command), leaves storage, head and
    tail as they were, stores no byte, wakes nobody, prints nothing, and
    queues itself again [LOG_POLL_SEC] seconds later. *)
Theorem C6_snapshot_failure_skips_cycle (s : state) :
  fst (fst (fwk_ec_cmd_xfer_status (ec_dev s) EC_CMD_CONSOLE_SNAPSHOT)) < 0 ->
  log_poll_work s = None ->
  exists s',
    fwk_ec_console_log_work s = Some s' /\
    log_buffer s' = log_buffer s /\
    xfers s' = xfers s ++ [EC_CMD_CONSOLE_SNAPSHOT] /\
    stored s' = stored s /\ wakeups s' = wakeups s /\
    dmesg s' = dmesg s /\ saturations s' = saturations s /\
    log_poll_work s' = Some (msecs_to_jiffies (LOG_POLL_SEC * 1000)).
Proof.
  intros Hfail Hidle. unfold fwk_ec_console_log_work. rewrite xfer_eq.
  destruct (Z.ltb_spec (fst (fst (fwk_ec_cmd_xfer_status (ec_dev s) EC_CMD_CONSOLE_SNAPSHOT))) 0);
    [|lia].
  eexists. split; [reflexivity|].
  rewrite schedule_after_clear by exact Hidle.
  cbn. splits; reflexivity.
Qed.

Lemma sum_list_with_insert {A : Type} (f : A -> nat) (l : list A) (i : nat) (x y : A) :
  l !! i = Some x ->
  (sum_list_with f (<[i := y]> l) + f x = sum_list_with f l + f y)%nat.
Proof.
  revert i. induction l as [|a l IH]; intros [|i] Hx; try discriminate.
  - cbn in Hx. inversion Hx; subst. cbn. lia.
  - cbn in Hx. specialize (IH i Hx).
    change (<[S i := y]> (a :: l)) with (a :: <[i := y]> l).
    cbn [sum_list_with]. lia.
Qed.

Lemma once_only_refl (k : kernel) : once_only k k.
Proof.
  unfold once_only. rewrite Nat.ltb_irrefl, orb_false_r.
  destruct (once k); rewrite app_nil_r; auto.
Qed.

Lemma once_only_trans (k1 k2 k3 : kernel) :
  once_only k1 k2 -> once_only k2 k3 -> once_only k1 k3.
Proof.
  unfold once_only. intros (Hle & Ho & Hl) (Hle' & Ho' & Hl').
  rewrite Hl', Hl, Ho', Ho.
  destruct (once k1);
    destruct (Nat.ltb_spec (total_saturations k1) (total_saturations k2));
    destruct (Nat.ltb_spec (total_saturations k2) (total_saturations k3));
    destruct (Nat.ltb_spec (total_saturations k1) (total_saturations k3));
    cbn; rewrite ?app_nil_r; splits; auto; lia.
Qed.

Lemma krun_once_only (evs : list kevent) (k : kernel) :
  well_formed k ->
  exists k', krun evs k = Some k' /\ well_formed k' /\ once_only k k'.
Proof.
  revert k. induction evs as [|[e|i|i f_flags count fault] evs IH]; intros k Hwf.
  - exists k. auto using once_only_refl.
  - cbn [krun].
    set (k1 := {| once := once k; klog := klog k;
                  console_logs :=
                    console_logs k ++ [in_kernel k (fwk_ec_create_console_log e)] |}).
    assert (Hwf1 : well_formed k1).
    { unfold well_formed. cbn [k1 console_logs]. apply Forall_app. split; [exact Hwf|].
      constructor; [|constructor]. cbn [in_kernel log_buffer].
      exact (proj1 (fwk_ec_create_console_log_inv e)). }
    assert (Hstep : once_only k k1).
    { unfold once_only, total_saturations. cbn [k1 console_logs once klog].
      rewrite sum_list_with_app.
      cbn [sum_list_with in_kernel fwk_ec_create_console_log saturations].
      rewrite !Nat.add_0_r, Nat.ltb_irrefl, orb_false_r.
      destruct (once k); rewrite app_nil_r; auto. }
    destruct (IH k1 Hwf1) as (k' & Hrun & Hwf' & Hoo).
    exists k'. eauto using once_only_trans.
  - cbn [krun]. destruct (console_logs k !! i) as [s|] eqn:Hs; [|now apply IH].
    assert (Hok : cb_ok (log_buffer (in_kernel k s)))
      by exact (proj1 (Forall_lookup _ _) Hwf _ _ Hs).
    destruct (run_work_spec _ Hok)
      as (s' & acc & Hwork & Hok' & _ & _ & _ & _ & _ & Hd).
    rewrite Hwork.
    set (k1 := {| once := print_once s'; klog := dmesg s';
                  console_logs := <[i := s']> (console_logs k) |}).
    assert (Hwf1 : well_formed k1) by (now apply Forall_insert).
    assert (Hstep : once_only k k1).
    { pose proof (sum_list_with_insert saturations _ i s s' Hs) as Hsum.
      unfold once_only, total_saturations. cbn [k1 console_logs once klog].
      unfold diag_step in Hd. cbn [in_kernel saturations print_once dmesg] in Hd.
      destruct Hd as [(Hsat & Hp & Hm)|(Hsat & Hp & Hm)]; rewrite Hp, Hm.
      - replace (sum_list_with saturations (<[i:=s']> (console_logs k)))
          with (sum_list_with saturations (console_logs k)) by lia.
        rewrite Nat.ltb_irrefl, orb_false_r.
        destruct (once k); rewrite app_nil_r; auto.
      - replace (sum_list_with saturations (<[i:=s']> (console_logs k)))
          with (S (sum_list_with saturations (console_logs k))) by lia.
        rewrite (proj2 (Nat.ltb_lt _ _)) by lia. rewrite orb_true_r.
        splits; auto. }
    destruct (IH k1 Hwf1) as (k' & Hrun & Hwf' & Hoo).
    exists k'. eauto using once_only_trans.
  - cbn [krun]. destruct (console_logs k !! i) as [s|] eqn:Hs; [|now apply IH].
    assert (Hok : cb_ok (log_buffer s))
      by exact (proj1 (Forall_lookup _ _) Hwf _ _ Hs).
    destruct (read_locked_spec f_flags count fault _ Hok) as (Hok' & _).
    destruct (read_locked f_flags count fault (log_buffer s)) as [pc cb].
    cbn [snd] in Hok'.
    set (k1 := {| once := once k; klog := klog k;
                  console_logs := <[i := set_log_buffer cb s]> (console_logs k) |}).
    assert (Hwf1 : well_formed k1) by (now apply Forall_insert).
    assert (Hstep : once_only k k1).
    { pose proof (sum_list_with_insert saturations _ i s (set_log_buffer cb s) Hs) as Hsum.
      cbn [set_log_buffer saturations] in Hsum.
      unfold once_only, total_saturations. cbn [k1 console_logs once klog].
      replace (sum_list_with saturations (<[i:=set_log_buffer cb s]> (console_logs k)))
        with (sum_list_with saturations (console_logs k)) by lia.
      rewrite Nat.ltb_irrefl, orb_false_r.
      destruct (once k); rewrite app_nil_r; auto. }
    destruct (IH k1 Hwf1) as (k' & Hrun & Hwf' & Hoo).
    exists k'. eauto using once_only_trans.
Qed.


(** ** Further properties of the reader *)

Lemma read_locked_data (f_flags : Z) (count : N) (cb : circ_buf) :
  CIRC_CNT (head cb) (tail cb) LOG_SIZE <> 0 ->
  read_locked f_flags count false cb =
  (Returned (Z.min (CIRC_CNT_TO_END (head cb) (tail cb) LOG_SIZE) (Z.of_N count))
     (span (buf cb) (tail cb)
        (Z.min (CIRC_CNT_TO_END (head cb) (tail cb) LOG_SIZE) (Z.of_N count))),
   advance_tail (Z.min (CIRC_CNT_TO_END (head cb) (tail cb) LOG_SIZE) (Z.of_N count)) cb).
Proof.
  intros Hne. unfold read_locked.
  destruct (Z.eqb_spec (CIRC_CNT (head cb) (tail cb) LOG_SIZE) 0); [contradiction|].
  reflexivity.
Qed.

Lemma span_length (cb : circ_buf) (r : Z) :
  cb_ok cb -> 0 <= r -> tail cb + r <= LOG_SIZE ->
  Z.of_nat (length (span (buf cb) (tail cb) r)) = r.
Proof.
  intros (Hl & Hh & Ht) Hr Hend. unfold span.
  rewrite length_take, length_drop. lia.
Qed.

(** X1: poll and a non-blocking read agree.  On a well-formed buffer
    poll returns no event exactly when a non-blocking read returns
    [-EAGAIN], and [EPOLLIN | EPOLLRDNORM] exactly when a non-blocking read
    of a positive length into a good user buffer returns a positive count. *)
Theorem X1_poll_agrees_with_read (f_flags : Z) (count : N) (cb : circ_buf) :
  cb_ok cb -> Z.land f_flags O_NONBLOCK <> 0 -> 0 < Z.of_N count ->
  (fwk_ec_console_log_poll cb = 0 /\
   read_locked f_flags count false cb = (Returned (- EAGAIN) [], cb)) \/
  (fwk_ec_console_log_poll cb = Z.lor EPOLLIN EPOLLRDNORM /\
   exists ret ubuf cb',
     read_locked f_flags count false cb = (Returned ret ubuf, cb') /\
     0 < ret <= Z.of_N count /\ Z.of_nat (length ubuf) = ret).
Proof.
  intros Hok Hnb Hcount. pose proof Hok as (Hl & Hh & Ht).
  pose proof (CIRC_CNT_range (head cb) (tail cb)) as Hc.
  unfold fwk_ec_console_log_poll.
  destruct (Z.eqb_spec (CIRC_CNT (head cb) (tail cb) LOG_SIZE) 0) as [Hz|Hnz].
  - left. split; [reflexivity|]. unfold read_locked. rewrite Hz. cbn [Z.eqb].
    destruct (Z.eqb_spec (Z.land f_flags O_NONBLOCK) 0); [contradiction|reflexivity].
  - right. split; [reflexivity|]. rewrite read_locked_data by assumption.
    do 3 eexists. split; [reflexivity|].
    rewrite CIRC_CNT_TO_END_min by lia. split; [lia|].
    apply span_length; try assumption; lia.
Qed.

(** X4: what a pass of a reader can come to.  It goes to sleep only on
    an empty buffer in blocking mode; it returns [-EAGAIN] only on an empty
    buffer in non-blocking mode; it returns [-EFAULT] only when the user
    buffer faults with bytes to copy; in these three cases the ring buffer
    is untouched.  Otherwise it returns a count between 0 and the requested
    length, at most the number of valid bytes, with as many bytes, and only
    tail has moved. *)
Theorem X4_read_outcomes (f_flags : Z) (count : N) (fault : bool)
    (cb : circ_buf) :
  cb_ok cb ->
  let cnt := CIRC_CNT (head cb) (tail cb) LOG_SIZE in
  match read_locked f_flags count fault cb with
  | (AtLoopTest, _) => False
  | (AtWait, cb') =>
      cnt = 0 /\ Z.land f_flags O_NONBLOCK = 0 /\ cb' = cb
  | (Returned ret ubuf, cb') =>
      (ret = - EAGAIN /\ cnt = 0 /\ Z.land f_flags O_NONBLOCK <> 0 /\
       ubuf = [] /\ cb' = cb) \/
      (ret = - EFAULT /\ fault = true /\ cnt <> 0 /\ 0 < Z.of_N count /\
       ubuf = [] /\ cb' = cb) \/
      (0 <= ret <= Z.of_N count /\ ret <= cnt /\ cnt <> 0 /\
       Z.of_nat (length ubuf) = ret /\
       cb' = advance_tail ret cb /\
       CIRC_CNT (head cb') (tail cb') LOG_SIZE = cnt - ret)
  end.
Proof.
  intros Hok cnt. pose proof Hok as (Hl & Hh & Ht).
  pose proof (CIRC_CNT_range (head cb) (tail cb)) as Hc. fold cnt in Hc.
  unfold read_locked. fold cnt.
  destruct (Z.eqb_spec cnt 0) as [Hz|Hnz].
  { destruct (Z.eqb_spec (Z.land f_flags O_NONBLOCK) 0); [auto|].
    left. splits; auto. }
  set (r := Z.min (CIRC_CNT_TO_END (head cb) (tail cb) LOG_SIZE) (Z.of_N count)).
  assert (Hr : 0 <= r <= CIRC_CNT_TO_END (head cb) (tail cb) LOG_SIZE /\
               r <= Z.of_N count /\ r <= cnt /\ tail cb + r <= LOG_SIZE).
  { subst r. rewrite CIRC_CNT_TO_END_min by lia. fold cnt. lia. }
  assert (Hsucc : 0 <= r <= Z.of_N count /\ r <= cnt /\ cnt <> 0 /\
                  Z.of_nat (length (span (buf cb) (tail cb) r)) = r /\
                  advance_tail r cb = advance_tail r cb /\
                  CIRC_CNT (head (advance_tail r cb)) (tail (advance_tail r cb))
                    LOG_SIZE = cnt - r).
  { split; [lia|]. split; [lia|]. split; [assumption|].
    split; [apply span_length; auto; lia|]. split; [reflexivity|].
    apply advance_tail_cnt; [assumption|lia]. }
  unfold copy_to_user. destruct fault.
  - destruct (Z.eqb_spec r 0) as [Hr0|Hrn].
    + right. right. exact Hsucc.
    + right. left. splits; auto. lia.
  - cbn [Z.eqb]. right. right. exact Hsucc.
Qed.

(** X3: two reads are enough.  With a good user buffer at least as
    large as the number of valid bytes, two successive passes hand out all
    the valid bytes, in order, and leave the buffer empty; the second pass
    is only needed when the valid bytes wrap around the end of the
    storage. *)
Theorem X3_two_reads_drain (f_flags : Z) (count : N) (cb : circ_buf) :
  cb_ok cb ->
  CIRC_CNT (head cb) (tail cb) LOG_SIZE <= Z.of_N count ->
  let r1 := read_locked f_flags count false cb in
  let r2 := read_locked f_flags count false (snd r1) in
  ubuf_of (fst r1) ++ ubuf_of (fst r2) = contents cb /\
  CIRC_CNT (head (snd r2)) (tail (snd r2)) LOG_SIZE = 0 /\
  (tail cb <= head cb -> ubuf_of (fst r1) = contents cb).
Proof.
  intros Hok Hbig r1 r2. pose proof Hok as (Hl & Hh & Ht).
  pose proof (CIRC_CNT_range (head cb) (tail cb)) as Hc.
  destruct (read_locked_spec f_flags count false cb Hok) as (Hok1 & Hh1 & _ & Hc1).
  fold r1 in Hok1, Hh1, Hc1.
  destruct (read_locked_spec f_flags count false (snd r1) Hok1) as (Hok2 & _ & _ & Hc2).
  fold r2 in Hok2, Hc2.
  assert (Hempty : forall c, CIRC_CNT (head c) (tail c) LOG_SIZE = 0 -> contents c = []).
  { intros c Hz. pose proof (contents_length c) as Hlen. rewrite Hz in Hlen.
    destruct (contents c); [reflexivity|cbn in Hlen; lia]. }
  assert (Hcnt2 : CIRC_CNT (head (snd r2)) (tail (snd r2)) LOG_SIZE = 0 /\
                  (tail cb <= head cb ->
                   CIRC_CNT (head (snd r1)) (tail (snd r1)) LOG_SIZE = 0)).
  { destruct (Z.eq_dec (CIRC_CNT (head cb) (tail cb) LOG_SIZE) 0) as [Hz|Hnz].
    { assert (Hr1 : snd r1 = cb).
      { subst r1. unfold read_locked. rewrite Hz. cbn [Z.eqb].
        now destruct (Z.land f_flags O_NONBLOCK =? 0). }
      assert (Hr2 : snd r2 = cb).
      { subst r2. rewrite Hr1. unfold read_locked. rewrite Hz. cbn [Z.eqb].
        now destruct (Z.land f_flags O_NONBLOCK =? 0). }
      rewrite Hr2, Hr1. auto. }
    assert (Hr1 : snd r1 = advance_tail
              (Z.min (CIRC_CNT_TO_END (head cb) (tail cb) LOG_SIZE) (Z.of_N count)) cb)
      by (subst r1; now rewrite read_locked_data).
    set (a := Z.min (CIRC_CNT_TO_END (head cb) (tail cb) LOG_SIZE) (Z.of_N count)) in *.
    assert (Ha : 0 <= a <= CIRC_CNT_TO_END (head cb) (tail cb) LOG_SIZE)
      by (subst a; rewrite CIRC_CNT_TO_END_min by lia; lia).
    pose proof (advance_tail_cnt a cb Hok Ha) as Hcnt1. rewrite <- Hr1 in Hcnt1.
    assert (Htail1 : tail (snd r1) = (tail cb + a) mod LOG_SIZE)
      by (rewrite Hr1; cbn [advance_tail tail]; apply CIRC_ADD_mod).
    assert (Hhead1 : head (snd r1) = head cb) by (rewrite Hr1; reflexivity).
    assert (Hav : a = Z.min (CIRC_CNT (head cb) (tail cb) LOG_SIZE) (LOG_SIZE - tail cb)).
    { subst a. rewrite CIRC_CNT_TO_END_min by lia. lia. }
    rewrite (CIRC_CNT_cases (head cb) (tail cb)) in Hav, Hcnt1, Hnz, Hbig by lia.
    split.
    2:{ intros Hle. rewrite Hcnt1.
        destruct (Z.leb_spec (tail cb) (head cb)); lia. }
    destruct (Z.eq_dec (CIRC_CNT (head (snd r1)) (tail (snd r1)) LOG_SIZE) 0) as [Hz1|Hnz1].
    { assert (Hr2 : snd r2 = snd r1).
      { subst r2. unfold read_locked. rewrite Hz1. cbn [Z.eqb].
        now destruct (Z.land f_flags O_NONBLOCK =? 0). }
      now rewrite Hr2. }
    assert (Hr2 : snd r2 = advance_tail
              (Z.min (CIRC_CNT_TO_END (head (snd r1)) (tail (snd r1)) LOG_SIZE)
                     (Z.of_N count)) (snd r1))
      by (subst r2; now rewrite read_locked_data).
    set (b := Z.min (CIRC_CNT_TO_END (head (snd r1)) (tail (snd r1)) LOG_SIZE)
                    (Z.of_N count)) in *.
    pose proof Hok1 as (Hl1 & Hh1' & Ht1).
    pose proof (CIRC_CNT_range (head (snd r1)) (tail (snd r1))) as Hc1r.
    assert (Hb : b = CIRC_CNT (head (snd r1)) (tail (snd r1)) LOG_SIZE).
    { subst b. rewrite CIRC_CNT_TO_END_min by lia.
      rewrite Hcnt1 in *.
      destruct (Z.leb_spec (tail cb) (head cb)) as [Hle|Hgt]; [lia|].
      assert (Ht0 : tail (snd r1) = 0).
      { rewrite Htail1. replace (tail cb + a) with LOG_SIZE by lia.
        apply Z.mod_same. lia. }
      rewrite Ht0. lia. }
    rewrite Hr2.
    rewrite advance_tail_cnt; [lia|assumption|].
    rewrite Hb. rewrite CIRC_CNT_TO_END_min by lia.
    rewrite Hcnt1 in *.
    destruct (Z.leb_spec (tail cb) (head cb)) as [Hle|Hgt]; [lia|].
    assert (Ht0 : tail (snd r1) = 0).
    { rewrite Htail1. replace (tail cb + a) with LOG_SIZE by lia.
      apply Z.mod_same. lia. }
    rewrite Ht0. lia. }
  destruct Hcnt2 as [Hz2 Hone].
  splits.
  - rewrite Hc1, Hc2, (Hempty _ Hz2), app_nil_r. reflexivity.
  - exact Hz2.
  - intros Hle. rewrite Hc1, (Hempty _ (Hone Hle)), app_nil_r. reflexivity.
Qed.

(** X7: a blocking reader is woken by data.  A blocking read of a
    positive length into a good user buffer that has slept on an empty
    buffer, then finds it non-empty in the wait and still non-empty under the
    mutex, returns a positive count, at most the length asked for: the
    oldest valid bytes, taken off at tail. *)
Theorem X7_blocking_read_wakes_with_data (f_flags : Z) (count : N)
    (pre : list (bool * circ_buf)) (sig sig' : bool) (cb1 cb2 d : circ_buf) :
  Z.land f_flags O_NONBLOCK = 0 -> 0 < Z.of_N count ->
  quiet pre -> pre <> [] ->
  CIRC_CNT (head cb1) (tail cb1) LOG_SIZE <> 0 ->
  CIRC_CNT (head cb2) (tail cb2) LOG_SIZE <> 0 ->
  cb_ok cb2 ->
  exists ret,
    fwk_ec_console_log_read f_flags count false
      (pre ++ [(sig, cb1); (sig', cb2)]) d
    = (Returned ret (take (Z.to_nat ret) (contents cb2)), advance_tail ret cb2) /\
    0 < ret <= Z.of_N count /\
    contents (advance_tail ret cb2) = drop (Z.to_nat ret) (contents cb2).
Proof.
  intros Hb Hcount Hq Hne Hne1 Hne2 Hok2.
  pose proof Hok2 as (Hl & Hh & Ht).
  pose proof (CIRC_CNT_range (head cb2) (tail cb2)) as Hc.
  set (r := Z.min (CIRC_CNT_TO_END (head cb2) (tail cb2) LOG_SIZE) (Z.of_N count)).
  assert (Hr : 0 <= r <= CIRC_CNT_TO_END (head cb2) (tail cb2) LOG_SIZE /\ 0 < r <= Z.of_N count).
  { subst r. rewrite CIRC_CNT_TO_END_min by lia. lia. }
  destruct (advance_tail_contents r cb2 Hok2 (proj1 Hr)) as [Hspan Hdrop].
  exists r. splits; try lia; try assumption.
  unfold fwk_ec_console_log_read.
  rewrite read_run_app, (read_run_quiet _ _ _ AtLoopTest) by auto.
  cbn [fst snd read_run read_step].
  unfold read_waiting, wait_event_interruptible.
  destruct (Z.eqb_spec (CIRC_CNT (head cb1) (tail cb1) LOG_SIZE) 0);
    [contradiction|]. cbn [negb Z.ltb Z.compare read_run read_step].
  rewrite read_locked_data by assumption. fold r. now rewrite Hspan.
Qed.

(** ** Further properties of a cycle *)

Lemma read_loop_traffic (fuel : nat) (buf_space : Z) (s : state) :
  cb_ok (log_buffer s) -> buf_space = space_of s ->
  (Z.to_nat buf_space < fuel)%nat ->
  exists s' (k w : nat),
    read_loop fuel buf_space s = Some s' /\
    xfers s' = xfers s ++ replicate k (EC_CMD_CONSOLE_READ CONSOLE_READ_RECENT) /\
    Z.of_nat k <= buf_space /\
    wakeups s' = (wakeups s + w)%nat /\
    (length (stored s) + w <= length (stored s'))%nat /\
    (w = O -> stored s' = stored s).
Proof.
  revert buf_space s.
  induction fuel as [|fuel IH]; intros buf_space s Hok Hsp Hfuel; [lia|].
  pose proof (space_of_range s) as Hrange.
  cbn [read_loop].
  destruct (Z.eqb_spec buf_space 0) as [Hz|Hnz].
  { exists (dev_info_once dropped_msg (saturated s)), O, O.
    unfold dev_info_once. cbn [saturated print_once].
    destruct (print_once s); cbn; rewrite ?app_nil_r; splits; auto; lia. }
  rewrite xfer_eq.
  set (r := fwk_ec_cmd_xfer_status (ec_dev s) (EC_CMD_CONSOLE_READ CONSOLE_READ_RECENT)).
  set (ret := fst (fst r)). set (ec_buffer := snd (fst r)).
  set (s1 := after_xfer (snd r) (EC_CMD_CONSOLE_READ CONSOLE_READ_RECENT) s).
  assert (Hend : exists s' (k w : nat),
             Some s1 = Some s' /\
             xfers s' = xfers s ++ replicate k (EC_CMD_CONSOLE_READ CONSOLE_READ_RECENT) /\
             Z.of_nat k <= buf_space /\
             wakeups s' = (wakeups s + w)%nat /\
             (length (stored s) + w <= length (stored s'))%nat /\
             (w = O -> stored s' = stored s)).
  { exists s1, 1%nat, O. cbn. splits; auto; lia. }
  destruct (Z.ltb_spec ret 0) as [Hneg|Hnn]; [exact Hend|].
  destruct (Z.eqb_spec ret 0) as [Hr0|Hrpos]; cbn [orb]; [exact Hend|].
  destruct (is_nul (byte_at ec_buffer 0)) eqn:Hnul; [exact Hend|].
  clear Hend.
  destruct (copy_loop_spec (S (Z.to_nat ret)) ec_buffer ret 0 buf_space s1)
    as (s2 & Hcopy & Hok2 & Hsp2 & Ht2 & Hc2 & Hst2 & Hk2); try assumption; try lia.
  set (acc1 := take (Z.to_nat buf_space) (rest_from ec_buffer ret 0)) in *.
  assert (Hlen1 : 1 <= Z.of_nat (length acc1) <= buf_space).
  { subst acc1. rewrite rest_from_cons by (auto with zarith).
    rewrite length_take. cbn [length]. lia. }
  rewrite Hcopy.
  destruct (IH (buf_space - Z.of_nat (length acc1)) (wake_up s2))
    as (s' & k & w & Hrun & Hx & Hk & Hw & Hlen & _);
    try assumption; try lia.
  { unfold space_of in *. cbn [wake_up log_buffer]. congruence. }
  exists s', (S k), (S w).
  destruct Hk2 as (_ & _ & _ & _ & Hk2x & Hk2w & _).
  cbn [wake_up xfers wakeups stored] in *.
  cbn [s1 after_xfer xfers wakeups stored] in *.
  rewrite Hst2, length_app in Hlen.
  splits; try assumption; try lia.
  rewrite Hx, Hk2x, <- app_assoc. reflexivity.
Qed.

Lemma run_work_traffic (s : state) :
  cb_ok (log_buffer s) ->
  exists s' (k w : nat),
    run_work s = Some s' /\
    xfers s' = xfers s ++ EC_CMD_CONSOLE_SNAPSHOT
                 :: replicate k (EC_CMD_CONSOLE_READ CONSOLE_READ_RECENT) /\
    Z.of_nat k <= space_of s /\
    wakeups s' = (wakeups s + w)%nat /\
    (length (stored s) + w <= length (stored s'))%nat /\
    (w = O -> stored s' = stored s).
Proof.
  intros Hok. unfold run_work, fwk_ec_console_log_work.
  rewrite xfer_eq.
  set (s0 := set_log_poll_work None s).
  set (r := fwk_ec_cmd_xfer_status (ec_dev s0) EC_CMD_CONSOLE_SNAPSHOT).
  set (s1 := after_xfer (snd r) EC_CMD_CONSOLE_SNAPSHOT s0).
  pose proof (space_of_range s) as Hrange.
  destruct (Z.ltb_spec (fst (fst r)) 0) as [Hneg|Hnn].
  { exists (schedule_delayed_work (msecs_to_jiffies (LOG_POLL_SEC * 1000)) s1), O, O.
    rewrite schedule_after_clear by reflexivity.
    cbn. splits; auto; lia. }
  destruct (read_loop_traffic
              (S (Z.to_nat (CIRC_SPACE (head (log_buffer s1)) (tail (log_buffer s1)) LOG_SIZE)))
              (CIRC_SPACE (head (log_buffer s1)) (tail (log_buffer s1)) LOG_SIZE) s1)
    as (s2 & k & w & Hrun & Hx & Hk & Hw & Hlen & Hsame);
    try assumption; try reflexivity; try lia.
  rewrite Hrun.
  exists (schedule_delayed_work (msecs_to_jiffies (LOG_POLL_SEC * 1000)) s2), k, w.
  unfold schedule_delayed_work.
  destruct (log_poll_work s2); cbn [set_log_poll_work xfers wakeups stored];
    (splits; try assumption; try reflexivity;
     rewrite Hx; cbn; rewrite <- app_assoc; reflexivity).
Qed.

(** X5: the EC traffic of a cycle.  A cycle sends the snapshot command
    first and after it only read commands with the sub-command
    [CONSOLE_READ_RECENT], no more of them than the buffer had free slots
    when the cycle began, hence fewer than [LOG_SIZE]. *)
Theorem X5_cycle_traffic_is_bounded (s : state) :
  cb_ok (log_buffer s) ->
  exists s' (k : nat),
    run_work s = Some s' /\
    xfers s' = xfers s ++ EC_CMD_CONSOLE_SNAPSHOT
                 :: replicate k (EC_CMD_CONSOLE_READ CONSOLE_READ_RECENT) /\
    Z.of_nat k <= space_of s /\ Z.of_nat k < LOG_SIZE.
Proof.
  intros Hok. pose proof (space_of_range s).
  destruct (run_work_traffic s Hok) as (s' & k & w & Hrun & Hx & Hk & _).
  exists s', k. splits; auto; lia.
Qed.

(** X6: readers are woken exactly when there is something new.  A cycle
    calls [wake_up] at least once if it stored a byte and not at all if it
    stored none, and never more often than it stored bytes. *)
Theorem X6_cycle_wakes_iff_stored (s : state) :
  cb_ok (log_buffer s) ->
  exists s',
    run_work s = Some s' /\
    (wakeups s <= wakeups s')%nat /\
    (wakeups s' - wakeups s <= length (stored s') - length (stored s))%nat /\
    (wakeups s' = wakeups s <-> stored s' = stored s).
Proof.
  intros Hok.
  destruct (run_work_traffic s Hok) as (s' & k & w & Hrun & _ & _ & Hw & Hlen & Hsame).
  exists s'. splits; auto; try lia.
  split.
  - intros Heq. apply Hsame. lia.
  - intros Heq. rewrite Heq in Hlen. lia.
Qed.

(** X8: a cycle only appends.  Whatever the EC answers, a cycle leaves
    tail where it was and keeps every valid byte in place; what it stores
    comes behind them and is no longer than the free space at the start. *)
Theorem X8_cycle_only_appends (s : state) :
  cb_ok (log_buffer s) ->
  exists s' acc,
    run_work s = Some s' /\
    cb_ok (log_buffer s') /\
    tail (log_buffer s') = tail (log_buffer s) /\
    contents (log_buffer s') = contents (log_buffer s) ++ acc /\
    stored s' = stored s ++ acc /\
    Z.of_nat (length acc) <= space_of s.
Proof.
  intros Hok.
  destruct (run_work_spec s Hok) as (s' & acc & Hrun & Hok' & Ht & Hc & Hst & Hlen & _).
  exists s', acc. splits; assumption.
Qed.

(** ** Suspend, resume and the panic notifier *)

(** ** Round trips *)

Lemma take_app_rest {A : Type} (n : nat) (a b : list A) :
  take n (a ++ b) = take n a ++ take (n - length (take n a)) b.
Proof.
  rewrite take_app, length_take.
  destruct (Nat.le_gt_cases (length a) n) as [Hle|Hgt].
  - now rewrite Nat.min_r by lia.
  - replace (n - length a)%nat with O by lia.
    replace (n - n `min` length a)%nat with O by lia. reflexivity.
Qed.

Lemma appends_spec (responses : list (Z * list byte)) (s : state) :
  cb_ok (log_buffer s) ->
  exists s',
    appends responses s = Some s' /\
    cb_ok (log_buffer s') /\
    tail (log_buffer s') = tail (log_buffer s) /\
    contents (log_buffer s') =
      contents (log_buffer s) ++ take (Z.to_nat (space_of s)) (payloads responses) /\
    stored s' = stored s ++ take (Z.to_nat (space_of s)) (payloads responses) /\
    xfers s' = xfers s /\ ec_dev s' = ec_dev s.
Proof.
  revert s. induction responses as [|[ret ec_buffer] responses IH]; intros s Hok.
  - exists s. cbn [appends payloads flat_map]. rewrite take_nil, !app_nil_r. splits; auto.
  - cbn [appends payloads flat_map fst snd]. fold (payloads responses).
    pose proof (space_of_range s) as Hrange.
    destruct (copy_loop_spec (S (Z.to_nat ret)) ec_buffer ret 0 (space_of s) s)
      as (s1 & Hcopy & Hok1 & Hsp1 & Ht1 & Hc1 & Hst1 & Hk1); try assumption;
      try reflexivity; try lia.
    rewrite rest_from_0 in *. rewrite Hcopy.
    destruct (IH (wake_up s1)) as (s' & Hrun & Hok' & Ht' & Hc' & Hst' & Hx' & He');
      [exact Hok1|].
    exists s'. cbn [wake_up log_buffer stored xfers ec_dev] in *.
    change (space_of (wake_up s1)) with (space_of s1) in *.
    destruct Hk1 as (He1 & _ & _ & _ & Hx1 & _).
    rewrite take_app_rest.
    replace (Z.to_nat (space_of s) -
             length (take (Z.to_nat (space_of s)) (payload ec_buffer ret)))%nat
      with (Z.to_nat (space_of s1)) by lia.
    rewrite !app_assoc.
    splits; try congruence.
Qed.

Lemma reads_cons (f_flags : Z) (count : N) (counts : list N) (cb : circ_buf) :
  reads f_flags (count :: counts) cb =
  (ubuf_of (fst (read_locked f_flags count false cb)) ++
   fst (reads f_flags counts (snd (read_locked f_flags count false cb))),
   snd (reads f_flags counts (snd (read_locked f_flags count false cb)))).
Proof.
  cbn [reads]. destruct (read_locked f_flags count false cb) as [pc cb1].
  cbn [fst snd]. now destruct (reads f_flags counts cb1).
Qed.

Lemma total_nonneg (counts : list N) : 0 <= total counts.
Proof. induction counts as [|c counts IH]; cbn [total fold_right]; [lia|]. fold (total counts). lia. Qed.

(** One pass takes the oldest [n] valid bytes off the buffer, where [n] is
    0 on an empty buffer and else the smaller of the contiguous run and the
    length asked for. *)
Lemma read_locked_taken (f_flags : Z) (count : N) (cb : circ_buf) :
  cb_ok cb ->
  exists n,
    0 <= n <= CIRC_CNT (head cb) (tail cb) LOG_SIZE /\
    ubuf_of (fst (read_locked f_flags count false cb)) =
      take (Z.to_nat n) (contents cb) /\
    contents (snd (read_locked f_flags count false cb)) =
      drop (Z.to_nat n) (contents cb) /\
    CIRC_CNT (head (snd (read_locked f_flags count false cb)))
             (tail (snd (read_locked f_flags count false cb))) LOG_SIZE =
      CIRC_CNT (head cb) (tail cb) LOG_SIZE - n /\
    cb_ok (snd (read_locked f_flags count false cb)) /\
    (tail cb <= head cb ->
     n = Z.min (CIRC_CNT (head cb) (tail cb) LOG_SIZE) (Z.of_N count) /\
     tail (snd (read_locked f_flags count false cb)) <=
     head (snd (read_locked f_flags count false cb))) /\
    (CIRC_CNT (head cb) (tail cb) LOG_SIZE <> 0 -> (0 < count)%N -> 1 <= n).
Proof.
  intros Hok. pose proof Hok as (Hl & Hh & Ht).
  pose proof (CIRC_CNT_range (head cb) (tail cb)) as Hc.
  destruct (Z.eq_dec (CIRC_CNT (head cb) (tail cb) LOG_SIZE) 0) as [Hz|Hnz].
  { exists 0.
    assert (Hr : ubuf_of (fst (read_locked f_flags count false cb)) = [] /\
                 snd (read_locked f_flags count false cb) = cb).
    { unfold read_locked. rewrite Hz. cbn [Z.eqb].
      now destruct (Z.land f_flags O_NONBLOCK =? 0). }
    destruct Hr as [Hu Hs]. rewrite Hu, Hs. cbn [Z.to_nat take drop].
    rewrite take_0, drop_0. splits; auto; try lia; try contradiction. }
  rewrite read_locked_data by assumption. cbn [fst snd ubuf_of].
  set (n := Z.min (CIRC_CNT_TO_END (head cb) (tail cb) LOG_SIZE) (Z.of_N count)).
  assert (Hn : 0 <= n <= CIRC_CNT_TO_END (head cb) (tail cb) LOG_SIZE)
    by (subst n; rewrite CIRC_CNT_TO_END_min by lia; lia).
  assert (Hn' : n = Z.min (Z.min (CIRC_CNT (head cb) (tail cb) LOG_SIZE)
                                 (LOG_SIZE - tail cb)) (Z.of_N count))
    by (subst n; now rewrite CIRC_CNT_TO_END_min by lia).
  destruct (advance_tail_contents n cb Hok Hn) as [Hspan Hdrop].
  pose proof (CIRC_CNT_cases (head cb) (tail cb) Hh Ht) as Hcases.
  exists n. splits; auto using advance_tail_ok, advance_tail_cnt.
  - lia.
  - destruct (Z.leb_spec (tail cb) (head cb)); lia.
  - intros Hle. destruct (Z.leb_spec (tail cb) (head cb)); [|lia].
    split; [lia|]. cbn [advance_tail head tail].
    rewrite CIRC_ADD_mod, Z.mod_small; lia.
  - intros _ Hpos. destruct (Z.leb_spec (tail cb) (head cb)); lia.
Qed.

(** Any number of passes takes a prefix of the valid bytes off the buffer:
    all that is asked for if the valid bytes do not wrap, and at least one
    byte per pass of positive length while there are any. *)
Lemma reads_taken (f_flags : Z) (counts : list N) (cb : circ_buf) :
  cb_ok cb ->
  exists n,
    0 <= n <= CIRC_CNT (head cb) (tail cb) LOG_SIZE /\
    fst (reads f_flags counts cb) = take (Z.to_nat n) (contents cb) /\
    contents (snd (reads f_flags counts cb)) = drop (Z.to_nat n) (contents cb) /\
    CIRC_CNT (head (snd (reads f_flags counts cb)))
             (tail (snd (reads f_flags counts cb))) LOG_SIZE =
      CIRC_CNT (head cb) (tail cb) LOG_SIZE - n /\
    cb_ok (snd (reads f_flags counts cb)) /\
    (tail cb <= head cb ->
     n = Z.min (CIRC_CNT (head cb) (tail cb) LOG_SIZE) (total counts)) /\
    (Forall (fun count => (0 < count)%N) counts ->
     Z.min (CIRC_CNT (head cb) (tail cb) LOG_SIZE) (Z.of_nat (length counts)) <= n).
Proof.
  revert cb. induction counts as [|count counts IH]; intros cb Hok.
  - exists 0. pose proof (CIRC_CNT_range (head cb) (tail cb)).
    cbn [reads fst snd total fold_right length Z.to_nat].
    rewrite take_0, drop_0. splits; auto; try lia.
  - rewrite reads_cons. cbn [fst snd].
    destruct (read_locked_taken f_flags count cb Hok)
      as (n1 & Hn1 & Hu1 & Hc1 & Hcnt1 & Hok1 & Hflat1 & Hpos1).
    destruct (IH _ Hok1) as (n2 & Hn2 & Hu2 & Hc2 & Hcnt2 & Hok2 & Hflat2 & Hpos2).
    pose proof (total_nonneg counts) as Htot.
    exists (n1 + n2). rewrite Hu1, Hu2, Hc2, Hc1, Hcnt2, Hcnt1.
    rewrite take_take_drop, drop_drop.
    replace (Z.to_nat (n1 + n2)) with (Z.to_nat n1 + Z.to_nat n2)%nat by lia.
    cbn [total fold_right]. fold (total counts). cbn [length].
    split; [lia|]. split; [reflexivity|]. split; [reflexivity|].
    split; [lia|]. split; [exact Hok2|]. split.
    + intros Hle. destruct (Hflat1 Hle) as [Hn1' Hle1].
      specialize (Hflat2 Hle1). rewrite Hcnt1 in Hflat2. lia.
    + intros Hall. inversion Hall as [|? ? Hc Hrest]; subst.
      specialize (Hpos2 Hrest). rewrite Hcnt1 in Hpos2.
      destruct (Z.eq_dec (CIRC_CNT (head cb) (tail cb) LOG_SIZE) 0) as [Hz|Hnz]; [lia|].
      specialize (Hpos1 Hnz Hc). lia.
Qed.

Lemma run_read_ops (f_flags : Z) (counts : list N) (s : state) (delivered : list byte) :
  run (read_ops f_flags counts) s delivered =
  Some (set_log_buffer (snd (reads f_flags counts (log_buffer s))) s,
        delivered ++ fst (reads f_flags counts (log_buffer s))).
Proof.
  revert s delivered. induction counts as [|count counts IH]; intros s delivered.
  - cbn. rewrite app_nil_r. now destruct s.
  - cbn [read_ops map run]. fold (read_ops f_flags counts).
    rewrite reads_cons.
    destruct (read_locked f_flags count false (log_buffer s)) as [pc cb1].
    cbn [fst snd]. rewrite IH. cbn [set_log_buffer log_buffer].
    now rewrite app_assoc.
Qed.

(** A cycle stores what [ec_stream] says. *)
Lemma read_loop_stream (fuel : nat) (buf_space : Z) (s : state) :
  cb_ok (log_buffer s) -> buf_space = space_of s ->
  (Z.to_nat buf_space < fuel)%nat ->
  exists s',
    read_loop fuel buf_space s = Some s' /\
    stored s' = stored s ++ ec_stream fuel buf_space (ec_dev s).
Proof.
  revert buf_space s.
  induction fuel as [|fuel IH]; intros buf_space s Hok Hsp Hfuel; [lia|].
  pose proof (space_of_range s) as Hrange.
  cbn [read_loop ec_stream].
  destruct (Z.eqb_spec buf_space 0) as [Hz|Hnz].
  { eexists. split; [reflexivity|].
    unfold dev_info_once. cbn. destruct (print_once s); cbn; now rewrite app_nil_r. }
  rewrite xfer_eq.
  set (r := fwk_ec_cmd_xfer_status (ec_dev s) (EC_CMD_CONSOLE_READ CONSOLE_READ_RECENT)).
  set (ret := fst (fst r)). set (ec_buffer := snd (fst r)).
  set (s1 := after_xfer (snd r) (EC_CMD_CONSOLE_READ CONSOLE_READ_RECENT) s).
  destruct (Z.ltb_spec ret 0) as [Hneg|Hnn].
  { exists s1. cbn. now rewrite app_nil_r. }
  destruct ((ret =? 0) || is_nul (byte_at ec_buffer 0)) eqn:Hstop.
  { exists s1. cbn. now rewrite app_nil_r. }
  apply orb_false_iff in Hstop as [Hr0 Hnul]. apply Z.eqb_neq in Hr0.
  destruct (copy_loop_spec (S (Z.to_nat ret)) ec_buffer ret 0 buf_space s1)
    as (s2 & Hcopy & Hok2 & Hsp2 & Ht2 & Hc2 & Hst2 & Hk2); try assumption; try lia.
  rewrite rest_from_0 in *.
  set (acc1 := take (Z.to_nat buf_space) (payload ec_buffer ret)) in *.
  assert (Hlen1 : 1 <= Z.of_nat (length acc1) <= buf_space).
  { subst acc1. rewrite <- rest_from_0, rest_from_cons by (auto with zarith).
    rewrite length_take. cbn [length]. lia. }
  rewrite Hcopy.
  destruct (IH (buf_space - Z.of_nat (length acc1)) (wake_up s2))
    as (s' & Hrun & Hst'); try assumption; try lia.
  { unfold space_of in *. cbn [wake_up log_buffer]. congruence. }
  exists s'. split; [exact Hrun|].
  destruct Hk2 as (He2 & _).
  cbn [wake_up stored ec_dev] in Hst'. rewrite Hst', Hst2, He2.
  cbn [s1 after_xfer stored ec_dev]. now rewrite app_assoc.
Qed.

Lemma run_work_stream (s : state) :
  cb_ok (log_buffer s) ->
  exists s',
    run_work s = Some s' /\
    cb_ok (log_buffer s') /\
    tail (log_buffer s') = tail (log_buffer s) /\
    stored s' = stored s ++ cycle_stream (space_of s) (ec_dev s) /\
    contents (log_buffer s') =
      contents (log_buffer s) ++ cycle_stream (space_of s) (ec_dev s).
Proof.
  intros Hok.
  destruct (run_work_spec s Hok) as (s' & acc & Hrun & Hok' & Ht' & Hc' & Hst' & _).
  exists s'. split; [exact Hrun|]. split; [exact Hok'|]. split; [exact Ht'|].
  assert (Hacc : stored s' = stored s ++ cycle_stream (space_of s) (ec_dev s)).
  { revert Hrun. unfold run_work, fwk_ec_console_log_work, cycle_stream.
    rewrite xfer_eq. cbn [ec_dev set_log_poll_work].
    set (r := fwk_ec_cmd_xfer_status (ec_dev s) EC_CMD_CONSOLE_SNAPSHOT).
    set (s1 := after_xfer (snd r) EC_CMD_CONSOLE_SNAPSHOT (set_log_poll_work None s)).
    destruct (fst (fst r) <? 0).
    { intros Hrun. inversion Hrun.
      unfold schedule_delayed_work. cbn. now rewrite app_nil_r. }
    destruct (read_loop_stream
                (S (Z.to_nat (space_of s))) (space_of s) s1)
      as (s2 & Hloop & Hst2); try assumption; try reflexivity; try lia.
    change (CIRC_SPACE (head (log_buffer s1)) (tail (log_buffer s1)) LOG_SIZE)
      with (space_of s).
    rewrite Hloop. intros Hrun. inversion Hrun.
    unfold schedule_delayed_work.
    destruct (log_poll_work s2); cbn [set_log_poll_work stored]; exact Hst2. }
  split; [exact Hacc|].
  rewrite Hst' in Hacc. apply app_inv_head in Hacc. now rewrite Hc', Hacc.
Qed.

Lemma fresh_log_empty (e : ec_device) :
  cb_ok (log_buffer (fwk_ec_create_console_log e)) /\
  contents (log_buffer (fwk_ec_create_console_log e)) = [] /\
  space_of (fwk_ec_create_console_log e) = LOG_SIZE - 1.
Proof.
  destruct (fwk_ec_create_console_log_inv e) as (Hok & Hst & _).
  pose proof LOG_SIZE_pos.
  split; [exact Hok|]. split; [exact (eq_sym Hst)|].
  unfold space_of. cbn [fwk_ec_create_console_log log_buffer head tail].
  rewrite CIRC_SPACE_CNT, CIRC_CNT_mod by lia. rewrite Z.mod_0_l by lia. lia.
Qed.

(** What is left to read after [appends] or a cycle on the fresh log comes
    out of [reads] whole and in order. *)
Lemma reads_from_start (f_flags : Z) (counts : list N) (cb : circ_buf) :
  cb_ok cb -> tail cb <= head cb ->
  fst (reads f_flags counts cb) = take (Z.to_nat (total counts)) (contents cb) /\
  contents (snd (reads f_flags counts cb)) =
    drop (Z.to_nat (total counts)) (contents cb) /\
  (Z.of_nat (length (contents cb)) <= total counts ->
   fst (reads f_flags counts cb) = contents cb /\
   head (snd (reads f_flags counts cb)) = tail (snd (reads f_flags counts cb))).
Proof.
  intros Hok Hle.
  destruct (reads_taken f_flags counts cb Hok)
    as (n & Hn & Hu & Hc & Hcnt & Hok' & Hflat & _).
  specialize (Hflat Hle). pose proof (contents_length cb) as Hlen.
  pose proof (total_nonneg counts) as Htot.
  assert (Htake : take (Z.to_nat n) (contents cb) =
                  take (Z.to_nat (total counts)) (contents cb)).
  { destruct (Z.le_gt_cases (total counts) (CIRC_CNT (head cb) (tail cb) LOG_SIZE)).
    - f_equal. lia.
    - rewrite !take_ge by lia. reflexivity. }
  assert (Hdrop : drop (Z.to_nat n) (contents cb) =
                  drop (Z.to_nat (total counts)) (contents cb)).
  { destruct (Z.le_gt_cases (total counts) (CIRC_CNT (head cb) (tail cb) LOG_SIZE)).
    - f_equal. lia.
    - rewrite !drop_ge by lia. reflexivity. }
  rewrite Hu, Hc, Htake, Hdrop. splits; auto.
  intros Hall. split; [apply take_ge; lia|].
  destruct Hok' as (_ & Hh' & Ht').
  apply CIRC_CNT_zero_iff; try assumption. lia.
Qed.

(** C2: the round trip.  (1) From the freshly created log, [appends] of any
    N responses followed by [reads] of any M lengths: the buffer holds the
    bytes appended, those of each response before its first NUL, in order
    and cut at the [LOG_SIZE - 1] free slots, so all of them if they fit;
    the reads return, in order, the first bytes of that sequence, as many
    as the lengths add up to, and leave the rest; if the lengths add up to at
    least the number of bytes appended, the bytes returned are the bytes
    appended and the buffer is empty.  (2) On any well-formed buffer the
    appends add their bytes, in order and cut at the free space, behind the
    valid bytes.  (3) The same as (1) with a cycle in place of the appends:
    what the reads return is what [cycle_stream] says the EC handed over,
    and (4) any cycle on any buffer stores exactly that.  (5) On any
    well-formed buffer, wrapped or not, reads of positive lengths return a
    prefix of the valid bytes, at least one byte each while there are any,
    so that as many reads as there are valid bytes return them all, in
    order.  (6) Under any interleaving of cycles and reads the bytes stored
    so far are those delivered followed by those still in the buffer. *)
Theorem C2_fifo_round_trip :
  (forall (e : ec_device) (responses : list (Z * list byte)) (f_flags : Z)
          (counts : list N),
     exists s,
       appends responses (fwk_ec_create_console_log e) = Some s /\
       contents (log_buffer s) = take (Z.to_nat (LOG_SIZE - 1)) (payloads responses) /\
       (Z.of_nat (length (payloads responses)) <= LOG_SIZE - 1 ->
        contents (log_buffer s) = payloads responses) /\
       fst (reads f_flags counts (log_buffer s)) =
         take (Z.to_nat (total counts)) (contents (log_buffer s)) /\
       contents (snd (reads f_flags counts (log_buffer s))) =
         drop (Z.to_nat (total counts)) (contents (log_buffer s)) /\
       (Z.of_nat (length (contents (log_buffer s))) <= total counts ->
        fst (reads f_flags counts (log_buffer s)) = contents (log_buffer s) /\
        head (snd (reads f_flags counts (log_buffer s))) =
        tail (snd (reads f_flags counts (log_buffer s))))) /\
  (forall (responses : list (Z * list byte)) (s : state),
     cb_ok (log_buffer s) ->
     exists s',
       appends responses s = Some s' /\
       cb_ok (log_buffer s') /\
       tail (log_buffer s') = tail (log_buffer s) /\
       contents (log_buffer s') =
         contents (log_buffer s) ++ take (Z.to_nat (space_of s)) (payloads responses) /\
       (Z.of_nat (length (payloads responses)) <= space_of s ->
        contents (log_buffer s') = contents (log_buffer s) ++ payloads responses)) /\
  (forall (e : ec_device) (f_flags : Z) (counts : list N),
     exists s,
       run (OpWork :: read_ops f_flags counts) (fwk_ec_create_console_log e) [] =
       Some (s, take (Z.to_nat (total counts)) (cycle_stream (LOG_SIZE - 1) e)) /\
       stored s = cycle_stream (LOG_SIZE - 1) e /\
       contents (log_buffer s) =
         drop (Z.to_nat (total counts)) (cycle_stream (LOG_SIZE - 1) e)) /\
  (forall s : state,
     cb_ok (log_buffer s) ->
     exists s',
       run_work s = Some s' /\
       stored s' = stored s ++ cycle_stream (space_of s) (ec_dev s) /\
       contents (log_buffer s') =
         contents (log_buffer s) ++ cycle_stream (space_of s) (ec_dev s)) /\
  (forall (cb : circ_buf) (f_flags : Z) (counts : list N),
     cb_ok cb ->
     Forall (fun count => (0 < count)%N) counts ->
     exists n : nat,
       fst (reads f_flags counts cb) = take n (contents cb) /\
       contents (snd (reads f_flags counts cb)) = drop n (contents cb) /\
       (length counts `min` length (contents cb) <= n)%nat /\
       ((length (contents cb) <= length counts)%nat ->
        fst (reads f_flags counts cb) = contents cb /\
        CIRC_CNT (head (snd (reads f_flags counts cb)))
                 (tail (snd (reads f_flags counts cb))) LOG_SIZE = 0)) /\
  (forall (ops : list op) (e : ec_device),
     exists s delivered,
       run ops (fwk_ec_create_console_log e) [] = Some (s, delivered) /\
       stored s = delivered ++ contents (log_buffer s) /\
       (head (log_buffer s) = tail (log_buffer s) -> delivered = stored s)).
Proof.
  splits.
  - intros e responses f_flags counts.
    destruct (fresh_log_empty e) as (Hok & Hempty & Hsp).
    destruct (appends_spec responses _ Hok)
      as (s & Hrun & Hok' & Ht & Hc & _).
    rewrite Hempty, Hsp in Hc. cbn [app] in Hc.
    assert (Hflat : tail (log_buffer s) <= head (log_buffer s)).
    { rewrite Ht. cbn [fwk_ec_create_console_log log_buffer tail].
      destruct Hok' as (_ & Hh & _). lia. }
    destruct (reads_from_start f_flags counts _ Hok' Hflat) as (Hu & Hd & Hall).
    exists s. splits; auto.
    intros Hfit. rewrite Hc. apply take_ge. lia.
  - intros responses s Hok.
    destruct (appends_spec responses s Hok) as (s' & Hrun & Hok' & Ht & Hc & _).
    exists s'. splits; auto.
    intros Hfit. rewrite Hc. f_equal. apply take_ge. lia.
  - intros e f_flags counts.
    destruct (fresh_log_empty e) as (Hok & Hempty & Hsp).
    destruct (run_work_stream _ Hok) as (s1 & Hrun & Hok1 & Ht1 & Hst1 & Hc1).
    rewrite Hempty, Hsp in Hc1. rewrite Hsp in Hst1.
    cbn [fwk_ec_create_console_log stored ec_dev app] in Hst1, Hc1.
    assert (Hflat : tail (log_buffer s1) <= head (log_buffer s1)).
    { rewrite Ht1. cbn [fwk_ec_create_console_log log_buffer tail].
      destruct Hok1 as (_ & Hh & _). lia. }
    destruct (reads_from_start f_flags counts _ Hok1 Hflat) as (Hu & Hd & _).
    eexists. cbn [run]. rewrite Hrun, run_read_ops. cbn [app].
    rewrite Hu, Hc1. split; [reflexivity|].
    cbn [set_log_buffer stored log_buffer]. rewrite Hd, Hc1. auto.
  - intros s Hok.
    destruct (run_work_stream s Hok) as (s' & Hrun & _ & _ & Hst & Hc).
    exists s'. auto.
  - intros cb f_flags counts Hok Hall.
    destruct (reads_taken f_flags counts cb Hok)
      as (n & Hn & Hu & Hc & Hcnt & _ & _ & Hpos).
    specialize (Hpos Hall). pose proof (contents_length cb) as Hlen.
    exists (Z.to_nat n). splits; auto; try lia.
    intros Henough. split; [|lia].
    rewrite Hu. apply take_ge. lia.
  - intros ops e.
    destruct (run_inv ops _ _ (fwk_ec_create_console_log_inv e))
      as (s & d & Hrun & (Hl & Hh & Ht) & Hst & _).
    exists s, d. splits; auto.
    intros Heq. apply CIRC_CNT_zero_iff in Heq; try assumption.
    pose proof (contents_length (log_buffer s)) as Hc. rewrite Heq in Hc.
    destruct (contents (log_buffer s)); [|cbn in Hc; lia].
    now rewrite app_nil_r in Hst.
Qed.

Lemma cb_ok_allocated (s : state) : cb_ok (log_buffer s) -> log_buffer_buf s = true.
Proof.
  intros (Hl & _). pose proof LOG_SIZE_pos. unfold log_buffer_buf.
  destruct (buf (log_buffer s)); [cbn in Hl; lia|reflexivity].
Qed.

Lemma panic_event_cycle (s : state) :
  log_buffer_buf s = true ->
  fwk_ec_debugfs_panic_event s =
  match run_work s with
  | None => None
  | Some s' => Some (NOTIFY_DONE, s')
  end.
Proof. intros Hb. unfold fwk_ec_debugfs_panic_event. now rewrite Hb. Qed.

(** The cycle does not look at the pending state of its own item before it
    reschedules itself at line 120. *)
Lemma copy_loop_pending (w : option Z) (fuel : nat) (ec_buffer : list byte)
    (ret idx buf_space : Z) (s : state) :
  copy_loop fuel ec_buffer ret idx buf_space (set_log_poll_work w s) =
  match copy_loop fuel ec_buffer ret idx buf_space s with
  | None => None
  | Some (n, s') => Some (n, set_log_poll_work w s')
  end.
Proof.
  revert idx buf_space s.
  induction fuel as [|fuel IH]; intros idx buf_space s; cbn [copy_loop];
    [reflexivity|].
  destruct ((idx <? ret) && negb (is_nul (byte_at ec_buffer idx)) && (0 <? buf_space));
    [|reflexivity].
  exact (IH _ _ (store_byte (byte_at ec_buffer idx) s)).
Qed.

Lemma read_loop_pending (w : option Z) (fuel : nat) (buf_space : Z) (s : state) :
  read_loop fuel buf_space (set_log_poll_work w s) =
  match read_loop fuel buf_space s with
  | None => None
  | Some s' => Some (set_log_poll_work w s')
  end.
Proof.
  revert buf_space s.
  induction fuel as [|fuel IH]; intros buf_space s; cbn [read_loop];
    [reflexivity|].
  destruct (buf_space =? 0).
  { unfold dev_info_once. cbn. now destruct (print_once s). }
  rewrite !xfer_eq. cbn [ec_dev set_log_poll_work].
  set (r := fwk_ec_cmd_xfer_status (ec_dev s) (EC_CMD_CONSOLE_READ CONSOLE_READ_RECENT)).
  destruct (fst (fst r) <? 0); [reflexivity|].
  destruct ((fst (fst r) =? 0) || is_nul (byte_at (snd (fst r)) 0)); [reflexivity|].
  change (after_xfer (snd r) (EC_CMD_CONSOLE_READ CONSOLE_READ_RECENT)
            (set_log_poll_work w s))
    with (set_log_poll_work w
            (after_xfer (snd r) (EC_CMD_CONSOLE_READ CONSOLE_READ_RECENT) s)).
  rewrite copy_loop_pending.
  destruct (copy_loop _ _ _ _ _ _) as [[n s2]|]; [|reflexivity].
  exact (IH n (wake_up s2)).
Qed.

Lemma work_under_pending (d : Z) (s : state) :
  fwk_ec_console_log_work (mod_delayed_work d s) =
  match run_work s with
  | None => None
  | Some s' => Some (mod_delayed_work d s')
  end.
Proof.
  unfold run_work, fwk_ec_console_log_work, mod_delayed_work.
  rewrite !xfer_eq. cbn [ec_dev set_log_poll_work].
  set (r := fwk_ec_cmd_xfer_status (ec_dev s) EC_CMD_CONSOLE_SNAPSHOT).
  change (after_xfer (snd r) EC_CMD_CONSOLE_SNAPSHOT (set_log_poll_work (Some d) s))
    with (set_log_poll_work (Some d) (after_xfer (snd r) EC_CMD_CONSOLE_SNAPSHOT s)).
  change (after_xfer (snd r) EC_CMD_CONSOLE_SNAPSHOT (set_log_poll_work None s))
    with (set_log_poll_work None (after_xfer (snd r) EC_CMD_CONSOLE_SNAPSHOT s)).
  set (s1 := after_xfer (snd r) EC_CMD_CONSOLE_SNAPSHOT s).
  destruct (fst (fst r) <? 0); [reflexivity|].
  cbn [log_buffer set_log_poll_work].
  rewrite !read_loop_pending.
  destruct (read_loop _ _ s1) as [s2|]; reflexivity.
Qed.

(** C5: the panic notifier.  Without a log buffer the handler changes
    nothing and returns [NOTIFY_DONE].  With one, and no cycle running, it
    returns [NOTIFY_DONE] only with the state one complete cycle leaves,
    whether or not the item was pending and whatever its delay was.  If a
    cycle is running when the notification arrives, that cycle completes as
    it would have without the notification, except that its own reschedule
    does not replace the item queued by the handler, which is still pending
    with no delay; the handler then runs exactly one more cycle and returns
    when it has completed: the EC has seen the commands of the running cycle
    and then those of one more, and the item is pending with the usual
    delay. *)
Theorem C5_panic_notification_forces_one_cycle (s : state) :
  (log_buffer_buf s = false ->
   fwk_ec_debugfs_panic_event s = Some (NOTIFY_DONE, s) /\
   panic_event_during_cycle s = Some (NOTIFY_DONE, s)) /\
  (cb_ok (log_buffer s) ->
   exists s' k,
     run_work s = Some s' /\
     (forall w, fwk_ec_debugfs_panic_event (set_log_poll_work w s)
                = Some (NOTIFY_DONE, s')) /\
     fwk_ec_debugfs_panic_event s = Some (NOTIFY_DONE, s') /\
     xfers s' = xfers s ++ EC_CMD_CONSOLE_SNAPSHOT
                  :: replicate k (EC_CMD_CONSOLE_READ CONSOLE_READ_RECENT) /\
     log_poll_work s' = Some (msecs_to_jiffies (LOG_POLL_SEC * 1000))) /\
  (cb_ok (log_buffer s) ->
   exists s1 s2 k1 k2,
     run_work s = Some s1 /\
     fwk_ec_console_log_work (mod_delayed_work 0 (set_log_poll_work None s))
       = Some (mod_delayed_work 0 s1) /\
     log_poll_work (mod_delayed_work 0 s1) = Some 0 /\
     flush_delayed_work (mod_delayed_work 0 s1) = Some s2 /\
     run_work s1 = Some s2 /\
     panic_event_during_cycle s = Some (NOTIFY_DONE, s2) /\
     xfers s1 = xfers s ++ EC_CMD_CONSOLE_SNAPSHOT
                  :: replicate k1 (EC_CMD_CONSOLE_READ CONSOLE_READ_RECENT) /\
     xfers s2 = xfers s1 ++ EC_CMD_CONSOLE_SNAPSHOT
                  :: replicate k2 (EC_CMD_CONSOLE_READ CONSOLE_READ_RECENT) /\
     log_poll_work s2 = Some (msecs_to_jiffies (LOG_POLL_SEC * 1000))).
Proof.
  splits.
  - intros Hb. unfold fwk_ec_debugfs_panic_event, panic_event_during_cycle.
    now rewrite Hb.
  - intros Hok.
    destruct (run_work_traffic s Hok) as (s' & k & w & Hrun & Hx & _).
    destruct (run_work_spec s Hok) as (s2 & acc & Hrun2 & _ & _ & _ & _ & _ & Hw & _).
    rewrite Hrun in Hrun2. inversion Hrun2; subst s2.
    assert (Hany : forall w', fwk_ec_debugfs_panic_event (set_log_poll_work w' s)
                              = Some (NOTIFY_DONE, s')).
    { intros w'. rewrite panic_event_cycle by now apply cb_ok_allocated.
      change (run_work (set_log_poll_work w' s)) with (run_work s).
      now rewrite Hrun. }
    exists s', k. splits; auto.
    rewrite panic_event_cycle by now apply cb_ok_allocated.
    now rewrite Hrun.
  - intros Hok.
    destruct (run_work_traffic s Hok) as (s1 & k1 & w1 & Hrun1 & Hx1 & _).
    destruct (run_work_spec s Hok) as (s1' & acc & Hrun1' & Hok1 & _).
    rewrite Hrun1 in Hrun1'. inversion Hrun1'; subst s1'.
    destruct (run_work_traffic s1 Hok1) as (s2 & k2 & w2 & Hrun2 & Hx2 & _).
    destruct (run_work_spec s1 Hok1)
      as (s2' & acc2 & Hrun2' & _ & _ & _ & _ & _ & Hw2 & _).
    rewrite Hrun2 in Hrun2'. inversion Hrun2'; subst s2'.
    assert (Hcycle : fwk_ec_console_log_work
                       (mod_delayed_work 0 (set_log_poll_work None s))
                     = Some (mod_delayed_work 0 s1)).
    { rewrite work_under_pending.
      change (run_work (set_log_poll_work None s)) with (run_work s).
      now rewrite Hrun1. }
    assert (Hflush : flush_delayed_work (mod_delayed_work 0 s1) = Some s2).
    { unfold flush_delayed_work. cbn [mod_delayed_work set_log_poll_work log_poll_work].
      change (run_work (set_log_poll_work (Some 0) s1)) with (run_work s1).
      exact Hrun2. }
    exists s1, s2, k1, k2. splits; auto.
    unfold panic_event_during_cycle.
    rewrite (cb_ok_allocated s Hok), Hcycle, Hflush. reflexivity.
Qed.

Lemma drive_inv (evs : list event) (s : state) (delivered : list byte) :
  driver_inv s delivered ->
  exists s' delivered',
    drive evs s delivered = Some (s', delivered') /\ driver_inv s' delivered'.
Proof.
  revert s delivered.
  induction evs as [|ev evs IH]; intros s d Hinv.
  { exists s, d. auto. }
  pose proof Hinv as (Hok & Hst & Hd).
  assert (Hcycle : exists s', run_work s = Some s' /\ driver_inv s' d).
  { destruct (run_work_spec s Hok)
      as (s' & acc & Hrun & Hok' & _ & Hc' & Hst' & _ & _ & Hd').
    exists s'. split; [exact Hrun|]. unfold driver_inv. splits; auto.
    - rewrite Hst', Hc', Hst, app_assoc. reflexivity.
    - eauto using diag_step_ok. }
  destruct ev as [|f_flags count fault| | |]; cbn [drive].
  - destruct (log_poll_work s); [|now apply IH].
    destruct Hcycle as (s' & Hrun & Hinv'). rewrite Hrun. now apply IH.
  - destruct (read_locked_spec f_flags count fault (log_buffer s) Hok)
      as (Hok' & _ & _ & Hc').
    destruct (read_locked f_flags count fault (log_buffer s)) as [pc cb'].
    cbn [fst snd] in *. apply IH. unfold driver_inv.
    cbn [set_log_buffer log_buffer stored]. splits; auto.
    rewrite Hst, Hc', app_assoc. reflexivity.
  - apply IH. unfold fwk_ec_debugfs_suspend.
    destruct (log_buffer_buf s); exact Hinv.
  - apply IH. unfold fwk_ec_debugfs_resume, schedule_delayed_work.
    destruct (log_buffer_buf s), (log_poll_work s); exact Hinv.
  - rewrite panic_event_cycle by now apply cb_ok_allocated.
    destruct Hcycle as (s' & Hrun & Hinv'). rewrite Hrun. now apply IH.
Qed.

(** X9: the ring buffer across suspend, resume and panics.  From the
    freshly created console log, after any sequence of workqueue ticks,
    reader passes, suspends, resumes and panic notifications, the cursors
    are in range, the count is the number of bytes stored minus the number
    handed to readers, and the stored bytes are, in order, the delivered
    ones followed by those still in the buffer: nothing buffered is lost
    or reordered by a suspend or a panic flush. *)
Theorem X9_ring_buffer_survives_power_events (evs : list event) (e : ec_device) :
  exists s delivered,
    drive evs (fwk_ec_create_console_log e) [] = Some (s, delivered) /\
    let cb := log_buffer s in
    0 <= head cb < LOG_SIZE /\ 0 <= tail cb < LOG_SIZE /\
    CIRC_CNT (head cb) (tail cb) LOG_SIZE =
      Z.of_nat (length (stored s)) - Z.of_nat (length delivered) /\
    stored s = delivered ++ contents cb /\
    (head cb = tail cb -> delivered = stored s).
Proof.
  destruct (drive_inv evs _ _ (fwk_ec_create_console_log_inv e))
    as (s & d & Hrun & (Hl & Hh & Ht) & Hst & _).
  exists s, d. split; [exact Hrun|]. cbn zeta.
  pose proof (contents_length (log_buffer s)) as Hc.
  splits; try lia; auto.
  - rewrite Hst, length_app. lia.
  - intros Heq. apply CIRC_CNT_zero_iff in Heq; try assumption.
    rewrite Heq in Hc.
    destruct (contents (log_buffer s)); [|cbn in Hc; lia].
    now rewrite app_nil_r in Hst.
Qed.

(** X2: poll tells the truth.  From the freshly created console log,
    after any sequence of workqueue ticks, reader passes, suspends, resumes
    and panic notifications, poll reports the log readable exactly when
    some stored byte has not been handed to a reader yet; it reports either
    nothing or [EPOLLIN | EPOLLRDNORM]. *)
Theorem X2_poll_reports_undelivered (evs : list event) (e : ec_device) :
  exists s delivered,
    drive evs (fwk_ec_create_console_log e) [] = Some (s, delivered) /\
    (fwk_ec_console_log_poll (log_buffer s) = 0 <-> delivered = stored s) /\
    (fwk_ec_console_log_poll (log_buffer s) = Z.lor EPOLLIN EPOLLRDNORM
     <-> delivered <> stored s).
Proof.
  destruct (drive_inv evs _ _ (fwk_ec_create_console_log_inv e))
    as (s & d & Hrun & (Hl & Hh & Ht) & Hst & _).
  exists s, d. split; [exact Hrun|].
  pose proof (contents_length (log_buffer s)) as Hc.
  assert (Hiff : CIRC_CNT (head (log_buffer s)) (tail (log_buffer s)) LOG_SIZE = 0
                 <-> d = stored s).
  { split.
    - intros Hz. rewrite Hz in Hc.
      destruct (contents (log_buffer s)); [|cbn in Hc; lia].
      now rewrite app_nil_r in Hst.
    - intros Heq. rewrite <- Heq in Hst.
      assert (Hnil : contents (log_buffer s) = []).
      { apply (f_equal (@length byte)) in Hst. rewrite length_app in Hst.
        destruct (contents (log_buffer s)); [reflexivity|cbn in Hst; lia]. }
      rewrite Hnil in Hc. cbn in Hc. lia. }
  unfold fwk_ec_console_log_poll.
  destruct (Z.eqb_spec (CIRC_CNT (head (log_buffer s)) (tail (log_buffer s)) LOG_SIZE) 0)
    as [Hz|Hnz].
  - cbn zeta. split; split.
    + intros _. tauto.
    + reflexivity.
    + intros Hbad. vm_compute in Hbad. discriminate.
    + intros Hne. exfalso. apply Hne. tauto.
  - cbn zeta. split; split.
    + intros Hbad. vm_compute in Hbad. discriminate.
    + intros Heq. exfalso. tauto.
    + intros _ Heq. tauto.
    + reflexivity.
Qed.

Lemma read_locked_keeps (f_flags : Z) (count : N) (fault : bool) (cb : circ_buf) :
  head (snd (read_locked f_flags count fault cb)) = head cb /\
  buf (snd (read_locked f_flags count fault cb)) = buf cb.
Proof.
  unfold read_locked.
  destruct (CIRC_CNT (head cb) (tail cb) LOG_SIZE =? 0).
  - destruct (Z.land f_flags O_NONBLOCK =? 0); auto.
  - destruct (copy_to_user fault _ =? 0); auto.
Qed.

Lemma drive_idle (evs : list event) (s : state) (delivered : list byte) :
  log_poll_work s = None -> forallb passive evs = true ->
  exists s' delivered',
    drive evs s delivered = Some (s', delivered') /\
    xfers s' = xfers s /\ stored s' = stored s /\ wakeups s' = wakeups s /\
    head (log_buffer s') = head (log_buffer s) /\
    buf (log_buffer s') = buf (log_buffer s) /\
    log_poll_work s' = None.
Proof.
  revert s delivered.
  induction evs as [|ev evs IH]; intros s d Hidle Hpass.
  { exists s, d. splits; auto. }
  cbn [forallb] in Hpass. apply andb_prop in Hpass as [Hev Hpass].
  destruct ev as [|f_flags count fault| | |]; try discriminate; cbn [drive].
  - rewrite Hidle. now apply IH.
  - destruct (read_locked_keeps f_flags count fault (log_buffer s)) as [Hh Hb].
    destruct (read_locked f_flags count fault (log_buffer s)) as [pc cb'].
    cbn [snd] in *.
    destruct (IH (set_log_buffer cb' s) (d ++ ubuf_of pc)) as (s' & d' & Hrun & H);
      auto.
    exists s', d'. split; [exact Hrun|].
    cbn [set_log_buffer xfers stored wakeups log_buffer log_poll_work] in H.
    rewrite <- Hh, <- Hb. exact H.
  - unfold fwk_ec_debugfs_suspend.
    destruct (log_buffer_buf s); cbn [snd]; [|now apply IH].
    destruct (IH (cancel_delayed_work_sync s) d) as (s' & d' & Hrun & H); auto.
    exists s', d'. split; [exact Hrun|exact H].
Qed.

(** X10: a suspended driver is silent.  Once suspend has returned on a
    driver with a console log, and until a resume or a panic notification,
    whatever the workqueue and the readers do, no command goes to the EC, no
    byte is stored, nobody is woken, head and storage stay as they are, and
    the poll item is not pending; the same holds after
    [fwk_ec_cleanup_console_log]. *)
Theorem X10_suspended_driver_is_silent (evs : list event) (s : state)
    (delivered : list byte) :
  log_buffer_buf s = true -> forallb passive evs = true ->
  (exists s' delivered',
     drive (EvSuspend :: evs) s delivered = Some (s', delivered') /\
     xfers s' = xfers s /\ stored s' = stored s /\ wakeups s' = wakeups s /\
     head (log_buffer s') = head (log_buffer s) /\
     buf (log_buffer s') = buf (log_buffer s) /\
     log_poll_work s' = None) /\
  (exists s' delivered',
     drive evs (fwk_ec_cleanup_console_log s) delivered = Some (s', delivered') /\
     xfers s' = xfers s /\ stored s' = stored s /\ wakeups s' = wakeups s /\
     head (log_buffer s') = head (log_buffer s) /\
     buf (log_buffer s') = buf (log_buffer s) /\
     log_poll_work s' = None).
Proof.
  intros Hb Hpass. split.
  - cbn [drive]. unfold fwk_ec_debugfs_suspend. rewrite Hb. cbn [snd].
    destruct (drive_idle evs (cancel_delayed_work_sync s) delivered)
      as (s' & d' & Hrun & H); auto.
    exists s', d'. split; [exact Hrun|exact H].
  - unfold fwk_ec_cleanup_console_log. rewrite Hb.
    destruct (drive_idle evs (cancel_delayed_work_sync s) delivered)
      as (s' & d' & Hrun & H); auto.
    exists s', d'. split; [exact Hrun|exact H].
Qed.

(** X11: the panic notifier.  With a console log, the notifier returns
    [NOTIFY_DONE] after one complete cycle, whatever the schedule was: the
    snapshot command has been sent, then at most as many reads as there was
    free space, the valid bytes are kept, and the poll item is pending again
    with the usual delay.  Without a log buffer it changes nothing. *)
Theorem X11_panic_runs_one_cycle (s : state) :
  (cb_ok (log_buffer s) ->
   exists s' k acc,
     fwk_ec_debugfs_panic_event s = Some (NOTIFY_DONE, s') /\
     run_work s = Some s' /\
     xfers s' = xfers s ++ EC_CMD_CONSOLE_SNAPSHOT
                  :: replicate k (EC_CMD_CONSOLE_READ CONSOLE_READ_RECENT) /\
     Z.of_nat k <= space_of s /\
     contents (log_buffer s') = contents (log_buffer s) ++ acc /\
     log_poll_work s' = Some (msecs_to_jiffies (LOG_POLL_SEC * 1000))) /\
  (log_buffer_buf s = false ->
   fwk_ec_debugfs_panic_event s = Some (NOTIFY_DONE, s)).
Proof.
  split.
  - intros Hok.
    destruct (run_work_traffic s Hok) as (s' & k & w & Hrun & Hx & Hk & _).
    destruct (run_work_spec s Hok) as (s2 & acc & Hrun2 & _ & _ & Hc & _ & _ & Hw & _).
    rewrite Hrun in Hrun2. inversion Hrun2; subst s2.
    exists s', k, acc.
    rewrite panic_event_cycle by now apply cb_ok_allocated.
    rewrite Hrun. splits; auto.
  - intros Hb. unfold fwk_ec_debugfs_panic_event. now rewrite Hb.
Qed.

(** X12: suspend and resume undo each other.  On a driver with a
    console log, suspend cancels the poll item and resume queues it with no
    delay, both leaving the ring buffer alone, so that the next tick of the
    workqueue runs a cycle on the buffer as it was; a resume that finds the
    item already pending leaves its delay alone.  Without a log buffer both
    calls change nothing.  Both return 0. *)
Theorem X12_suspend_then_resume (s : state) (delivered : list byte) :
  (log_buffer_buf s = true ->
   snd (fwk_ec_debugfs_resume (snd (fwk_ec_debugfs_suspend s)))
     = set_log_poll_work (Some 0) s /\
   drive [EvSuspend; EvResume; EvTick] s delivered
     = match run_work s with
       | None => None
       | Some s' => Some (s', delivered)
       end /\
   (log_poll_work s <> None -> snd (fwk_ec_debugfs_resume s) = s)) /\
  (log_buffer_buf s = false ->
   snd (fwk_ec_debugfs_suspend s) = s /\ snd (fwk_ec_debugfs_resume s) = s) /\
  fst (fwk_ec_debugfs_suspend s) = 0 /\ fst (fwk_ec_debugfs_resume s) = 0.
Proof.
  splits.
  - intros Hb.
    assert (Hs : fwk_ec_debugfs_suspend s = (0, cancel_delayed_work_sync s))
      by (unfold fwk_ec_debugfs_suspend; now rewrite Hb).
    assert (Hb' : log_buffer_buf (cancel_delayed_work_sync s) = true) by exact Hb.
    assert (Hr : fwk_ec_debugfs_resume (cancel_delayed_work_sync s)
                 = (0, set_log_poll_work (Some 0) s))
      by (unfold fwk_ec_debugfs_resume; rewrite Hb'; reflexivity).
    splits.
    + rewrite Hs. cbn [snd]. now rewrite Hr.
    + cbn [drive]. rewrite Hs. cbn [snd]. rewrite Hr.
      cbn [snd set_log_poll_work log_poll_work].
      change (run_work (set_log_poll_work (Some 0) s)) with (run_work s).
      now destruct (run_work s).
    + intros Hp. unfold fwk_ec_debugfs_resume, schedule_delayed_work. rewrite Hb.
      destruct (log_poll_work s); [reflexivity|contradiction].
  - intros Hb. unfold fwk_ec_debugfs_suspend, fwk_ec_debugfs_resume.
    rewrite Hb. auto.
  - unfold fwk_ec_debugfs_suspend. destruct (log_buffer_buf s); reflexivity.
  - unfold fwk_ec_debugfs_resume. destruct (log_buffer_buf s); reflexivity.
Qed.

End Driver.

Arguments ec_dev {ec_device} s.
Arguments log_buffer {ec_device} s.
Arguments log_poll_work {ec_device} s.
Arguments print_once {ec_device} s.
Arguments dmesg {ec_device} s.
Arguments xfers {ec_device} s.
Arguments stored {ec_device} s.
Arguments wakeups {ec_device} s.
Arguments saturations {ec_device} s.
Arguments set_log_poll_work {ec_device} w s.
Arguments set_log_buffer {ec_device} cb s.
Arguments copy_loop LOG_SHIFT {ec_device} fuel ec_buffer ret idx buf_space s.
Arguments read_loop LOG_SHIFT {ec_device} fwk_ec_cmd_xfer_status fuel buf_space s.
Arguments fwk_ec_console_log_work LOG_SHIFT {ec_device} fwk_ec_cmd_xfer_status s.
Arguments run_work LOG_SHIFT {ec_device} fwk_ec_cmd_xfer_status s.
Arguments run LOG_SHIFT {ec_device} fwk_ec_cmd_xfer_status ops s delivered.
Arguments fwk_ec_create_console_log LOG_SHIFT {ec_device} e.
Arguments space_of LOG_SHIFT {ec_device} s.
Arguments log_buffer_buf {ec_device} s.
Arguments cancel_delayed_work_sync {ec_device} s.
Arguments fwk_ec_cleanup_console_log {ec_device} s.
Arguments fwk_ec_debugfs_suspend {ec_device} s.
Arguments fwk_ec_debugfs_resume {ec_device} s.
Arguments fwk_ec_debugfs_panic_event LOG_SHIFT {ec_device} fwk_ec_cmd_xfer_status s.
Arguments drive LOG_SHIFT {ec_device} fwk_ec_cmd_xfer_status evs s delivered.
Arguments panic_event_during_cycle LOG_SHIFT {ec_device} fwk_ec_cmd_xfer_status s.
Arguments appends LOG_SHIFT {ec_device} responses s.
Arguments ec_stream {ec_device} fwk_ec_cmd_xfer_status fuel space e.
Arguments cycle_stream {ec_device} fwk_ec_cmd_xfer_status space e.
Arguments once {ec_device} k.
Arguments klog {ec_device} k.
Arguments console_logs {ec_device} k.
Arguments in_kernel {ec_device} k s.
Arguments KCreate {ec_device} e.
Arguments KWork {ec_device} i.
Arguments KRead {ec_device} i f_flags count fault.
Arguments krun LOG_SHIFT {ec_device} fwk_ec_cmd_xfer_status evs k.
Arguments total_saturations {ec_device} k.
Arguments well_formed LOG_SHIFT {ec_device} k.
Arguments once_only {ec_device} k k'.

(** [LOG_SHIFT], line 22. *)
Definition LOG_SHIFT : nat := 14.

(** * Setting the driver up: panic info, console log, probe

    The functions that run once, at probe time.  They talk to the EC with
    whole messages, [struct fwk_ec_command] of <fwk_ec_proto.h>, and they
    allocate; an allocation may fail. *)
Module Probe.

(** [struct fwk_ec_command]; [data] is the flexible array behind it. *)
Record fwk_ec_command := {
  version : Z;
  command : Z;
  outsize : Z;
  insize : Z;
  result : Z;
  data : list byte;
}.

(** <uapi/asm-generic/errno-base.h>, <uapi/asm-generic/errno.h> *)
Definition ENOMEM : Z := 12.
Definition EINVAL : Z := 22.
Definition EPROTO : Z := 71.

(** [struct debugfs_blob_wrapper]: the bytes behind the pointer, and the
    size the file will show. *)
Record debugfs_blob_wrapper := {
  blob_data : list byte;
  blob_size : Z;
}.

(** A value stored into a [uint8_t]. *)
Definition u8 (z : Z) : byte :=
  match Byte.of_N (Z.to_N (z mod 256)) with
  | Some b => b
  | None => x00
  end.

(** A [uint32_t] read where the message data begins, on a little-endian
    CPU. *)
Definition u32_at_0 (l : list byte) : Z :=
  Z.of_N (Byte.to_N (nth 0 l x00))
  + 256 * (Z.of_N (Byte.to_N (nth 1 l x00))
  + 256 * (Z.of_N (Byte.to_N (nth 2 l x00))
  + 256 * Z.of_N (Byte.to_N (nth 3 l x00)))).

(** [memcpy(dst, src, n)]; a source shorter than [n] reads as zeroes. *)
Definition memcpy (dst src : list byte) (n : Z) : list byte :=
  take (Z.to_nat n) (src ++ replicate (Z.to_nat n) x00) ++ drop (Z.to_nat n) dst.

Definition zeroes (n : Z) : list byte := replicate (Z.to_nat n) x00.

Section WithEC.

(** The EC behind its transport: a transfer takes the message and returns
    the status, the message as the transfer left it ([result], [data]) and
    the device afterwards. *)
Variable ec_device : Type.
Variable fwk_ec_cmd_xfer_status :
  ec_device -> fwk_ec_command -> Z * fwk_ec_command * ec_device.

(** Constants and sizes of <fwk_ec_commands.h>, which is not part of the
    driver's file. *)
Variable EC_CMD_GET_CMD_VERSIONS : Z.
Variable EC_CMD_CONSOLE_READ : Z.
Variable EC_CMD_GET_PANIC_INFO : Z.
Variable EC_CMD_GET_UPTIME_INFO : Z.
Variable EC_RES_INVALID_COMMAND : Z.
Variable sizeof_ec_params_console_read_v1 : Z.
Variable sizeof_ec_params_get_cmd_versions_v1 : Z.
Variable sizeof_ec_response_get_cmd_versions : Z.
Variable sizeof_ec_response_uptime_info : Z.

(** [EC_VER_MASK(version)] is [BIT(version)]. *)
Definition EC_VER_MASK (v : Z) : Z := Z.shiftl 1 v.

(** What the probe-time code works on besides its own structure. *)
Record platform := {
  ec_hw : ec_device;
  (** [ec_dev->max_response], [ec->cmd_offset] *)
  max_response : Z;
  cmd_offset : Z;
  (** Results of the coming allocations; past its end they succeed. *)
  allocs : list bool;
  (** What [blocking_notifier_chain_register] will return. *)
  notifier_ret : Z;
  (** Observation: the messages handed to the transport. *)
  sent : list fwk_ec_command;
}.

(** [kzalloc], [devm_kzalloc]: whether the next allocation succeeds. *)
Definition kzalloc (p : platform) : bool * platform :=
  match allocs p with
  | [] => (true, p)
  | ok :: rest =>
      (ok, {| ec_hw := ec_hw p; max_response := max_response p;
              cmd_offset := cmd_offset p; allocs := rest;
              notifier_ret := notifier_ret p; sent := sent p |})
  end.

Definition xfer (msg : fwk_ec_command) (p : platform)
    : Z * fwk_ec_command * platform :=
  let '(ret, msg', hw) := fwk_ec_cmd_xfer_status (ec_hw p) msg in
  (ret, msg',
   {| ec_hw := hw; max_response := max_response p;
      cmd_offset := cmd_offset p; allocs := allocs p;
      notifier_ret := notifier_ret p; sent := sent p ++ [msg] |}).

(** [struct fwk_ec_debugfs], lines 44-55.  [dir] is the debugfs directory
    with the names created in it, [None] once it is removed; the storage of
    [log_buffer] is empty while [log_buffer.buf] is NULL; [log_poll_work] is
    the delay of the pending item. *)
Record fwk_ec_debugfs := {
  dir : option (list string);
  log_buffer : circ_buf;
  read_msg : option fwk_ec_command;
  log_poll_work : option Z;
  panicinfo_blob : option debugfs_blob_wrapper;
}.

(** [debugfs_create_file] and its kin: one more name in the directory. *)
Definition debugfs_create (name : string) (d : fwk_ec_debugfs) : fwk_ec_debugfs :=
  {| dir := match dir d with Some names => Some (names ++ [name]) | None => None end;
     log_buffer := log_buffer d; read_msg := read_msg d;
     log_poll_work := log_poll_work d; panicinfo_blob := panicinfo_blob d |}.

Definition debugfs_remove_recursive (d : fwk_ec_debugfs) : fwk_ec_debugfs :=
  {| dir := None;
     log_buffer := log_buffer d; read_msg := read_msg d;
     log_poll_work := log_poll_work d; panicinfo_blob := panicinfo_blob d |}.

(** [fwk_ec_get_panicinfo], lines 406-431.  [data_ptr] is [None] for a NULL
    pointer; the second component of the result is what the caller's buffer
    holds afterwards. *)
Definition fwk_ec_get_panicinfo (data_ptr : option (list byte)) (data_size : Z)
    (p : platform) : Z * option (list byte) * platform :=
  match data_ptr with
  | None => (- EINVAL, data_ptr, p)
  | Some buffer =>
      if (data_size <=? 0) || (max_response p <? data_size)
      then (- EINVAL, data_ptr, p)
      else
        let '(ok, p1) := kzalloc p in
        if negb ok then (- ENOMEM, data_ptr, p1)
        else
          let msg := {| version := 0; command := EC_CMD_GET_PANIC_INFO;
                        outsize := 0; insize := data_size; result := 0;
                        data := zeroes data_size |} in
          let '(ret, msg', p2) := xfer msg p1 in
          if ret <? 0 then (ret, data_ptr, p2)
          else (ret, Some (memcpy buffer (data msg') data_size), p2)
  end.

(** [fwk_ec_create_panicinfo], lines 433-465. *)
Definition fwk_ec_create_panicinfo (d : fwk_ec_debugfs) (p : platform)
    : Z * fwk_ec_debugfs * platform :=
  let '(ok, p1) := kzalloc p in
  if negb ok then (- ENOMEM, d, p1)
  else
    let '(ret, data_ptr, p2) :=
      fwk_ec_get_panicinfo (Some (zeroes (max_response p1))) (max_response p1) p1 in
    if ret <? 0 then (0, d, p2)
    else if ret =? 0 then (ret, d, p2)
    else
      (0,
       debugfs_create "panicinfo"
         {| dir := dir d; log_buffer := log_buffer d; read_msg := read_msg d;
            log_poll_work := log_poll_work d;
            panicinfo_blob :=
              Some {| blob_data := default [] data_ptr; blob_size := ret |} |},
       p2).

(** [ec_read_version_supported], lines 319-346. *)
Definition ec_read_version_supported (p : platform) : Z * platform :=
  let '(ok, p1) := kzalloc p in
  if negb ok then (0, p1)
  else
    let msg :=
      {| version := 0; command := EC_CMD_GET_CMD_VERSIONS + cmd_offset p1;
         outsize := sizeof_ec_params_get_cmd_versions_v1;
         insize := sizeof_ec_response_get_cmd_versions; result := 0;
         data := <[0%nat := u8 EC_CMD_CONSOLE_READ]>
                   (zeroes (Z.max sizeof_ec_params_get_cmd_versions_v1
                                  sizeof_ec_response_get_cmd_versions)) |} in
    let '(ret, msg', p2) := xfer msg p1 in
    (if (0 <=? ret) && negb (Z.land (u32_at_0 (data msg')) (EC_VER_MASK 1) =? 0)
     then 1 else 0, p2).

(** [fwk_ec_create_console_log], lines 348-393. *)
Definition fwk_ec_create_console_log (d : fwk_ec_debugfs) (p : platform)
    : Z * fwk_ec_debugfs * platform :=
  let '(supported, p1) := ec_read_version_supported p in
  if supported =? 0 then (0, d, p1)
  else
    let '(ok, p2) := kzalloc p1 in
    if negb ok then (- ENOMEM, d, p2)
    else
      let read_params_size := sizeof_ec_params_console_read_v1 in
      let read_response_size := max_response p2 in
      let '(ok', p3) := kzalloc p2 in
      if negb ok' then (- ENOMEM, d, p3)
      else
        (0,
         debugfs_create "console_log"
           {| dir := dir d;
              log_buffer := {| buf := zeroes (LOG_SIZE LOG_SHIFT);
                               head := 0; tail := 0 |};
              read_msg :=
                Some {| version := 1;
                        command := EC_CMD_CONSOLE_READ + cmd_offset p3;
                        outsize := read_params_size;
                        insize := read_response_size; result := 0;
                        data := zeroes (Z.max read_params_size read_response_size) |};
              log_poll_work := Some 0;
              panicinfo_blob := panicinfo_blob d |},
         p3).

(** [fwk_ec_uptime_is_supported], lines 249-266. *)
Definition fwk_ec_uptime_is_supported (p : platform) : bool * platform :=
  let msg := {| version := 0; command := EC_CMD_GET_UPTIME_INFO;
                outsize := 0; insize := sizeof_ec_response_uptime_info;
                result := 0; data := zeroes sizeof_ec_response_uptime_info |} in
  let '(ret, msg', p1) := xfer msg p in
  if (ret =? - EPROTO) && (result msg' =? EC_RES_INVALID_COMMAND)
  then (false, p1)
  else (true, p1).

(** [fwk_ec_debugfs_probe], lines 483-534.  The second component is the
    structure as the call leaves it, [None] if it was never allocated. *)
Definition fwk_ec_debugfs_probe (p : platform)
    : Z * option fwk_ec_debugfs * platform :=
  let '(ok, p0) := kzalloc p in
  if negb ok then (- ENOMEM, None, p0)
  else
    let d0 := {| dir := Some [];
                 log_buffer := {| buf := []; head := 0; tail := 0 |};
                 read_msg := None; log_poll_work := None;
                 panicinfo_blob := None |} in
    let '(ret1, d1, p1) := fwk_ec_create_panicinfo d0 p0 in
    if negb (ret1 =? 0) then (ret1, Some (debugfs_remove_recursive d1), p1)
    else
      let '(ret2, d2, p2) := fwk_ec_create_console_log d1 p1 in
      if negb (ret2 =? 0) then (ret2, Some (debugfs_remove_recursive d2), p2)
      else
        let d3 := debugfs_create "pdinfo" d2 in
        let '(uptime, p3) := fwk_ec_uptime_is_supported p2 in
        let d4 := if uptime then debugfs_create "uptime" d3 else d3 in
        let d5 := debugfs_create "last_resume_result" d4 in
        let d6 := debugfs_create "suspend_timeout_ms" d5 in
        let ret3 := notifier_ret p3 in
        if negb (ret3 =? 0) then (ret3, Some (debugfs_remove_recursive d6), p3)
        else (0, Some d6, p3).

(** The ring buffer, its poll item and the EC as the work item and the
    readers of the first part see them, in a module just loaded: nothing
    printed and nothing observed yet. *)
Definition log_state (d : fwk_ec_debugfs) (p : platform) : state ec_device :=
  Build_state ec_device (ec_hw p) (log_buffer d) (log_poll_work d)
    false [] [] [] 0 0.

(** ** Notions used in the statements *)

(** What no probe-time call changes: the limits of the device and the
    result the notifier chain will give; an allocator that never fails keeps
    never failing; messages are only added to those sent. *)
Definition extends (p p' : platform) : Prop :=
  max_response p' = max_response p /\ cmd_offset p' = cmd_offset p /\
  notifier_ret p' = notifier_ret p /\
  (allocs p = [] -> allocs p' = []) /\
  exists more, sent p' = sent p ++ more.

(** The message [ec_read_version_supported] sends. *)
Definition version_query (p : platform) : fwk_ec_command :=
  {| version := 0; command := EC_CMD_GET_CMD_VERSIONS + cmd_offset p;
     outsize := sizeof_ec_params_get_cmd_versions_v1;
     insize := sizeof_ec_response_get_cmd_versions; result := 0;
     data := <[0%nat := u8 EC_CMD_CONSOLE_READ]>
               (zeroes (Z.max sizeof_ec_params_get_cmd_versions_v1
                              sizeof_ec_response_get_cmd_versions)) |}.

(** The EC answers the query without error and with bit 1 of the version
    mask set: version 1 of the console read command exists. *)
Definition answers_v1 (p : platform) : bool :=
  let r := fwk_ec_cmd_xfer_status (ec_hw p) (version_query p) in
  (0 <=? fst (fst r)) &&
  negb (Z.land (u32_at_0 (data (snd (fst r)))) (EC_VER_MASK 1) =? 0).

(** The structure once the console log is set up. *)
Definition with_console_log (d : fwk_ec_debugfs) (p : platform) : fwk_ec_debugfs :=
  debugfs_create "console_log"
    {| dir := dir d;
       log_buffer := {| buf := zeroes (LOG_SIZE LOG_SHIFT); head := 0; tail := 0 |};
       read_msg :=
         Some {| version := 1; command := EC_CMD_CONSOLE_READ + cmd_offset p;
                 outsize := sizeof_ec_params_console_read_v1;
                 insize := max_response p; result := 0;
                 data := zeroes (Z.max sizeof_ec_params_console_read_v1
                                       (max_response p)) |};
       log_poll_work := Some 0;
       panicinfo_blob := panicinfo_blob d |}.

(** The names a successful probe leaves in the directory. *)
Definition probe_names (panic log uptime : bool) : list string :=
  (if panic then ["panicinfo"%string] else []) ++
  (if log then ["console_log"%string] else []) ++
  ["pdinfo"%string] ++
  (if uptime then ["uptime"%string] else []) ++
  ["last_resume_result"%string; "suspend_timeout_ms"%string].

(** The message [fwk_ec_get_panicinfo] sends on behalf of
    [fwk_ec_create_panicinfo], which asks for [max_response] bytes. *)
Definition panicinfo_query (p : platform) : fwk_ec_command :=
  {| version := 0; command := EC_CMD_GET_PANIC_INFO; outsize := 0;
     insize := max_response p; result := 0;
     data := zeroes (max_response p) |}.

(** What the EC gives for it: the status of the transfer, which is the
    number of bytes of the answer when it is not negative, and the buffer of
    [max_response] bytes once the answer is copied into it. *)
Definition panicinfo_count (p : platform) : Z :=
  fst (fst (fwk_ec_cmd_xfer_status (ec_hw p) (panicinfo_query p))).

Definition panicinfo_bytes (p : platform) : list byte :=
  memcpy (zeroes (max_response p))
    (data (snd (fst (fwk_ec_cmd_xfer_status (ec_hw p) (panicinfo_query p)))))
    (max_response p).

(** The EC has panic information: the query can be made and is answered
    with a positive count. *)
Definition has_panicinfo (p : platform) : bool :=
  (0 <? max_response p) && (0 <? panicinfo_count p).

(** The structure once the panic information is published. *)
Definition with_panicinfo (d : fwk_ec_debugfs) (p : platform) : fwk_ec_debugfs :=
  debugfs_create "panicinfo"
    {| dir := dir d; log_buffer := log_buffer d; read_msg := read_msg d;
       log_poll_work := log_poll_work d;
       panicinfo_blob :=
         Some {| blob_data := panicinfo_bytes p;
                 blob_size := panicinfo_count p |} |}.

(** The message [fwk_ec_uptime_is_supported] sends, and the only answer
    that makes it say no: the transfer fails with [-EPROTO] and the EC's
    result is [EC_RES_INVALID_COMMAND]. *)
Definition uptime_query : fwk_ec_command :=
  {| version := 0; command := EC_CMD_GET_UPTIME_INFO; outsize := 0;
     insize := sizeof_ec_response_uptime_info; result := 0;
     data := zeroes sizeof_ec_response_uptime_info |}.

Definition answers_uptime (p : platform) : bool :=
  let r := fwk_ec_cmd_xfer_status (ec_hw p) uptime_query in
  negb ((fst (fst r) =? - EPROTO) &&
        (result (snd (fst r)) =? EC_RES_INVALID_COMMAND)).

(** The zeroed structure probe starts from, and the platform as probe's
    first steps leave it: after the panic information, and after the console
    log, which is when the uptime test is made. *)
Definition probe_start : fwk_ec_debugfs :=
  {| dir := Some []; log_buffer := {| buf := []; head := 0; tail := 0 |};
     read_msg := None; log_poll_work := None; panicinfo_blob := None |}.

Definition after_panicinfo (p : platform) : platform :=
  snd (fwk_ec_create_panicinfo probe_start (snd (kzalloc p))).

Definition before_uptime (p : platform) : platform :=
  snd (fwk_ec_create_console_log
         (snd (fst (fwk_ec_create_panicinfo probe_start (snd (kzalloc p)))))
         (after_panicinfo p)).

(** ** Properties of the probe-time code *)

Lemma extends_refl (p : platform) : extends p p.
Proof. unfold extends. splits; auto. exists []. now rewrite app_nil_r. Qed.

Lemma extends_trans (p1 p2 p3 : platform) :
  extends p1 p2 -> extends p2 p3 -> extends p1 p3.
Proof.
  intros (Hm & Hc & Hn & Ha & m1 & Hs) (Hm' & Hc' & Hn' & Ha' & m2 & Hs').
  unfold extends. splits; try congruence; auto.
  exists (m1 ++ m2). now rewrite Hs', Hs, app_assoc.
Qed.

Lemma kzalloc_extends (p : platform) :
  extends p (snd (kzalloc p)) /\ sent (snd (kzalloc p)) = sent p /\
  ec_hw (snd (kzalloc p)) = ec_hw p /\
  (allocs p = [] -> kzalloc p = (true, p)).
Proof.
  unfold kzalloc, extends. destruct (allocs p) as [|ok rest] eqn:Ha; cbn.
  - splits; auto. exists []. now rewrite app_nil_r.
  - splits; auto; try discriminate. exists []. now rewrite app_nil_r.
Qed.

Lemma xfer_spec (msg : fwk_ec_command) (p : platform) :
  xfer msg p =
  (fst (fst (fwk_ec_cmd_xfer_status (ec_hw p) msg)),
   snd (fst (fwk_ec_cmd_xfer_status (ec_hw p) msg)),
   snd (xfer msg p)) /\
  extends p (snd (xfer msg p)) /\
  sent (snd (xfer msg p)) = sent p ++ [msg].
Proof.
  unfold xfer, extends.
  destruct (fwk_ec_cmd_xfer_status (ec_hw p) msg) as [[ret msg'] hw]. cbn.
  splits; auto. now exists [msg].
Qed.

Lemma memcpy_length (dst src : list byte) (n : Z) :
  0 <= n <= Z.of_nat (length dst) -> length (memcpy dst src n) = length dst.
Proof.
  intros Hn. unfold memcpy.
  rewrite length_app, length_take, length_app, length_replicate, length_drop. lia.
Qed.

Lemma get_panicinfo_spec (data_ptr data' : option (list byte))
    (data_size ret : Z) (p p' : platform) :
  fwk_ec_get_panicinfo data_ptr data_size p = (ret, data', p') ->
  (data_ptr = None \/ data_size <= 0 \/ max_response p < data_size ->
   ret = - EINVAL /\ p' = p) /\
  (ret < 0 -> data' = data_ptr) /\
  (sent p' = sent p \/
   exists msg, sent p' = sent p ++ [msg] /\
     command msg = EC_CMD_GET_PANIC_INFO /\ insize msg = data_size /\
     data msg = zeroes data_size) /\
  (0 <= ret ->
   0 < data_size <= max_response p /\
   length (sent p') = S (length (sent p)) /\
   exists buffer b', data_ptr = Some buffer /\ data' = Some b' /\
     (data_size <= Z.of_nat (length buffer) -> length b' = length buffer)) /\
  extends p p'.
Proof.
  unfold fwk_ec_get_panicinfo. intros Hrun.
  destruct data_ptr as [buffer|].
  2:{ inversion Hrun; subst. unfold EINVAL.
      splits; auto using extends_refl; intros; intuition (try congruence; try lia). }
  destruct (Z.leb_spec data_size 0) as [Hle|Hpos]; cbn [orb] in Hrun.
  { inversion Hrun; subst. unfold EINVAL.
    splits; auto using extends_refl; intros; intuition (try congruence; try lia). }
  destruct (Z.ltb_spec (max_response p) data_size) as [Hbig|Hfit].
  { inversion Hrun; subst. unfold EINVAL.
    splits; auto using extends_refl; intros; intuition (try congruence; try lia). }
  destruct (kzalloc_extends p) as (Hext1 & Hsent1 & _ & _).
  destruct (kzalloc p) as [ok p1]. cbn [snd] in *.
  destruct ok; cbn [negb] in Hrun.
  2:{ inversion Hrun; subst. unfold ENOMEM.
      splits; auto; intros; intuition (try congruence; try lia). }
  set (msg := {| version := 0; command := EC_CMD_GET_PANIC_INFO; outsize := 0;
                 insize := data_size; result := 0; data := zeroes data_size |}) in *.
  destruct (xfer_spec msg p1) as (Hx & Hext2 & Hsent2).
  rewrite Hx in Hrun.
  assert (Hsent : sent (snd (xfer msg p1)) = sent p ++ [msg]) by congruence.
  assert (Hext : extends p (snd (xfer msg p1))) by eauto using extends_trans.
  destruct (Z.ltb_spec (fst (fst (fwk_ec_cmd_xfer_status (ec_hw p1) msg))) 0);
    inversion Hrun; subst; clear Hrun.
  - splits; auto; try (intros; intuition (try congruence; try lia)).
    right. exists msg. auto.
  - split; [intros; intuition (try congruence; try lia)|].
    split; [intros; lia|].
    split; [right; exists msg; auto|].
    split; [|assumption].
    intros _. split; [lia|]. split.
    + rewrite Hsent, length_app. cbn. lia.
    + do 2 eexists. split; [reflexivity|]. split; [reflexivity|].
      intros Hlen. apply memcpy_length. lia.
Qed.

(** X13: [fwk_ec_get_panicinfo] and the caller's buffer.  A NULL
    buffer, a size that is not positive or a size above [max_response] gives
    [-EINVAL] before anything is allocated or sent.  Whenever the result is
    negative the caller's buffer is as it was.  At most one message is
    sent, and if the result is not negative exactly one: the panic-info
    command asking for [data_size] bytes, with [data_size] positive and at
    most [max_response]; the buffer then keeps its length. *)
Theorem X13_get_panicinfo (data_ptr data' : option (list byte))
    (data_size ret : Z) (p p' : platform) :
  fwk_ec_get_panicinfo data_ptr data_size p = (ret, data', p') ->
  (data_ptr = None \/ data_size <= 0 \/ max_response p < data_size ->
   ret = - EINVAL /\ p' = p) /\
  (ret < 0 -> data' = data_ptr) /\
  (sent p' = sent p \/
   exists msg, sent p' = sent p ++ [msg] /\
     command msg = EC_CMD_GET_PANIC_INFO /\ insize msg = data_size /\
     data msg = zeroes data_size) /\
  (0 <= ret ->
   0 < data_size <= max_response p /\
   length (sent p') = S (length (sent p)) /\
   exists buffer b', data_ptr = Some buffer /\ data' = Some b' /\
     (data_size <= Z.of_nat (length buffer) -> length b' = length buffer)) /\
  extends p p'.
Proof.
  intros Hrun.
  destruct (get_panicinfo_spec _ _ _ _ _ _ Hrun)
    as (Hinval & Hneg & Hsent & Hok & Hext).
  splits; assumption.
Qed.


Lemma create_panicinfo_spec (d d' : fwk_ec_debugfs) (ret : Z) (p p' : platform) :
  fwk_ec_create_panicinfo d p = (ret, d', p') ->
  (ret = 0 \/ ret = - ENOMEM) /\
  (ret = - ENOMEM -> d' = d /\ sent p' = sent p) /\
  (allocs p = [] -> ret = 0) /\
  (d' = d \/
   ret = 0 /\
   exists blob,
     0 < blob_size blob /\
     Z.of_nat (length (blob_data blob)) = max_response p /\
     d' = debugfs_create "panicinfo"
            {| dir := dir d; log_buffer := log_buffer d; read_msg := read_msg d;
               log_poll_work := log_poll_work d; panicinfo_blob := Some blob |}) /\
  extends p p'.
Proof.
  unfold fwk_ec_create_panicinfo. intros Hrun.
  destruct (kzalloc_extends p) as (Hext1 & Hsent1 & _ & Hplenty).
  destruct (kzalloc p) as [ok p1] eqn:Hk. cbn [snd] in *.
  destruct ok; cbn [negb] in Hrun.
  2:{ inversion Hrun; subst. unfold ENOMEM.
      splits; auto.
      intros Ha. specialize (Hplenty Ha). discriminate. }
  destruct (fwk_ec_get_panicinfo (Some (zeroes (max_response p1))) (max_response p1) p1)
    as [[r data'] p2] eqn:Hget.
  destruct (get_panicinfo_spec _ _ _ _ _ _ Hget) as (_ & _ & _ & Hok & Hext2).
  assert (Hext : extends p p2) by eauto using extends_trans.
  destruct (Z.ltb_spec r 0) as [Hneg|Hnn].
  { inversion Hrun; subst. unfold ENOMEM. splits; auto; intros; lia. }
  destruct (Z.eqb_spec r 0) as [Hz|Hnz].
  { inversion Hrun; subst. unfold ENOMEM. splits; auto; intros; lia. }
  inversion Hrun; subst; clear Hrun. unfold ENOMEM.
  destruct (Hok Hnn) as (Hsize & _ & buffer & b' & Hbuf & Hdata & Hlen).
  inversion Hbuf; subst buffer. subst data'.
  splits; auto; try (intros; lia).
  right. split; [reflexivity|].
  eexists {| blob_data := b'; blob_size := r |}. cbn [blob_size blob_data default from_option id].
  splits; try lia; try reflexivity.
  destruct Hext1 as (Hm & _).
  rewrite Hlen; unfold zeroes; rewrite length_replicate; lia.
Qed.

Lemma get_panicinfo_exact (buffer : list byte) (p : platform) :
  0 < max_response p -> fst (kzalloc p) = true ->
  fwk_ec_get_panicinfo (Some buffer) (max_response p) p =
  (panicinfo_count p,
   if panicinfo_count p <? 0 then Some buffer
   else Some (memcpy buffer
                (data (snd (fst (fwk_ec_cmd_xfer_status (ec_hw p) (panicinfo_query p)))))
                (max_response p)),
   snd (xfer (panicinfo_query p) (snd (kzalloc p)))).
Proof.
  intros Hpos Hok. unfold fwk_ec_get_panicinfo.
  destruct (Z.leb_spec (max_response p) 0) as [Hle|_]; [lia|].
  rewrite Z.ltb_irrefl. cbn [orb].
  destruct (kzalloc_extends p) as (_ & _ & Hhw & _).
  destruct (kzalloc p) as [ok p1]. cbn [fst snd] in *. subst ok. cbn [negb].
  fold (panicinfo_query p).
  destruct (xfer_spec (panicinfo_query p) p1) as (Hx & _ & _).
  rewrite Hx, Hhw. fold (panicinfo_count p).
  now destruct (panicinfo_count p <? 0).
Qed.

Lemma create_panicinfo_exact (d d' : fwk_ec_debugfs) (ret : Z) (p p' : platform) :
  fwk_ec_create_panicinfo d p = (ret, d', p') ->
  (d' = d \/ ret = 0 /\ has_panicinfo p = true /\ d' = with_panicinfo d p) /\
  (allocs p = [] ->
   d' = (if has_panicinfo p then with_panicinfo d p else d) /\
   sent p' = if 0 <? max_response p then sent p ++ [panicinfo_query p] else sent p).
Proof.
  unfold fwk_ec_create_panicinfo. intros Hrun.
  destruct (kzalloc_extends p) as ((Hm & _) & Hsent1 & Hhw & Hplenty).
  destruct (kzalloc p) as [ok p1] eqn:Hk. cbn [snd] in *.
  destruct ok; cbn [negb] in Hrun.
  2:{ inversion Hrun; subst. split; [now left|].
      intros Ha. specialize (Hplenty Ha). discriminate. }
  assert (Hq : panicinfo_query p1 = panicinfo_query p)
    by (unfold panicinfo_query; now rewrite Hm).
  assert (Hc : panicinfo_count p1 = panicinfo_count p)
    by (unfold panicinfo_count; now rewrite Hq, Hhw).
  assert (Hb : panicinfo_bytes p1 = panicinfo_bytes p)
    by (unfold panicinfo_bytes; now rewrite Hq, Hhw, Hm).
  unfold has_panicinfo, with_panicinfo. rewrite <- Hm, <- Hc, <- Hb.
  destruct (Z.ltb_spec 0 (max_response p1)) as [Hpos|Hnpos]; cbn [andb].
  2:{ unfold fwk_ec_get_panicinfo in Hrun.
      destruct (Z.leb_spec (max_response p1) 0) as [_|?]; [|lia].
      cbn [orb] in Hrun. inversion Hrun; subst.
      split; [now left|]. intros Ha. specialize (Hplenty Ha).
      inversion Hplenty; subst. auto. }
  destruct (kzalloc_extends p1) as (_ & Hsent2 & _ & Hplenty2).
  destruct (fst (kzalloc p1)) eqn:Hk2.
  2:{ unfold fwk_ec_get_panicinfo in Hrun.
      destruct (Z.leb_spec (max_response p1) 0) as [?|_]; [lia|].
      rewrite Z.ltb_irrefl in Hrun. cbn [orb] in Hrun.
      destruct (kzalloc p1) as [ok2 p2]. cbn [fst] in Hk2. subst ok2.
      cbn [negb] in Hrun. inversion Hrun; subst.
      split; [now left|]. intros Ha. specialize (Hplenty Ha).
      inversion Hplenty; subst p1. specialize (Hplenty2 Ha). discriminate. }
  rewrite (get_panicinfo_exact _ _ Hpos Hk2) in Hrun.
  assert (Hs : allocs p = [] ->
               sent (snd (xfer (panicinfo_query p1) (snd (kzalloc p1)))) =
               sent p ++ [panicinfo_query p]).
  { intros Ha.
    destruct (xfer_spec (panicinfo_query p1) (snd (kzalloc p1))) as (_ & _ & Hs).
    rewrite Hs, Hsent2, Hsent1, Hq. reflexivity. }
  destruct (Z.ltb_spec (panicinfo_count p1) 0) as [Hneg|Hnn].
  { inversion Hrun; subst.
    destruct (Z.ltb_spec 0 (panicinfo_count p1)); [lia|].
    split; [now left|]. intros Ha. split; [reflexivity|]. auto. }
  destruct (Z.eqb_spec (panicinfo_count p1) 0) as [Hz|Hnz].
  { inversion Hrun; subst.
    destruct (Z.ltb_spec 0 (panicinfo_count p1)); [lia|].
    split; [now left|]. intros Ha. split; [reflexivity|]. auto. }
  inversion Hrun; subst; clear Hrun.
  destruct (Z.ltb_spec 0 (panicinfo_count p1)); [|lia].
  cbn [default from_option id]. fold (panicinfo_bytes p1).
  split; [right; splits; reflexivity|].
  intros Ha. split; [reflexivity|]. auto.
Qed.

Lemma panicinfo_bytes_length (p : platform) :
  0 <= max_response p -> Z.of_nat (length (panicinfo_bytes p)) = max_response p.
Proof.
  intros Hm. unfold panicinfo_bytes.
  assert (Hz : Z.of_nat (length (zeroes (max_response p))) = max_response p)
    by (unfold zeroes; rewrite length_replicate; lia).
  rewrite memcpy_length by lia. exact Hz.
Qed.

(** X14: [fwk_ec_create_panicinfo] never fails on account of the EC.
    It returns 0 or [-ENOMEM], the latter only when its own allocation
    fails, before any message is sent.  Whether the EC answers with an
    error, with nothing or with data, the result is 0.  The structure
    changes only if the EC answers the panic-info query with a positive
    count: the blob's size is then that count, its bytes are the buffer of
    [max_response] bytes with the answer copied into it, and [panicinfo] is
    created in the directory.  If the count is negative (an error) or 0 (no
    panic information), or if no query can be made, the structure is as it
    was.  With memory available the blob is published exactly when the count
    is positive, and exactly one message, the query, is sent. *)
Theorem X14_create_panicinfo (d d' : fwk_ec_debugfs) (ret : Z) (p p' : platform) :
  fwk_ec_create_panicinfo d p = (ret, d', p') ->
  (ret = 0 \/ ret = - ENOMEM) /\
  (ret = - ENOMEM -> d' = d /\ sent p' = sent p) /\
  (allocs p = [] -> ret = 0) /\
  (d' = d \/
   ret = 0 /\ 0 < max_response p /\ 0 < panicinfo_count p /\
   d' = debugfs_create "panicinfo"
          {| dir := dir d; log_buffer := log_buffer d; read_msg := read_msg d;
             log_poll_work := log_poll_work d;
             panicinfo_blob :=
               Some {| blob_data := panicinfo_bytes p;
                       blob_size := panicinfo_count p |} |} /\
   Z.of_nat (length (panicinfo_bytes p)) = max_response p) /\
  (panicinfo_count p <= 0 \/ max_response p <= 0 -> d' = d) /\
  (allocs p = [] ->
   d' = (if (0 <? max_response p) && (0 <? panicinfo_count p)
         then with_panicinfo d p else d) /\
   sent p' = if 0 <? max_response p then sent p ++ [panicinfo_query p]
             else sent p) /\
  extends p p'.
Proof.
  intros Hrun.
  destruct (create_panicinfo_spec _ _ _ _ _ Hrun)
    as (Hret & Hnomem & Hplenty & _ & Hext).
  destruct (create_panicinfo_exact _ _ _ _ _ Hrun) as (Hd & Hexact).
  assert (Hpub : d' = d \/
                 ret = 0 /\ 0 < max_response p /\ 0 < panicinfo_count p /\
                 d' = with_panicinfo d p).
  { destruct Hd as [Hd|(Hz & Hhas & Hd)]; [now left|right].
    unfold has_panicinfo in Hhas. apply andb_true_iff in Hhas.
    destruct Hhas as [Hm Hc]. apply Z.ltb_lt in Hm, Hc. auto. }
  splits; auto.
  - destruct Hpub as [Hd'|(Hz & Hm & Hc & Hd')]; [now left|right].
    splits; auto. apply panicinfo_bytes_length. lia.
  - intros Hno. destruct Hpub as [Hd'|(_ & Hm & Hc & _)]; [exact Hd'|lia].
Qed.

Lemma read_version_supported_spec (p : platform) :
  extends p (snd (ec_read_version_supported p)) /\
  (fst (ec_read_version_supported p) = 0 \/
   fst (ec_read_version_supported p) = 1) /\
  (allocs p = [] ->
   fst (ec_read_version_supported p) = if answers_v1 p then 1 else 0).
Proof.
  unfold ec_read_version_supported.
  destruct (kzalloc_extends p) as (Hext1 & Hsent1 & Hhw & Hplenty).
  destruct (kzalloc p) as [ok p1] eqn:Hk. cbn [snd] in *.
  destruct ok; cbn [negb].
  2:{ cbn. splits; auto. intros Ha. specialize (Hplenty Ha). discriminate. }
  fold (version_query p1).
  destruct (xfer_spec (version_query p1) p1) as (Hx & Hext2 & _).
  rewrite Hx. cbn [fst snd].
  splits.
  - eauto using extends_trans.
  - destruct (_ && _); auto.
  - intros Ha. specialize (Hplenty Ha). inversion Hplenty; subst p1.
    unfold answers_v1. reflexivity.
Qed.

Lemma create_console_log_spec (d d' : fwk_ec_debugfs) (ret : Z) (p p' : platform) :
  fwk_ec_create_console_log d p = (ret, d', p') ->
  (ret = 0 \/ ret = - ENOMEM) /\
  (ret <> 0 -> d' = d) /\
  (d' = d \/ ret = 0 /\ d' = with_console_log d p) /\
  (allocs p = [] ->
   ret = 0 /\ d' = if answers_v1 p then with_console_log d p else d) /\
  extends p p'.
Proof.
  unfold fwk_ec_create_console_log. intros Hrun.
  destruct (read_version_supported_spec p) as (Hext0 & Hval & Hplenty0).
  destruct (ec_read_version_supported p) as [supported p1]. cbn [fst snd] in *.
  destruct (Z.eqb_spec supported 0) as [Hz|Hnz].
  { inversion Hrun; subst. unfold ENOMEM. splits; auto; try (intros; lia).
    intros Ha. specialize (Hplenty0 Ha).
    destruct (answers_v1 p); [discriminate|auto]. }
  destruct (kzalloc_extends p1) as (Hext1 & _ & _ & Hplenty1).
  destruct (kzalloc p1) as [ok p2] eqn:Hk1. cbn [snd] in *.
  assert (Hext02 : extends p p2) by eauto using extends_trans.
  destruct ok; cbn [negb] in Hrun.
  2:{ inversion Hrun; subst. unfold ENOMEM. splits; auto; try (intros; lia).
      intros Ha. destruct Hext0 as (_ & _ & _ & Ha1 & _).
      specialize (Hplenty1 (Ha1 Ha)). discriminate. }
  destruct (kzalloc_extends p2) as (Hext2 & _ & _ & Hplenty2).
  destruct (kzalloc p2) as [ok' p3] eqn:Hk2. cbn [snd] in *.
  assert (Hext03 : extends p p3) by eauto using extends_trans.
  destruct ok'; cbn [negb] in Hrun.
  2:{ inversion Hrun; subst. unfold ENOMEM. splits; auto; try (intros; lia).
      intros Ha. destruct Hext02 as (_ & _ & _ & Ha2 & _).
      specialize (Hplenty2 (Ha2 Ha)). discriminate. }
  inversion Hrun; subst; clear Hrun. unfold ENOMEM.
  assert (Hsame : debugfs_create "console_log"
            {| dir := dir d;
               log_buffer := {| buf := zeroes (LOG_SIZE LOG_SHIFT); head := 0; tail := 0 |};
               read_msg :=
                 Some {| version := 1; command := EC_CMD_CONSOLE_READ + cmd_offset p';
                         outsize := sizeof_ec_params_console_read_v1;
                         insize := max_response p2; result := 0;
                         data := zeroes (Z.max sizeof_ec_params_console_read_v1
                                               (max_response p2)) |};
               log_poll_work := Some 0;
               panicinfo_blob := panicinfo_blob d |} = with_console_log d p).
  { unfold with_console_log.
    destruct Hext02 as (Hm2 & _). destruct Hext03 as (_ & Hc3 & _).
    now rewrite Hm2, Hc3. }
  rewrite Hsame.
  splits; auto; try (intros; lia).
  intros Ha. specialize (Hplenty0 Ha).
  destruct (answers_v1 p); [auto|]. destruct Hval; congruence.
Qed.

(** X15: [fwk_ec_create_console_log].  It returns 0 or [-ENOMEM], and
    on [-ENOMEM] the structure is as it was: no storage, no pending work, no
    file.  It otherwise either leaves the structure alone (the EC has no
    version 1 of the console read command) or sets the log up: [LOG_SIZE]
    zero bytes of storage, both cursors at 0, the poll item pending with no
    delay, the read message with version 1 and room for [max_response]
    bytes, and [console_log] in the directory.  With memory available the
    log is set up exactly when the EC answers the version query without
    error and with bit 1 of the mask set. *)
Theorem X15_create_console_log (d d' : fwk_ec_debugfs) (ret : Z) (p p' : platform) :
  fwk_ec_create_console_log d p = (ret, d', p') ->
  (ret = 0 \/ ret = - ENOMEM) /\
  (ret <> 0 -> d' = d) /\
  (d' = d \/
   ret = 0 /\ d' = with_console_log d p /\
   buf (log_buffer d') = zeroes (LOG_SIZE LOG_SHIFT) /\
   head (log_buffer d') = 0 /\ tail (log_buffer d') = 0 /\
   log_poll_work d' = Some 0) /\
  (allocs p = [] ->
   ret = 0 /\ d' = if answers_v1 p then with_console_log d p else d).
Proof.
  intros Hrun.
  destruct (create_console_log_spec _ _ _ _ _ Hrun) as (Hret & Hfail & Hd & Hplenty & _).
  splits; auto.
  destruct Hd as [Hd|[Hz Hd]]; [now left|right].
  subst d'. splits; auto.
Qed.


Lemma uptime_is_supported_extends (p : platform) :
  extends p (snd (fwk_ec_uptime_is_supported p)).
Proof.
  unfold fwk_ec_uptime_is_supported.
  set (msg := {| version := 0; command := EC_CMD_GET_UPTIME_INFO; outsize := 0;
                 insize := sizeof_ec_response_uptime_info; result := 0;
                 data := zeroes sizeof_ec_response_uptime_info |}).
  destruct (xfer_spec msg p) as (Hx & Hext & _). rewrite Hx.
  now destruct (_ && _).
Qed.

Lemma log_storage_allocated : zeroes (LOG_SIZE LOG_SHIFT) <> [].
Proof.
  intros H. apply (f_equal (@length byte)) in H.
  unfold zeroes in H. rewrite length_replicate in H.
  pose proof (LOG_SIZE_pos LOG_SHIFT). cbn [length] in H. lia.
Qed.

Lemma probe_spec (p p' : platform) (ret : Z) (od : option fwk_ec_debugfs) :
  fwk_ec_debugfs_probe p = (ret, od, p') ->
  (od = None /\ ret = - ENOMEM /\ sent p' = sent p /\ allocs p <> []) \/
  (exists d, od = Some d /\ ret <> 0 /\ dir d = None /\
     (ret = - ENOMEM /\ allocs p <> [] /\ log_poll_work d = None /\
      buf (log_buffer d) = [] \/
      ret = notifier_ret p /\
      (buf (log_buffer d) = [] /\ log_poll_work d = None \/
       buf (log_buffer d) = zeroes (LOG_SIZE LOG_SHIFT) /\
       log_poll_work d = Some 0))) \/
  (exists d (panic log uptime : bool),
     od = Some d /\ ret = 0 /\ notifier_ret p = 0 /\
     dir d = Some (probe_names panic log uptime) /\
     (if panic then exists blob, panicinfo_blob d = Some blob /\ 0 < blob_size blob
      else panicinfo_blob d = None) /\
     (if log
      then log_buffer d = {| buf := zeroes (LOG_SIZE LOG_SHIFT); head := 0; tail := 0 |} /\
           log_poll_work d = Some 0 /\ read_msg d <> None
      else buf (log_buffer d) = [] /\ log_poll_work d = None /\ read_msg d = None)).
Proof.
  unfold fwk_ec_debugfs_probe. intros Hrun.
  destruct (kzalloc_extends p) as (Hext0 & Hsent0 & _ & Hplenty0).
  destruct (kzalloc p) as [ok p0] eqn:Hk. cbn [snd] in *.
  destruct ok; cbn [negb] in Hrun.
  2:{ left. inversion Hrun; subst. splits; auto.
      intros Ha. specialize (Hplenty0 Ha). discriminate. }
  set (d0 := {| dir := Some []; log_buffer := {| buf := []; head := 0; tail := 0 |};
                read_msg := None; log_poll_work := None; panicinfo_blob := None |}) in *.
  destruct (fwk_ec_create_panicinfo d0 p0) as [[ret1 d1] p1] eqn:H1.
  destruct (create_panicinfo_spec _ _ _ _ _ H1) as (Hr1 & Hnomem1 & Hplenty1 & Hd1 & Hext1).
  assert (Hext01 : extends p p1) by eauto using extends_trans.
  destruct (Z.eqb_spec ret1 0) as [Hz1|Hnz1]; cbn [negb] in Hrun.
  2:{ right. left. inversion Hrun; subst. eexists. splits; eauto.
      destruct Hr1 as [?|Hr1]; [contradiction|].
      destruct (Hnomem1 Hr1) as [Hd _]. subst d1.
      left. split; [assumption|]. split; [|auto].
      intros Ha. destruct Hext0 as (_ & _ & _ & Ha0 & _).
      specialize (Hplenty1 (Ha0 Ha)). contradiction. }
  destruct (fwk_ec_create_console_log d1 p1) as [[ret2 d2] p2] eqn:H2.
  destruct (create_console_log_spec _ _ _ _ _ H2) as (Hr2 & Hfail2 & Hd2 & Hplenty2 & Hext2).
  assert (Hext02 : extends p p2) by eauto using extends_trans.
  assert (Hwork1 : log_poll_work d1 = None /\ buf (log_buffer d1) = [] /\
                   read_msg d1 = None /\
                   exists panic : bool,
                     dir d1 = Some (if panic then ["panicinfo"%string] else []) /\
                     if panic
                     then exists blob, panicinfo_blob d1 = Some blob /\ 0 < blob_size blob
                     else panicinfo_blob d1 = None).
  { destruct Hd1 as [Hd|(_ & blob & Hsize & _ & Hd)]; subst d1.
    - splits; auto. exists false. auto.
    - splits; auto. exists true. cbn. eauto. }
  destruct Hwork1 as (Hw1 & Hb1 & Hm1 & panic & Hdir1 & Hblob1).
  destruct (Z.eqb_spec ret2 0) as [Hz2|Hnz2]; cbn [negb] in Hrun.
  2:{ right. left. inversion Hrun; subst. eexists. splits; eauto.
      rewrite (Hfail2 Hnz2). cbn.
      destruct Hr2 as [?|Hr2]; [contradiction|].
      left. split; [assumption|]. split; [|auto].
      intros Ha. destruct Hext01 as (_ & _ & _ & Ha1 & _).
      destruct (Hplenty2 (Ha1 Ha)). contradiction. }
  pose proof (uptime_is_supported_extends p2) as Hext3.
  destruct (fwk_ec_uptime_is_supported p2) as [uptime p3] eqn:H3. cbn [snd] in *.
  assert (Hext03 : extends p p3) by eauto using extends_trans.
  assert (Hlog : exists log : bool,
             dir d2 = Some ((if panic then ["panicinfo"%string] else []) ++
                            (if log then ["console_log"%string] else [])) /\
             panicinfo_blob d2 = panicinfo_blob d1 /\
             if log
             then log_buffer d2 = {| buf := zeroes (LOG_SIZE LOG_SHIFT); head := 0; tail := 0 |} /\
                  log_poll_work d2 = Some 0 /\ read_msg d2 <> None
             else buf (log_buffer d2) = [] /\ log_poll_work d2 = None /\ read_msg d2 = None).
  { destruct Hd2 as [Hd|(_ & Hd)]; subst d2.
    - exists false. rewrite app_nil_r. splits; auto.
    - exists true. cbn. rewrite Hdir1. splits; auto; try discriminate. }
  destruct Hlog as (log & Hdir2 & Hblob2 & Hlog).
  destruct (Z.eqb_spec (notifier_ret p3) 0) as [Hz3|Hnz3]; cbn [negb] in Hrun.
  2:{ right. left. inversion Hrun; subst. eexists. splits; eauto.
      right. split; [destruct Hext03 as (_ & _ & Hn & _); congruence|].
      destruct log; destruct uptime; cbn;
        destruct Hlog as (Hl1 & Hl2 & Hl3); rewrite ?Hl1; auto. }
  right. right. inversion Hrun; subst; clear Hrun.
  eexists _, panic, log, uptime.
  split; [reflexivity|]. split; [reflexivity|].
  split; [destruct Hext03 as (_ & _ & Hn & _); congruence|].
  split.
  { unfold probe_names. destruct uptime; cbn; rewrite Hdir2;
      rewrite <- ?app_assoc; reflexivity. }
  split.
  { destruct uptime; cbn; rewrite Hblob2; exact Hblob1. }
  destruct uptime; cbn; exact Hlog.
Qed.

Lemma uptime_is_supported_spec (p : platform) :
  fst (fwk_ec_uptime_is_supported p) = answers_uptime p.
Proof.
  unfold fwk_ec_uptime_is_supported, answers_uptime. fold uptime_query.
  destruct (xfer_spec uptime_query p) as (Hx & _ & _). rewrite Hx.
  now destruct (_ && _).
Qed.

Lemma probe_plenty (p : platform) :
  allocs p = [] -> notifier_ret p = 0 ->
  fwk_ec_debugfs_probe p =
  (0,
   Some (debugfs_create "suspend_timeout_ms"
           (debugfs_create "last_resume_result"
              ((if answers_uptime (before_uptime p)
                then debugfs_create "uptime" else id)
                 (debugfs_create "pdinfo"
                    ((if answers_v1 (after_panicinfo p)
                      then fun d => with_console_log d (after_panicinfo p)
                      else id)
                       (if has_panicinfo p then with_panicinfo probe_start p
                        else probe_start)))))),
   snd (fwk_ec_uptime_is_supported (before_uptime p))).
Proof.
  intros Ha Hn. unfold fwk_ec_debugfs_probe, before_uptime, after_panicinfo.
  destruct (kzalloc_extends p) as (_ & _ & _ & Hplenty).
  rewrite (Hplenty Ha). cbn [negb snd]. fold probe_start.
  destruct (fwk_ec_create_panicinfo probe_start p) as [[ret1 d1] p1] eqn:H1.
  destruct (create_panicinfo_spec _ _ _ _ _ H1) as (_ & _ & Hr1 & _ & Hext1).
  destruct (create_panicinfo_exact _ _ _ _ _ H1) as (_ & Hd1).
  destruct (Hd1 Ha) as (Hd1' & _). rewrite (Hr1 Ha). cbn [Z.eqb negb fst snd].
  assert (Ha1 : allocs p1 = []) by (destruct Hext1 as (_ & _ & _ & H & _); auto).
  destruct (fwk_ec_create_console_log d1 p1) as [[ret2 d2] p2] eqn:H2.
  destruct (create_console_log_spec _ _ _ _ _ H2) as (_ & _ & _ & Hd2 & Hext2).
  destruct (Hd2 Ha1) as (Hr2 & Hd2'). rewrite Hr2. cbn [Z.eqb negb fst snd].
  pose proof (uptime_is_supported_spec p2) as Hup.
  pose proof (uptime_is_supported_extends p2) as Hext3.
  destruct (fwk_ec_uptime_is_supported p2) as [uptime p3]. cbn [fst snd] in *.
  assert (Hn3 : notifier_ret p3 = 0).
  { destruct Hext1 as (_ & _ & Hn1 & _). destruct Hext2 as (_ & _ & Hn2 & _).
    destruct Hext3 as (_ & _ & Hn3 & _). congruence. }
  rewrite Hn3. cbn [Z.eqb negb]. subst uptime d2 d1.
  destruct (answers_uptime p2), (answers_v1 p1), (has_panicinfo p); reflexivity.
Qed.

(** X16: the EC cannot make probe fail.  With memory available and the
    panic notifier chain accepting the block, probe returns 0 whatever the
    EC answers to the commands it gets.  The directory then holds [pdinfo],
    [last_resume_result] and [suspend_timeout_ms], and each of [panicinfo],
    [console_log] and [uptime] exactly when its own test passed:
    [panicinfo] when the EC answers the panic-info query with a positive
    count, and it goes with the blob of that size; [console_log] when the
    EC, as the panic-info step left it, answers the version query with bit 1
    set, and it goes with an allocated, zeroed, empty ring buffer and a
    pending poll item, while without it there is neither storage nor pending
    work; [uptime] when [fwk_ec_uptime_is_supported] says so on the platform
    as the console-log step left it, that is unless the EC fails the uptime
    query with [-EPROTO] and the result [EC_RES_INVALID_COMMAND]. *)
Theorem X16_probe_does_not_depend_on_the_EC (p : platform) :
  allocs p = [] -> notifier_ret p = 0 ->
  exists d p' (panic log uptime : bool),
    fwk_ec_debugfs_probe p = (0, Some d, p') /\
    dir d = Some (probe_names panic log uptime) /\
    panic = has_panicinfo p /\
    log = answers_v1 (after_panicinfo p) /\
    uptime = fst (fwk_ec_uptime_is_supported (before_uptime p)) /\
    uptime = answers_uptime (before_uptime p) /\
    p' = snd (fwk_ec_uptime_is_supported (before_uptime p)) /\
    (if panic
     then panicinfo_blob d = Some {| blob_data := panicinfo_bytes p;
                                     blob_size := panicinfo_count p |} /\
          0 < panicinfo_count p
     else panicinfo_blob d = None) /\
    (if log
     then log_buffer d = {| buf := zeroes (LOG_SIZE LOG_SHIFT); head := 0; tail := 0 |} /\
          log_poll_work d = Some 0 /\ read_msg d <> None
     else buf (log_buffer d) = [] /\ log_poll_work d = None /\ read_msg d = None).
Proof.
  intros Ha Hn. rewrite (probe_plenty p Ha Hn).
  eexists _, _, (has_panicinfo p), (answers_v1 (after_panicinfo p)),
    (answers_uptime (before_uptime p)).
  split; [reflexivity|].
  split.
  { unfold probe_names.
    destruct (answers_uptime _), (answers_v1 _), (has_panicinfo p); reflexivity. }
  split; [reflexivity|]. split; [reflexivity|].
  split; [symmetry; apply uptime_is_supported_spec|].
  split; [reflexivity|]. split; [reflexivity|].
  split.
  - destruct (has_panicinfo p) eqn:Hhas.
    + split.
      * destruct (answers_uptime _), (answers_v1 _); reflexivity.
      * unfold has_panicinfo in Hhas. apply andb_true_iff in Hhas.
        destruct Hhas as [_ Hc]. now apply Z.ltb_lt in Hc.
    + destruct (answers_uptime _), (answers_v1 _); reflexivity.
  - destruct (answers_v1 (after_panicinfo p)).
    + destruct (answers_uptime _), (has_panicinfo p); cbn;
        splits; auto; discriminate.
    + destruct (answers_uptime _), (has_panicinfo p); cbn; splits; reflexivity.
Qed.

(** X17: a failed probe leaves no directory behind.  If probe returns
    a non-zero value, that value is [-ENOMEM] from an allocation that failed
    or what the notifier chain returned; the debugfs directory is removed
    with everything in it; and if the structure itself could not be
    allocated the EC was not contacted at all.  If probe returns 0 the
    directory exists. *)
Theorem X17_failed_probe_removes_the_directory (p p' : platform) (ret : Z)
    (od : option fwk_ec_debugfs) :
  fwk_ec_debugfs_probe p = (ret, od, p') ->
  (ret <> 0 ->
   (ret = - ENOMEM /\ allocs p <> [] \/ ret = notifier_ret p) /\
   (forall d, od = Some d -> dir d = None) /\
   (od = None -> sent p' = sent p)) /\
  (ret = 0 -> exists d names, od = Some d /\ dir d = Some names).
Proof.
  intros Hrun.
  destruct (probe_spec _ _ _ _ Hrun)
    as [(Hod & Hret & Hsent & Ha)|[(d & Hod & Hnz & Hdir & Hwhy)|
        (d & panic & log & uptime & Hod & Hret & _ & Hdir & _)]]; subst.
  - split; [|unfold ENOMEM; intros; lia].
    intros _. splits; auto. discriminate.
  - split; [|contradiction].
    intros _. splits.
    + destruct Hwhy as [(Hr & Ha & _)|(Hr & _)]; auto.
    + intros d' Hd'. inversion Hd'; subst. exact Hdir.
    + discriminate.
  - split; [contradiction|]. intros _. eauto.
Qed.

(** X18: what a failed probe leaves queued.  A probe that fails for
    lack of memory leaves no poll item pending.  A probe that fails because
    the panic notifier could not be registered has removed the directory,
    but if the console log had been set up its poll item is still pending,
    with no delay. *)
Theorem X18_failed_probe_and_the_poll_item (p p' : platform) (ret : Z)
    (d : fwk_ec_debugfs) :
  fwk_ec_debugfs_probe p = (ret, Some d, p') -> ret <> 0 ->
  dir d = None /\
  (notifier_ret p = 0 -> ret = - ENOMEM /\ log_poll_work d = None) /\
  (buf (log_buffer d) <> [] ->
   ret = notifier_ret p /\ log_poll_work d = Some 0) /\
  (buf (log_buffer d) = [] -> log_poll_work d = None).
Proof.
  intros Hrun Hnz. pose proof log_storage_allocated as Hstore.
  destruct (probe_spec _ _ _ _ Hrun)
    as [(Hod & _)|[(d' & Hod & _ & Hdir & Hwhy)|
        (d' & panic & log & uptime & Hod & Hret & _)]];
    try discriminate; try contradiction.
  inversion Hod; subst d'.
  destruct Hwhy as [(Hr & Ha & Hw & Hb)|(Hr & [(Hb & Hw)|(Hb & Hw)])].
  - splits; auto. intros Hbuf. contradiction.
  - splits; auto.
    + intros Hn. congruence.
    + intros Hbuf. contradiction.
  - splits; auto.
    + intros Hn. congruence.
    + intros Hbuf. rewrite Hb in Hbuf. contradiction.
Qed.



Lemma probe_log_state (p p' : platform) (d : fwk_ec_debugfs) :
  fwk_ec_debugfs_probe p = (0, Some d, p') ->
  buf (log_buffer d) <> [] ->
  log_state d p' =
  Build_state ec_device (ec_hw p')
    {| buf := zeroes (LOG_SIZE LOG_SHIFT); head := 0; tail := 0 |} (Some 0)
    false [] [] [] 0 0.
Proof.
  intros Hrun Hbuf.
  destruct (probe_spec _ _ _ _ Hrun)
    as [(Hod & _)|[(d' & _ & Hnz & _)|
        (d' & panic & log & uptime & Hod & _ & _ & _ & _ & Hlog)]];
    try discriminate; try contradiction.
  inversion Hod; subst d'.
  destruct log.
  - destruct Hlog as (Hcb & Hw & _). unfold log_state. now rewrite Hcb, Hw.
  - destruct Hlog as (Hb & _). contradiction.
Qed.

End WithEC.

Arguments ec_hw {ec_device} p.
Arguments max_response {ec_device} p.
Arguments cmd_offset {ec_device} p.
Arguments allocs {ec_device} p.
Arguments notifier_ret {ec_device} p.
Arguments sent {ec_device} p.
Arguments extends {ec_device} p p'.
Arguments log_state {ec_device} d p.
Arguments fwk_ec_get_panicinfo {ec_device} fwk_ec_cmd_xfer_status
  EC_CMD_GET_PANIC_INFO data_ptr data_size p.
Arguments fwk_ec_create_panicinfo {ec_device} fwk_ec_cmd_xfer_status
  EC_CMD_GET_PANIC_INFO d p.
Arguments fwk_ec_create_console_log {ec_device} fwk_ec_cmd_xfer_status
  EC_CMD_GET_CMD_VERSIONS EC_CMD_CONSOLE_READ sizeof_ec_params_console_read_v1
  sizeof_ec_params_get_cmd_versions_v1 sizeof_ec_response_get_cmd_versions d p.
Arguments fwk_ec_debugfs_probe {ec_device} fwk_ec_cmd_xfer_status
  EC_CMD_GET_CMD_VERSIONS EC_CMD_CONSOLE_READ EC_CMD_GET_PANIC_INFO
  EC_CMD_GET_UPTIME_INFO EC_RES_INVALID_COMMAND sizeof_ec_params_console_read_v1
  sizeof_ec_params_get_cmd_versions_v1 sizeof_ec_response_get_cmd_versions
  sizeof_ec_response_uptime_info p.
Arguments answers_v1 {ec_device} fwk_ec_cmd_xfer_status EC_CMD_GET_CMD_VERSIONS
  EC_CMD_CONSOLE_READ sizeof_ec_params_get_cmd_versions_v1
  sizeof_ec_response_get_cmd_versions p.
Arguments with_console_log {ec_device} EC_CMD_CONSOLE_READ
  sizeof_ec_params_console_read_v1 d p.
Arguments panicinfo_query {ec_device} EC_CMD_GET_PANIC_INFO p.
Arguments panicinfo_count {ec_device} fwk_ec_cmd_xfer_status
  EC_CMD_GET_PANIC_INFO p.
Arguments panicinfo_bytes {ec_device} fwk_ec_cmd_xfer_status
  EC_CMD_GET_PANIC_INFO p.
Arguments has_panicinfo {ec_device} fwk_ec_cmd_xfer_status
  EC_CMD_GET_PANIC_INFO p.
Arguments with_panicinfo {ec_device} fwk_ec_cmd_xfer_status
  EC_CMD_GET_PANIC_INFO d p.
Arguments answers_uptime {ec_device} fwk_ec_cmd_xfer_status
  EC_CMD_GET_UPTIME_INFO EC_RES_INVALID_COMMAND sizeof_ec_response_uptime_info p.
Arguments after_panicinfo {ec_device} fwk_ec_cmd_xfer_status
  EC_CMD_GET_PANIC_INFO p.
Arguments before_uptime {ec_device} fwk_ec_cmd_xfer_status
  EC_CMD_GET_CMD_VERSIONS EC_CMD_CONSOLE_READ EC_CMD_GET_PANIC_INFO
  sizeof_ec_params_console_read_v1 sizeof_ec_params_get_cmd_versions_v1
  sizeof_ec_response_get_cmd_versions p.

End Probe.

(** X19: probe hands over the log the first part starts from.  After a
    successful probe that set up the console log, what the work item and the
    readers find is the freshly created log: zeroed storage of [LOG_SIZE]
    bytes, both cursors at 0, the first cycle queued with no delay.  So from
    there, whatever the EC answers and whatever the order of ticks, reads,
    suspends, resumes and panics, the bytes stored are the bytes delivered
    followed by the bytes in the buffer. *)
Theorem X19_probe_hands_over_a_fresh_log (ec_device : Type)
    (xfer_msg : ec_device -> Probe.fwk_ec_command -> Z * Probe.fwk_ec_command * ec_device)
    (xfer_cmd : ec_device -> ec_command -> Z * list byte * ec_device)
    (c1 c2 c3 c4 c5 z1 z2 z3 z4 : Z)
    (p p' : Probe.platform ec_device) (d : Probe.fwk_ec_debugfs) :
  Probe.fwk_ec_debugfs_probe xfer_msg c1 c2 c3 c4 c5 z1 z2 z3 z4 p
    = (0, Some d, p') ->
  buf (Probe.log_buffer d) <> [] ->
  Probe.log_state d p' = fwk_ec_create_console_log LOG_SHIFT (Probe.ec_hw p') /\
  forall evs : list event,
    exists s delivered,
      drive LOG_SHIFT xfer_cmd evs (Probe.log_state d p') []
        = Some (s, delivered) /\
      stored s = delivered ++ contents LOG_SHIFT (log_buffer s).
Proof.
  intros Hrun Hbuf.
  pose proof (Probe.probe_log_state _ _ _ _ _ _ _ _ _ _ _ _ _ _ Hrun Hbuf) as Hst.
  assert (Heq : Probe.log_state d p'
                = fwk_ec_create_console_log LOG_SHIFT (Probe.ec_hw p'))
    by exact Hst.
  split; [exact Heq|].
  intros evs. rewrite Heq.
  destruct (drive_inv LOG_SHIFT ec_device xfer_cmd evs _ _
              (fwk_ec_create_console_log_inv LOG_SHIFT ec_device
                 (Probe.ec_hw p')))
    as (s & dl & Hdrive & _ & Hfifo & _).
  exists s, dl. split; assumption.
Qed.



(** * Instances

    The driver's buffer ([LOG_SHIFT] = 14, 16384 bytes), the 16-byte buffer
    of the spec's scenarios, and an EC that replays a script: every transfer
    takes the next scripted status and data area. *)

Definition script : Type := list (Z * list byte).

Definition replay (e : script) (c : ec_command) : Z * list byte * script :=
  match e with
  | [] => (0, [], [])
  | (ret, data) :: e' => (ret, data, e')
  end.

Definition letters : list byte :=
  ["A"; "B"; "C"; "D"; "E"; "F"; "G"; "H"; "I"; "J"; "K"; "L"; "M"; "N"; "O"; "P"]%byte.

(** 16 bytes of storage, valid data wrapping: tail at 12, head at 3. *)
Definition wrapped : circ_buf := {| buf := letters; head := 3; tail := 12 |}.

(** 16 bytes of storage, 14 of the 15 usable slots filled. *)
Definition nearly_full (e : script) : state script :=
  {| ec_dev := e;
     log_buffer := {| buf := take 14 letters ++ [x00; x00]; head := 14; tail := 0 |};
     log_poll_work := None; print_once := false; dmesg := [];
     xfers := []; stored := take 14 letters; wakeups := 0; saturations := 0 |}.

(** A kernel that has printed nothing yet and whose only console log is
    nearly full; the EC has five more bytes for it. *)
Definition nearly_full_kernel : kernel script :=
  {| once := false; klog := [];
     console_logs := [nearly_full [(0, []); (5, ["V"; "W"; "X"; "Y"; "Z"]%byte)]] |}.

Definition fresh (e : script) : state script := fwk_ec_create_console_log LOG_SHIFT e.

Definition hello_world : list byte :=
  ["H"; "E"; "L"; "L"; "O"; "W"; "O"; "R"; "L"; "D"]%byte.

(** The driver's buffer; the snapshot transfer will fail with -1. *)
Definition snapshot_fails : state script :=
  set_log_poll_work None (fresh [(-1, [])]).

(** The empty 16-byte buffer. *)
Definition empty16 : circ_buf := log_buffer (fwk_ec_create_console_log 4 ([] : script)).

(** ** The spec's scenarios, run on the code *)

(** Capacity 16: a cycle stores HELLOWORLD, a read of 4 gets HELL, a read of
    100 gets OWORLD and empties the buffer. *)
Example hello_world_scenario :
  exists s,
    run 4 replay [OpWork; OpRead 0 4 false; OpRead 0 100 false]
      (fwk_ec_create_console_log 4 [(0, []); (10, hello_world)]) []
    = Some (s, hello_world) /\
    stored s = hello_world /\
    head (log_buffer s) = 10 /\ tail (log_buffer s) = 10.
Proof. eexists. vm_compute. auto. Qed.

(** The same reads, one at a time. *)
Example hello_world_reads :
  exists s cb1 cb2,
    run 4 replay [OpWork] (fwk_ec_create_console_log 4 [(0, []); (10, hello_world)]) []
      = Some (s, []) /\
    CIRC_CNT (head (log_buffer s)) (tail (log_buffer s)) (LOG_SIZE 4) = 10 /\
    read_locked 4 0 4 false (log_buffer s)
      = (Returned 4 ["H"; "E"; "L"; "L"]%byte, cb1) /\
    CIRC_CNT (head cb1) (tail cb1) (LOG_SIZE 4) = 6 /\
    read_locked 4 0 100 false cb1
      = (Returned 6 ["O"; "W"; "O"; "R"; "L"; "D"]%byte, cb2) /\
    CIRC_CNT (head cb2) (tail cb2) (LOG_SIZE 4) = 0.
Proof. do 3 eexists. vm_compute. auto 10. Qed.

(** 15 usable slots, 14 filled: a cycle whose response carries 5 bytes
    stores 1 and prints the message; the next cycle finds the space at 0
    again and prints nothing more. *)
Example saturation_scenario :
  exists s1 s2,
    run_work 4 replay
      (nearly_full [(0, []); (5, ["V"; "W"; "X"; "Y"; "Z"]%byte)]) = Some s1 /\
    stored s1 = take 14 letters ++ ["V"%byte] /\
    saturations s1 = 1%nat /\ dmesg s1 = [dropped_msg] /\
    run_work 4 replay s1 = Some s2 /\
    stored s2 = stored s1 /\
    saturations s2 = 2%nat /\ dmesg s2 = [dropped_msg] /\
    log_poll_work s2 = Some 10000.
Proof. do 2 eexists. vm_compute. auto 10. Qed.

(** Capacity 16: the appends of HELLO and of WORLD, the second response
    with a NUL and more after it; reads of 4 and of 100 return HELLOWORLD. *)
Example round_trip_scenario :
  exists s out cb,
    appends 4
      [(5, ["H"; "E"; "L"; "L"; "O"]%byte);
       (8, ["W"; "O"; "R"; "L"; "D"; x00; "x"; "y"]%byte)]
      (fwk_ec_create_console_log 4 ([] : script)) = Some s /\
    contents 4 (log_buffer s) = hello_world /\
    reads 4 0 [4; 100]%N (log_buffer s) = (out, cb) /\
    out = hello_world /\ head cb = tail cb.
Proof. do 3 eexists. vm_compute. auto 10. Qed.

(** Two console logs of capacity 16 in one kernel, each filled to the last
    slot by its first cycle: two saturations, one message, printed by the
    first; the second console log finds the flag set. *)
Example two_console_logs_scenario :
  exists k,
    krun 4 replay
      [KCreate [(0, []); (16, letters)]; KWork 0;
       KCreate [(0, []); (16, letters)]; KWork 1]
      (boot script) = Some k /\
    total_saturations k = 2%nat /\ once k = true /\ klog k = [dropped_msg] /\
    map saturations (console_logs k) = [1; 1]%nat /\
    map (fun s => length (stored s)) (console_logs k) = [15; 15]%nat.
Proof. eexists. vm_compute. auto 10. Qed.

(** Capacity 16: the notification arrives during a cycle that stores abc;
    the handler returns after that cycle and one more, which stores de. *)
Example panic_during_cycle_scenario :
  exists s2,
    panic_event_during_cycle 4 replay
      (fwk_ec_create_console_log 4
         [(0, []); (3, ["a"; "b"; "c"]%byte); (0, []);
          (0, []); (2, ["d"; "e"]%byte)])
    = Some (NOTIFY_DONE, s2) /\
    stored s2 = ["a"; "b"; "c"; "d"; "e"]%byte /\
    xfers s2 =
      [EC_CMD_CONSOLE_SNAPSHOT;
       EC_CMD_CONSOLE_READ CONSOLE_READ_RECENT;
       EC_CMD_CONSOLE_READ CONSOLE_READ_RECENT;
       EC_CMD_CONSOLE_SNAPSHOT;
       EC_CMD_CONSOLE_READ CONSOLE_READ_RECENT;
       EC_CMD_CONSOLE_READ CONSOLE_READ_RECENT] /\
    log_poll_work s2 = Some 10000.
Proof. eexists. vm_compute. auto 10. Qed.

(** ** The theorems at concrete inputs *)

Ltac crunch :=
  vm_compute; repeat split; try reflexivity; try (intro; discriminate).

(** Seven reads on the wrapped buffer, which holds 7 bytes: they return 3,
    1, 2 and 1 bytes and then nothing, all 7 bytes in order. *)
Lemma C2_fifo_round_trip_witness :
  cb_ok 4 wrapped /\
  Forall (fun count => (0 < count)%N) [3; 100; 2; 1; 1; 1; 1]%N /\
  (length (contents 4 wrapped) <= length [3; 100; 2; 1; 1; 1; 1]%N)%nat /\
  fst (reads 4 0 [3; 100; 2; 1; 1; 1; 1]%N wrapped) = contents 4 wrapped /\
  CIRC_CNT (head (snd (reads 4 0 [3; 100; 2; 1; 1; 1; 1]%N wrapped)))
           (tail (snd (reads 4 0 [3; 100; 2; 1; 1; 1; 1]%N wrapped)))
           (LOG_SIZE 4) = 0.
Proof.
  assert (Hok : cb_ok 4 wrapped) by crunch.
  assert (Hpos : Forall (fun count => (0 < count)%N) [3; 100; 2; 1; 1; 1; 1]%N)
    by (repeat constructor).
  assert (Hlen : (length (contents 4 wrapped) <= length [3; 100; 2; 1; 1; 1; 1]%N)%nat)
    by (vm_compute; lia).
  destruct (proj1 (proj2 (proj2 (proj2 (proj2 (C2_fifo_round_trip 4 script replay)))))
              wrapped 0 [3; 100; 2; 1; 1; 1; 1]%N Hok Hpos)
    as (n & _ & _ & _ & Hall).
  destruct (Hall Hlen) as [Hbytes Hempty].
  splits; assumption.
Defined.

(** The notification finds a cycle running that stores three bytes; the
    cycle forced after it stores two more. *)
Lemma C5_panic_notification_forces_one_cycle_witness :
  cb_ok LOG_SHIFT
    (log_buffer (fresh [(0, []); (3, ["a"; "b"; "c"]%byte); (0, []);
                        (0, []); (2, ["d"; "e"]%byte)])) /\
  exists s2,
    panic_event_during_cycle LOG_SHIFT replay
      (fresh [(0, []); (3, ["a"; "b"; "c"]%byte); (0, []);
              (0, []); (2, ["d"; "e"]%byte)]) = Some (NOTIFY_DONE, s2) /\
    log_poll_work s2 = Some (msecs_to_jiffies (LOG_POLL_SEC * 1000)) /\
    stored s2 = ["a"; "b"; "c"; "d"; "e"]%byte.
Proof.
  assert (Hok : cb_ok LOG_SHIFT
            (log_buffer (fresh [(0, []); (3, ["a"; "b"; "c"]%byte); (0, []);
                                (0, []); (2, ["d"; "e"]%byte)])))
    by crunch.
  split; [exact Hok|].
  destruct (proj2 (proj2 (C5_panic_notification_forces_one_cycle
                            LOG_SHIFT script replay _)) Hok)
    as (s1 & s2 & k1 & k2 & _ & _ & _ & _ & _ & Hrun & _ & _ & Hw).
  exists s2. split; [exact Hrun|]. split; [exact Hw|].
  vm_compute in Hrun. inversion Hrun. reflexivity.
Defined.

(** A read of 100 bytes on the wrapped buffer: 7 bytes are valid, 4 of them
    lie before the end of the storage, and 4 are returned. *)
Lemma C3_read_contiguous_run_witness :
  cb_ok 4 wrapped /\
  CIRC_CNT (head wrapped) (tail wrapped) (LOG_SIZE 4) <> 0 /\
  read_locked 4 0 100 false wrapped
    = (Returned 4 ["M"; "N"; "O"; "P"]%byte, advance_tail 4 4 wrapped) /\
  0 <= 4 /\
  4 = Z.min (Z.min (CIRC_CNT (head wrapped) (tail wrapped) (LOG_SIZE 4))
                   (LOG_SIZE 4 - tail wrapped)) (Z.of_N 100) /\
  tail wrapped + 4 <= LOG_SIZE 4 /\
  tail (advance_tail 4 4 wrapped) = (tail wrapped + 4) mod LOG_SIZE 4 /\
  (0 < Z.of_N 100 -> 0 < 4).
Proof.
  assert (Hok : cb_ok 4 wrapped) by crunch.
  assert (Hne : CIRC_CNT (head wrapped) (tail wrapped) (LOG_SIZE 4) <> 0) by crunch.
  assert (Hrd : read_locked 4 0 100 false wrapped
                = (Returned 4 ["M"; "N"; "O"; "P"]%byte, advance_tail 4 4 wrapped))
    by (vm_compute; reflexivity).
  assert (Hret : 0 <= 4) by lia.
  destruct (C3_read_contiguous_run 4 0 100 false wrapped _ 4 _ Hok Hne Hrd Hret)
    as (H1 & _ & _ & H4 & _ & _ & H7 & _ & _ & _ & H11).
  splits; assumption.
Defined.

(** 14 of 15 slots filled, a response of 5 bytes: 1 byte is stored. *)
Lemma C4_append_truncates_at_space_witness :
  cb_ok 4 (log_buffer (nearly_full [])) /\
  exists s',
    copy_loop 4 6 ["V"; "W"; "X"; "Y"; "Z"]%byte 5 0
      (space_of 4 (nearly_full [])) (nearly_full []) = Some (0, s') /\
    stored s' = take 14 letters ++ ["V"%byte].
Proof.
  assert (Hok : cb_ok 4 (log_buffer (nearly_full []))) by crunch.
  split; [exact Hok|].
  destruct (C4_append_truncates_at_space 4 script
              ["V"; "W"; "X"; "Y"; "Z"]%byte 5 (nearly_full []) Hok)
    as (s' & Hcopy & Hst & _).
  exists s'. split; [exact Hcopy | exact Hst].
Defined.

Lemma C6_snapshot_failure_skips_cycle_witness :
  fst (fst (replay (ec_dev snapshot_fails) EC_CMD_CONSOLE_SNAPSHOT)) < 0 /\
  log_poll_work snapshot_fails = None /\
  exists s',
    fwk_ec_console_log_work LOG_SHIFT replay snapshot_fails = Some s' /\
    log_buffer s' = log_buffer snapshot_fails /\
    xfers s' = xfers snapshot_fails ++ [EC_CMD_CONSOLE_SNAPSHOT] /\
    log_poll_work s' = Some (msecs_to_jiffies (LOG_POLL_SEC * 1000)).
Proof.
  assert (Hfail : fst (fst (replay (ec_dev snapshot_fails) EC_CMD_CONSOLE_SNAPSHOT)) < 0)
    by reflexivity.
  assert (Hidle : log_poll_work snapshot_fails = None) by reflexivity.
  destruct (C6_snapshot_failure_skips_cycle LOG_SHIFT script replay
              snapshot_fails Hfail Hidle)
    as (s' & Hrun & Hcb & Hx & _ & _ & _ & _ & Hw).
  splits; try assumption. exists s'. splits; assumption.
Defined.


(** A non-blocking read on the driver's fresh, empty buffer. *)
Lemma C8_nonblocking_empty_witness :
  Z.land O_NONBLOCK O_NONBLOCK <> 0 /\
  CIRC_CNT (head (log_buffer (fresh []))) (tail (log_buffer (fresh [])))
    (LOG_SIZE LOG_SHIFT) = 0 /\
  read_locked LOG_SHIFT O_NONBLOCK 64 false (log_buffer (fresh []))
    = (Returned (- EAGAIN) [], log_buffer (fresh [])).
Proof.
  assert (Hnb : Z.land O_NONBLOCK O_NONBLOCK <> 0) by crunch.
  assert (Hempty : CIRC_CNT (head (log_buffer (fresh []))) (tail (log_buffer (fresh [])))
                     (LOG_SIZE LOG_SHIFT) = 0) by reflexivity.
  splits; try assumption.
  exact (proj1 (C8_nonblocking_empty LOG_SHIFT O_NONBLOCK 64 false
                  (log_buffer (fresh [])) (log_buffer (fresh [])) false []
                  Hnb Hempty)).
Defined.

(** A blocking read on the fresh buffer: one pass, then a signal. *)
Lemma C9_interrupted_wait_witness :
  Z.land 0 O_NONBLOCK = 0 /\
  quiet LOG_SHIFT [(false, log_buffer (fresh []))] /\
  [(false, log_buffer (fresh []))] <> [] /\
  CIRC_CNT (head (log_buffer (fresh []))) (tail (log_buffer (fresh [])))
    (LOG_SIZE LOG_SHIFT) = 0 /\
  fwk_ec_console_log_read LOG_SHIFT 0 64 false
    ([(false, log_buffer (fresh []))] ++ [(true, log_buffer (fresh []))])
    (log_buffer (fresh []))
  = (Returned (- ERESTARTSYS) [], log_buffer (fresh [])).
Proof.
  assert (Hb : Z.land 0 O_NONBLOCK = 0) by reflexivity.
  assert (Hempty : CIRC_CNT (head (log_buffer (fresh []))) (tail (log_buffer (fresh [])))
                     (LOG_SIZE LOG_SHIFT) = 0) by reflexivity.
  assert (Hq : quiet LOG_SHIFT [(false, log_buffer (fresh []))])
    by (repeat constructor; exact Hempty).
  assert (Hne : [(false, log_buffer (fresh []))] <> []) by discriminate.
  splits; try assumption.
  exact (proj1 (proj2 (C9_interrupted_wait LOG_SHIFT 0 64 false _ _
                         (log_buffer (fresh [])) Hb Hq Hne Hempty))).
Defined.

(** A blocking read of length 0: one pass on the empty 16-byte buffer, then
    the wrapped buffer is seen twice. *)
Lemma C10_zero_length_blocking_read_witness :
  Z.land 0 O_NONBLOCK = 0 /\
  quiet 4 [(false, empty16)] /\
  [(false, empty16)] <> [] /\
  fwk_ec_console_log_read 4 0 0 false [(false, empty16)] empty16
    = (AtWait, empty16) /\
  CIRC_CNT (head wrapped) (tail wrapped) (LOG_SIZE 4) <> 0 /\
  cb_ok 4 wrapped /\
  fwk_ec_console_log_read 4 0 0 false
    ([(false, empty16)] ++ [(false, wrapped); (false, wrapped)]) empty16
  = (Returned 0 [], wrapped).
Proof.
  assert (Hb : Z.land 0 O_NONBLOCK = 0) by reflexivity.
  assert (Hq : quiet 4 [(false, empty16)]) by (repeat constructor).
  assert (Hne : [(false, empty16)] <> []) by discriminate.
  assert (Hne1 : CIRC_CNT (head wrapped) (tail wrapped) (LOG_SIZE 4) <> 0) by crunch.
  assert (Hok : cb_ok 4 wrapped) by crunch.
  destruct (C10_zero_length_blocking_read 4 0 false _ empty16 Hb Hq Hne)
    as (Hwait & _ & Hret).
  splits; try assumption.
  exact (Hret false false wrapped wrapped Hne1 Hne1 Hok).
Defined.

(** ** More instances *)

(** An EC that replays scripted answers to whole messages: the status, the
    result code and the data area it leaves. *)
Definition answers : Type := list (Z * Z * list byte).

Definition replay_msg (e : answers) (msg : Probe.fwk_ec_command)
    : Z * Probe.fwk_ec_command * answers :=
  match e with
  | [] => (0, msg, [])
  | (ret, res, dat) :: e' =>
      (ret,
       {| Probe.version := Probe.version msg; Probe.command := Probe.command msg;
          Probe.outsize := Probe.outsize msg; Probe.insize := Probe.insize msg;
          Probe.result := res; Probe.data := dat |},
       e')
  end.

(** A machine whose EC takes at most 4 bytes of response. *)
Definition machine (e : answers) (plan : list bool) (notifier : Z)
    : Probe.platform answers :=
  {| Probe.ec_hw := e; Probe.max_response := 4; Probe.cmd_offset := 0;
     Probe.allocs := plan; Probe.notifier_ret := notifier; Probe.sent := [] |}.

(** Probe with the command numbers and sizes of the ChromeOS EC interface. *)
Definition probe (p : Probe.platform answers) :=
  Probe.fwk_ec_debugfs_probe replay_msg 8 152 211 289 1 1 1 4 44 p.

(** No panic info, version 1 of the console read, uptime supported. *)
Definition healthy_ec : answers :=
  [(0, 0, []); (4, 0, [x02; x00; x00; x00]); (44, 0, [])].

(** The structure as probe first has it: an empty directory, nothing else. *)
Definition blank : Probe.fwk_ec_debugfs :=
  {| Probe.dir := Some [];
     Probe.log_buffer := {| buf := []; head := 0; tail := 0 |};
     Probe.read_msg := None; Probe.log_poll_work := None;
     Probe.panicinfo_blob := None |}.

(** What probe builds on that machine. *)
Definition probed : Probe.fwk_ec_debugfs :=
  {| Probe.dir := Some ["console_log"; "pdinfo"; "uptime";
                        "last_resume_result"; "suspend_timeout_ms"]%string;
     Probe.log_buffer := {| buf := Probe.zeroes (LOG_SIZE LOG_SHIFT);
                            head := 0; tail := 0 |};
     Probe.read_msg :=
       Some {| Probe.version := 1; Probe.command := 152; Probe.outsize := 1;
               Probe.insize := 4; Probe.result := 0;
               Probe.data := Probe.zeroes 4 |};
     Probe.log_poll_work := Some 0;
     Probe.panicinfo_blob := None |}.

(** ** The further theorems at concrete inputs *)

Lemma X1_poll_agrees_with_read_witness :
  cb_ok 4 wrapped /\ Z.land O_NONBLOCK O_NONBLOCK <> 0 /\ 0 < Z.of_N 100 /\
  ((fwk_ec_console_log_poll 4 wrapped = 0 /\
    read_locked 4 O_NONBLOCK 100 false wrapped = (Returned (- EAGAIN) [], wrapped)) \/
   (fwk_ec_console_log_poll 4 wrapped = Z.lor EPOLLIN EPOLLRDNORM /\
    exists ret ubuf cb',
      read_locked 4 O_NONBLOCK 100 false wrapped = (Returned ret ubuf, cb') /\
      0 < ret <= Z.of_N 100 /\ Z.of_nat (length ubuf) = ret)).
Proof.
  assert (Hok : cb_ok 4 wrapped) by crunch.
  assert (Hnb : Z.land O_NONBLOCK O_NONBLOCK <> 0) by crunch.
  assert (Hc : 0 < Z.of_N 100) by reflexivity.
  splits; try assumption.
  exact (X1_poll_agrees_with_read 4 O_NONBLOCK 100 wrapped Hok Hnb Hc).
Defined.

Lemma X3_two_reads_drain_witness :
  cb_ok 4 wrapped /\
  CIRC_CNT (head wrapped) (tail wrapped) (LOG_SIZE 4) <= Z.of_N 100 /\
  ubuf_of (fst (read_locked 4 0 100 false wrapped)) ++
  ubuf_of (fst (read_locked 4 0 100 false (snd (read_locked 4 0 100 false wrapped))))
    = contents 4 wrapped.
Proof.
  assert (Hok : cb_ok 4 wrapped) by crunch.
  assert (Hbig : CIRC_CNT (head wrapped) (tail wrapped) (LOG_SIZE 4) <= Z.of_N 100)
    by crunch.
  splits; try assumption.
  exact (proj1 (X3_two_reads_drain 4 0 100 wrapped Hok Hbig)).
Defined.

Lemma X4_read_outcomes_witness :
  cb_ok 4 wrapped /\
  let cnt := CIRC_CNT (head wrapped) (tail wrapped) (LOG_SIZE 4) in
  match read_locked 4 0 100 true wrapped with
  | (AtLoopTest, _) => False
  | (AtWait, cb') => cnt = 0 /\ Z.land 0 O_NONBLOCK = 0 /\ cb' = wrapped
  | (Returned ret ubuf, cb') =>
      (ret = - EAGAIN /\ cnt = 0 /\ Z.land 0 O_NONBLOCK <> 0 /\
       ubuf = [] /\ cb' = wrapped) \/
      (ret = - EFAULT /\ true = true /\ cnt <> 0 /\ 0 < Z.of_N 100 /\
       ubuf = [] /\ cb' = wrapped) \/
      (0 <= ret <= Z.of_N 100 /\ ret <= cnt /\ cnt <> 0 /\
       Z.of_nat (length ubuf) = ret /\
       cb' = advance_tail 4 ret wrapped /\
       CIRC_CNT (head cb') (tail cb') (LOG_SIZE 4) = cnt - ret)
  end.
Proof.
  assert (Hok : cb_ok 4 wrapped) by crunch.
  split; [exact Hok|].
  exact (X4_read_outcomes 4 0 100 true wrapped Hok).
Defined.

Lemma X5_cycle_traffic_is_bounded_witness :
  cb_ok 4 (log_buffer (nearly_full [(0, []); (5, ["V"; "W"; "X"; "Y"; "Z"]%byte)])) /\
  exists s' (k : nat),
    run_work 4 replay (nearly_full [(0, []); (5, ["V"; "W"; "X"; "Y"; "Z"]%byte)])
      = Some s' /\
    Z.of_nat k <= space_of 4 (nearly_full [(0, []); (5, ["V"; "W"; "X"; "Y"; "Z"]%byte)]).
Proof.
  assert (Hok : cb_ok 4 (log_buffer
            (nearly_full [(0, []); (5, ["V"; "W"; "X"; "Y"; "Z"]%byte)]))) by crunch.
  split; [exact Hok|].
  destruct (X5_cycle_traffic_is_bounded 4 script replay _ Hok)
    as (s' & k & Hrun & _ & Hk & _).
  exists s', k. split; assumption.
Defined.

Lemma X6_cycle_wakes_iff_stored_witness :
  cb_ok LOG_SHIFT (log_buffer (fresh [(0, []); (3, ["a"; "b"; "c"]%byte)])) /\
  exists s',
    run_work LOG_SHIFT replay (fresh [(0, []); (3, ["a"; "b"; "c"]%byte)]) = Some s' /\
    (wakeups s' = wakeups (fresh [(0, []); (3, ["a"; "b"; "c"]%byte)]) <->
     stored s' = stored (fresh [(0, []); (3, ["a"; "b"; "c"]%byte)])).
Proof.
  assert (Hok : cb_ok LOG_SHIFT (log_buffer (fresh [(0, []); (3, ["a"; "b"; "c"]%byte)])))
    by crunch.
  split; [exact Hok|].
  destruct (X6_cycle_wakes_iff_stored LOG_SHIFT script replay _ Hok)
    as (s' & Hrun & _ & _ & Hiff).
  exists s'. split; assumption.
Defined.

Lemma X7_blocking_read_wakes_with_data_witness :
  Z.land 0 O_NONBLOCK = 0 /\ 0 < Z.of_N 100 /\
  quiet 4 [(false, empty16)] /\ [(false, empty16)] <> [] /\
  CIRC_CNT (head wrapped) (tail wrapped) (LOG_SIZE 4) <> 0 /\
  cb_ok 4 wrapped /\
  exists ret,
    fwk_ec_console_log_read 4 0 100 false
      ([(false, empty16)] ++ [(false, wrapped); (true, wrapped)]) empty16
    = (Returned ret (take (Z.to_nat ret) (contents 4 wrapped)),
       advance_tail 4 ret wrapped) /\
    0 < ret <= Z.of_N 100.
Proof.
  assert (Hb : Z.land 0 O_NONBLOCK = 0) by reflexivity.
  assert (Hc : 0 < Z.of_N 100) by reflexivity.
  assert (Hq : quiet 4 [(false, empty16)]) by (repeat constructor).
  assert (Hne : [(false, empty16)] <> []) by discriminate.
  assert (Hne1 : CIRC_CNT (head wrapped) (tail wrapped) (LOG_SIZE 4) <> 0) by crunch.
  assert (Hok : cb_ok 4 wrapped) by crunch.
  splits; try assumption.
  destruct (X7_blocking_read_wakes_with_data 4 0 100 _ false true wrapped wrapped
              empty16 Hb Hc Hq Hne Hne1 Hne1 Hok) as (ret & Hrun & Hret & _).
  exists ret. split; assumption.
Defined.

Lemma X8_cycle_only_appends_witness :
  cb_ok 4 (log_buffer (nearly_full [(0, []); (5, ["V"; "W"; "X"; "Y"; "Z"]%byte)])) /\
  exists s' acc,
    run_work 4 replay (nearly_full [(0, []); (5, ["V"; "W"; "X"; "Y"; "Z"]%byte)])
      = Some s' /\
    contents 4 (log_buffer s')
      = contents 4 (log_buffer (nearly_full [(0, []); (5, ["V"; "W"; "X"; "Y"; "Z"]%byte)]))
        ++ acc.
Proof.
  assert (Hok : cb_ok 4 (log_buffer
            (nearly_full [(0, []); (5, ["V"; "W"; "X"; "Y"; "Z"]%byte)]))) by crunch.
  split; [exact Hok|].
  destruct (X8_cycle_only_appends 4 script replay _ Hok)
    as (s' & acc & Hrun & _ & _ & Hc & _).
  exists s', acc. split; assumption.
Defined.

Lemma X10_suspended_driver_is_silent_witness :
  log_buffer_buf (fresh [(0, []); (3, ["a"; "b"; "c"]%byte)]) = true /\
  forallb passive [EvTick; EvRead 0 16 false; EvTick] = true /\
  (exists s' delivered',
     drive LOG_SHIFT replay (EvSuspend :: [EvTick; EvRead 0 16 false; EvTick])
       (fresh [(0, []); (3, ["a"; "b"; "c"]%byte)]) [] = Some (s', delivered') /\
     xfers s' = xfers (fresh [(0, []); (3, ["a"; "b"; "c"]%byte)]) /\
     stored s' = stored (fresh [(0, []); (3, ["a"; "b"; "c"]%byte)])) /\
  (exists s' delivered',
     drive LOG_SHIFT replay [EvTick; EvRead 0 16 false; EvTick]
       (fwk_ec_cleanup_console_log (fresh [(0, []); (3, ["a"; "b"; "c"]%byte)])) []
     = Some (s', delivered') /\
     xfers s' = xfers (fresh [(0, []); (3, ["a"; "b"; "c"]%byte)]) /\
     wakeups s' = wakeups (fresh [(0, []); (3, ["a"; "b"; "c"]%byte)]) /\
     head (log_buffer s') =
     head (log_buffer (fresh [(0, []); (3, ["a"; "b"; "c"]%byte)]))).
Proof.
  assert (Hb : log_buffer_buf (fresh [(0, []); (3, ["a"; "b"; "c"]%byte)]) = true)
    by (vm_compute; reflexivity).
  assert (Hp : forallb passive [EvTick; EvRead 0 16 false; EvTick] = true)
    by reflexivity.
  destruct (X10_suspended_driver_is_silent LOG_SHIFT script replay _ _ [] Hb Hp)
    as [(s1 & d1 & Hrun1 & Hx1 & Hst1 & _)
        (s2 & d2 & Hrun2 & Hx2 & _ & Hw2 & Hh2 & _)].
  splits; try assumption.
  - exists s1, d1. splits; assumption.
  - exists s2, d2. splits; assumption.
Defined.

Lemma X11_panic_runs_one_cycle_witness :
  cb_ok LOG_SHIFT (log_buffer (fresh [(0, []); (3, ["a"; "b"; "c"]%byte)])) /\
  exists s',
    fwk_ec_debugfs_panic_event LOG_SHIFT replay
      (fresh [(0, []); (3, ["a"; "b"; "c"]%byte)]) = Some (NOTIFY_DONE, s') /\
    log_poll_work s' = Some (msecs_to_jiffies (LOG_POLL_SEC * 1000)).
Proof.
  assert (Hok : cb_ok LOG_SHIFT (log_buffer (fresh [(0, []); (3, ["a"; "b"; "c"]%byte)])))
    by crunch.
  split; [exact Hok|].
  destruct (proj1 (X11_panic_runs_one_cycle LOG_SHIFT script replay _) Hok)
    as (s' & k & acc & Hrun & _ & _ & _ & _ & Hw).
  exists s'. split; assumption.
Defined.

Lemma X12_suspend_then_resume_witness :
  log_buffer_buf (fresh []) = true /\
  snd (fwk_ec_debugfs_resume (snd (fwk_ec_debugfs_suspend (fresh []))))
    = set_log_poll_work (Some 0) (fresh []).
Proof.
  assert (Hb : log_buffer_buf (fresh []) = true) by (vm_compute; reflexivity).
  split; [exact Hb|].
  exact (proj1 (proj1 (X12_suspend_then_resume LOG_SHIFT script replay (fresh []) []) Hb)).
Defined.

(** The EC hands out three bytes of panic info. *)
Lemma X13_get_panicinfo_witness :
  Probe.fwk_ec_get_panicinfo replay_msg 211 (Some (Probe.zeroes 4)) 4
    (machine [(3, 0, [x01; x02; x03; x00])] [] 0)
  = (3, Some [x01; x02; x03; x00],
     snd (Probe.fwk_ec_get_panicinfo replay_msg 211 (Some (Probe.zeroes 4)) 4
            (machine [(3, 0, [x01; x02; x03; x00])] [] 0))) /\
  (0 <= 3 -> 0 < 4 <= Probe.max_response (machine [(3, 0, [x01; x02; x03; x00])] [] 0)).
Proof.
  assert (Hrun : Probe.fwk_ec_get_panicinfo replay_msg 211 (Some (Probe.zeroes 4)) 4
                   (machine [(3, 0, [x01; x02; x03; x00])] [] 0)
                 = (3, Some [x01; x02; x03; x00],
                    snd (Probe.fwk_ec_get_panicinfo replay_msg 211
                           (Some (Probe.zeroes 4)) 4
                           (machine [(3, 0, [x01; x02; x03; x00])] [] 0))))
    by (vm_compute; reflexivity).
  split; [exact Hrun|].
  intros Hnn.
  exact (proj1 (proj1 (proj2 (proj2 (proj2
           (Probe.X13_get_panicinfo answers replay_msg 211 _ _ _ _ _ _ Hrun)))) Hnn)).
Defined.

(** The EC hands out three bytes of panic info: the blob has size 3. *)
Lemma X14_create_panicinfo_witness :
  Probe.fwk_ec_create_panicinfo replay_msg 211
    blank (machine [(3, 0, [x01; x02; x03; x00])] [] 0)
  = (0,
     Probe.with_panicinfo replay_msg 211 blank
       (machine [(3, 0, [x01; x02; x03; x00])] [] 0),
     snd (Probe.fwk_ec_create_panicinfo replay_msg 211
            blank (machine [(3, 0, [x01; x02; x03; x00])] [] 0))) /\
  Probe.allocs (machine [(3, 0, [x01; x02; x03; x00])] [] 0) = [] /\
  Probe.with_panicinfo replay_msg 211 blank
    (machine [(3, 0, [x01; x02; x03; x00])] [] 0) =
  (if (0 <? Probe.max_response (machine [(3, 0, [x01; x02; x03; x00])] [] 0)) &&
      (0 <? Probe.panicinfo_count replay_msg 211
              (machine [(3, 0, [x01; x02; x03; x00])] [] 0))
   then Probe.with_panicinfo replay_msg 211 blank
          (machine [(3, 0, [x01; x02; x03; x00])] [] 0)
   else blank).
Proof.
  assert (Hrun : Probe.fwk_ec_create_panicinfo replay_msg 211
                   blank (machine [(3, 0, [x01; x02; x03; x00])] [] 0)
                 = (0,
                    Probe.with_panicinfo replay_msg 211 blank
                      (machine [(3, 0, [x01; x02; x03; x00])] [] 0),
                    snd (Probe.fwk_ec_create_panicinfo replay_msg 211
                           blank
                           (machine [(3, 0, [x01; x02; x03; x00])] [] 0))))
    by (vm_compute; reflexivity).
  assert (Ha : Probe.allocs (machine [(3, 0, [x01; x02; x03; x00])] [] 0) = [])
    by reflexivity.
  split; [exact Hrun|]. split; [exact Ha|].
  exact (proj1 (proj1 (proj2 (proj2 (proj2 (proj2 (proj2
           (Probe.X14_create_panicinfo answers replay_msg 211 _ _ _ _ _ Hrun))))))
           Ha)).
Defined.

(** The allocation of the storage fails. *)
Lemma X15_create_console_log_witness :
  Probe.fwk_ec_create_console_log replay_msg 8 152 1 1 4
    blank
    (machine [(4, 0, [x02; x00; x00; x00])] [true; false] 0)
  = (- Probe.ENOMEM, blank,
     snd (Probe.fwk_ec_create_console_log replay_msg 8 152 1 1 4
            blank
            (machine [(4, 0, [x02; x00; x00; x00])] [true; false] 0))) /\
  (- Probe.ENOMEM = 0 \/ - Probe.ENOMEM = - Probe.ENOMEM).
Proof.
  assert (Hrun : Probe.fwk_ec_create_console_log replay_msg 8 152 1 1 4
                   blank
                   (machine [(4, 0, [x02; x00; x00; x00])] [true; false] 0)
                 = (- Probe.ENOMEM, blank,
                    snd (Probe.fwk_ec_create_console_log replay_msg 8 152 1 1 4
                           blank
                           (machine [(4, 0, [x02; x00; x00; x00])] [true; false] 0))))
    by (vm_compute; reflexivity).
  split; [exact Hrun|].
  exact (proj1 (Probe.X15_create_console_log answers replay_msg 8 152 1 1 4
                  _ _ _ _ _ Hrun)).
Defined.

(** The EC has no panic info, has version 1 of the console read, and
    rejects the uptime command as invalid: no [uptime] file. *)
Lemma X16_probe_does_not_depend_on_the_EC_witness :
  Probe.allocs
    (machine [(0, 0, []); (4, 0, [x02; x00; x00; x00]); (-71, 1, [])] [] 0) = [] /\
  Probe.notifier_ret
    (machine [(0, 0, []); (4, 0, [x02; x00; x00; x00]); (-71, 1, [])] [] 0) = 0 /\
  exists d p',
    probe (machine [(0, 0, []); (4, 0, [x02; x00; x00; x00]); (-71, 1, [])] [] 0)
      = (0, Some d, p') /\
    Probe.dir d = Some ["console_log"; "pdinfo"; "last_resume_result";
                        "suspend_timeout_ms"]%string.
Proof.
  assert (Ha : Probe.allocs
                 (machine [(0, 0, []); (4, 0, [x02; x00; x00; x00]); (-71, 1, [])]
                    [] 0) = [])
    by reflexivity.
  assert (Hn : Probe.notifier_ret
                 (machine [(0, 0, []); (4, 0, [x02; x00; x00; x00]); (-71, 1, [])]
                    [] 0) = 0)
    by reflexivity.
  splits; try assumption.
  destruct (Probe.X16_probe_does_not_depend_on_the_EC answers replay_msg
              8 152 211 289 1 1 1 4 44 _ Ha Hn)
    as (d & p' & panic & log & uptime & Hrun & Hdir & Hp & Hl & _ & Hu & _).
  exists d, p'. split; [exact Hrun|].
  rewrite Hdir, Hp, Hl, Hu. vm_compute. reflexivity.
Defined.

(** The structure itself cannot be allocated. *)
Lemma X17_failed_probe_removes_the_directory_witness :
  probe (machine healthy_ec [false] 0)
    = (- Probe.ENOMEM, None, machine healthy_ec [] 0) /\
  (- Probe.ENOMEM <> 0 ->
   Probe.sent (machine healthy_ec [] 0) = Probe.sent (machine healthy_ec [false] 0)).
Proof.
  assert (Hrun : probe (machine healthy_ec [false] 0)
                 = (- Probe.ENOMEM, None, machine healthy_ec [] 0))
    by reflexivity.
  split; [exact Hrun|].
  intros Hnz.
  exact (proj2 (proj2 (proj1
           (Probe.X17_failed_probe_removes_the_directory answers replay_msg
              8 152 211 289 1 1 1 4 44 _ _ _ _ Hrun) Hnz)) eq_refl).
Defined.

(** The buffer for the panic info cannot be allocated. *)
Lemma X18_failed_probe_and_the_poll_item_witness :
  probe (machine healthy_ec [true; false] 0)
    = (- Probe.ENOMEM,
       Some {| Probe.dir := None;
               Probe.log_buffer := {| buf := []; head := 0; tail := 0 |};
               Probe.read_msg := None; Probe.log_poll_work := None;
               Probe.panicinfo_blob := None |},
       machine healthy_ec [] 0) /\
  - Probe.ENOMEM <> 0 /\
  @None (list string) = None.
Proof.
  assert (Hrun : probe (machine healthy_ec [true; false] 0)
                 = (- Probe.ENOMEM,
                    Some {| Probe.dir := None;
                            Probe.log_buffer := {| buf := []; head := 0; tail := 0 |};
                            Probe.read_msg := None; Probe.log_poll_work := None;
                            Probe.panicinfo_blob := None |},
                    machine healthy_ec [] 0))
    by reflexivity.
  assert (Hnz : - Probe.ENOMEM <> 0) by crunch.
  splits; try assumption.
  exact (proj1 (Probe.X18_failed_probe_and_the_poll_item answers replay_msg
                  8 152 211 289 1 1 1 4 44 _ _ _ _ Hrun Hnz)).
Defined.

(** Probe on the healthy machine sets the console log up. *)
Lemma X19_probe_hands_over_a_fresh_log_witness :
  probe (machine healthy_ec [] 0)
    = (0, Some probed, snd (probe (machine healthy_ec [] 0))) /\
  buf (Probe.log_buffer probed) <> [] /\
  Probe.log_state probed (snd (probe (machine healthy_ec [] 0)))
    = fwk_ec_create_console_log LOG_SHIFT
        (Probe.ec_hw (snd (probe (machine healthy_ec [] 0)))).
Proof.
  assert (Hrun : probe (machine healthy_ec [] 0)
                 = (0, Some probed, snd (probe (machine healthy_ec [] 0))))
    by (vm_compute; reflexivity).
  assert (Hbuf : buf (Probe.log_buffer probed) <> [])
    by (vm_compute; intro; discriminate).
  splits; try assumption.
  exact (proj1 (X19_probe_hands_over_a_fresh_log answers replay_msg (fun e _ => (0, [], e))
                  8 152 211 289 1 1 1 4 44 _ _ _ Hrun Hbuf)).
Defined.
